(** * art-viewer: the interactive state of [viewer.js]

    A shallow embedding of the session state of the Parthenon Cavalcade
    viewer ([src/viewer.js]) and of the handlers that mutate it: the
    annotation store, the tour cursor, the measure and add-annotation modes,
    click routing and the camera animator.

    JavaScript numbers are IEEE 754 binary64 values, which is what Rocq's
    primitive [float] is, so coordinates, times and distances are [float]s
    and evaluate by computation.  Array indices, ordinals and the tour
    cursor are integer-valued in every call of the program and are kept in
    [Z].  Strings are sequences of UTF-16 code units. *)

From Stdlib Require Import ZArith NArith List Bool Lia String Ascii.
From Stdlib Require Import Floats DecimalString.
Import ListNotations.

Local Open Scope Z_scope.
Set Warnings "-inexact-float".

(** ** JavaScript strings *)

Module JsString.

(** A string value: its UTF-16 code units. *)
Definition t : Type := list N.

Definition of_string (s : string) : t :=
  map N_of_ascii (list_ascii_of_string s).

(** [WhiteSpace] and [LineTerminator] of ECMAScript: TAB, LF, VT, FF, CR,
    SP, NBSP, the other space separators (category Zs), LS, PS and the
    byte order mark. *)
Definition isWhiteSpace (c : N) : bool :=
  ((9 <=? c) && (c <=? 13)
   || (c =? 32) || (c =? 160) || (c =? 5760)
   || (8192 <=? c) && (c <=? 8202)
   || (c =? 8232) || (c =? 8233) || (c =? 8239) || (c =? 8287)
   || (c =? 12288) || (c =? 65279))%N.

Fixpoint trimStart (s : t) : t :=
  match s with
  | c :: s' => if isWhiteSpace c then trimStart s' else s
  | [] => []
  end.

Definition trimEnd (s : t) : t := rev (trimStart (rev s)).

(** [String.prototype.trim]. *)
Definition trim (s : t) : t := trimEnd (trimStart s).

(** ToBoolean on a string: only the empty string is falsy. *)
Definition truthy (s : t) : bool :=
  match s with [] => false | _ :: _ => true end.

(** [a || b] on strings. *)
Definition or (a b : t) : t := if truthy a then a else b.

End JsString.

(** ** Numbers *)

Module Num.

Local Open Scope float_scope.

(** [Math.min] on two arguments: NaN if either is NaN, and -0 below +0. *)
Definition Math_min (a b : float) : float :=
  if is_nan a || is_nan b then nan
  else if a <? b then a
  else if b <? a then b
  else if (is_zero a && get_sign a)%bool then a else b.

(** [Math.max] on two arguments: NaN if either is NaN, and +0 above -0. *)
Definition Math_max (a b : float) : float :=
  if is_nan a || is_nan b then nan
  else if a <? b then b
  else if b <? a then a
  else if (is_zero a && get_sign a)%bool then b else a.

(** [Math.sqrt] is correctly rounded in ECMAScript, as [PrimFloat.sqrt]. *)
Definition Math_sqrt (a : float) : float := sqrt a.

(** The exact value of a finite number, scaled by 1000 and rounded to the
    nearest integer, the larger one on a tie: the [n] of
    [Number.prototype.toFixed] for three fraction digits. *)
Definition scaled3 (m : positive) (e : Z) : Z :=
  if (0 <=? e)%Z then (Z.pos m * 2 ^ e * 1000)%Z
  else ((2 * Z.pos m * 1000 + 2 ^ (- e)) / 2 ^ (- e + 1))%Z.

(** [m * 2^e >= 10^21], where [toFixed] falls back to [ToString]. *)
Definition atLeast1e21 (m : positive) (e : Z) : bool :=
  if (0 <=? e)%Z then (10 ^ 21 <=? Z.pos m * 2 ^ e)%Z
  else (10 ^ 21 * 2 ^ (- e) <=? Z.pos m)%Z.

Definition digits (n : Z) : JsString.t :=
  JsString.of_string (NilZero.string_of_uint (N.to_uint (Z.to_N n))).

(** Digits of [n] with the decimal point before the last three, padded
    with zeros on the left to at least four digits. *)
Definition pointed3 (n : Z) : JsString.t :=
  let m := digits n in
  let m := (repeat 48%N (4 - List.length m) ++ m)%nat in
  let k := List.length m in
  (firstn (k - 3) m ++ 46%N :: skipn (k - 3) m)%nat.

(** [x.toFixed(3)].  The result is [None] where ECMAScript defers to
    [Number::toString] on a finite value (magnitude at least 1e21), whose
    digits are not modelled. *)
Definition toFixed3 (x : float) : option JsString.t :=
  match Prim2SF x with
  | S754_nan => Some (JsString.of_string "NaN")
  | S754_infinity false => Some (JsString.of_string "Infinity")
  | S754_infinity true => Some (JsString.of_string "-Infinity")
  | S754_zero _ => Some (pointed3 0)
  | S754_finite s m e =>
      if atLeast1e21 m e then None
      else Some ((if s then [45%N] else []) ++ pointed3 (scaled3 m e))
  end.

End Num.

(** ** three.js vectors *)

(** The methods of [THREE.Vector3] that the source calls, as three.js r160
    defines them (the release whose Draco decoder [loadModel] fetches); the
    library is not part of the repository. *)
Module Vector3.

Local Open Scope float_scope.

Record t : Type := mk { x : float; y : float; z : float }.

(** [v.clone().add(w)] *)
Definition add (v w : t) : t := mk (x v + x w) (y v + y w) (z v + z w).

(** [this.lerpVectors(v1, v2, alpha)] of three.js r160,
    [v1 + (v2 - v1) * alpha] on every component. *)
Definition lerpVectors (v1 v2 : t) (alpha : float) : t :=
  mk (x v1 + (x v2 - x v1) * alpha)
     (y v1 + (y v2 - y v1) * alpha)
     (z v1 + (z v2 - z v1) * alpha).

Definition distanceToSquared (v w : t) : float :=
  let dx := x v - x w in
  let dy := y v - y w in
  let dz := z v - z w in
  dx * dx + dy * dy + dz * dz.

(** [v.distanceTo(w)]: the Euclidean distance, in binary64 arithmetic. *)
Definition distanceTo (v w : t) : float :=
  Num.Math_sqrt (distanceToSquared v w).

(** [position.y += dy] *)
Definition liftY (v : t) (dy : float) : t := mk (x v) (y v + dy) (z v).

End Vector3.

(** ** Annotations *)

Module Annotation.

Record t : Type := mk {
  id : Z;
  title : JsString.t;
  description : JsString.t;
  position : Vector3.t
}.

(** [annotation.id = v] *)
Definition set_id (v : Z) (a : t) : t :=
  mk v (title a) (description a) (position a).

End Annotation.

(** ** Scene objects *)

(** Which constructor of the source made an object. *)
Inductive Kind : Type :=
| Light              (* setupLights *)
| ModelRoot          (* gltf.scene *)
| MeasureMarker      (* the sphere of addMeasurePoint *)
| MeasureLine        (* the THREE.Line of addMeasurePoint *)
| AnnotationMarker   (* createAnnotationMarker(position, index) *)
| PreviewMarker      (* createAnnotationMarker(position, -1, true) *)
| PlacedMarker.      (* createPlacedMarker(position) *)

Definition Kind_eqb (a b : Kind) : bool :=
  match a, b with
  | Light, Light | ModelRoot, ModelRoot | MeasureMarker, MeasureMarker
  | MeasureLine, MeasureLine | AnnotationMarker, AnnotationMarker
  | PreviewMarker, PreviewMarker | PlacedMarker, PlacedMarker => true
  | _, _ => false
  end.

(** The attributes of a three.js object that the handlers read or write.
    [objectId] stands for the identity of the JavaScript object: the scene
    and the state refer to the same object when the ids agree. *)
Record Object3D : Type := mkObject {
  objectId : nat;
  kind : Kind;
  position : Vector3.t;
  visible : bool;
  userIndex : option Z;       (* userData.index, None when undefined *)
  userIsPreview : bool        (* userData.isPreview, false when undefined *)
}.

Definition set_position (v : Vector3.t) (o : Object3D) : Object3D :=
  mkObject (objectId o) (kind o) v (visible o) (userIndex o) (userIsPreview o).

Definition set_visible (v : bool) (o : Object3D) : Object3D :=
  mkObject (objectId o) (kind o) (position o) v (userIndex o) (userIsPreview o).

(** An entry of [scene.children]: which object, and of which kind. *)
Record Child : Type := mkChild { childId : nat; childKind : Kind }.

Definition childOf (o : Object3D) : Child := mkChild (objectId o) (kind o).

(** ** The camera animator's closure *)

(** The variables captured by the [update] closure of [animateCamera]. *)
Record Animation : Type := mkAnimation {
  startPosition : Vector3.t;
  startTarget : Vector3.t;
  newPosition : Vector3.t;
  newTarget : Vector3.t;
  duration : float;
  startTime : float
}.

(** ** The host environment *)

(** What the program calls and does not define: the clock, the engine's
    [Math.pow] (whose rounding ECMAScript leaves to the implementation),
    [OrbitControls.update], which re-derives the camera position and the
    orbit target from the values it is given, and the browser's HTML parser
    and selector engine, of which the program uses one answer: whether
    [card.querySelector('.annotation-delete')] is an element, and not
    [null], once [card.innerHTML] has been set to a given markup. *)
Record Env : Type := mkEnv {
  performance_now : nat -> float;   (* the n-th reading of the clock *)
  Math_pow : float -> float -> float;
  controls_update : Vector3.t * Vector3.t -> Vector3.t * Vector3.t;
  querySelector_delete : JsString.t -> bool
}.

Inductive Cursor : Type := CursorDefault | Grab | Crosshair.

(** ** The page elements the handlers write *)

Module Dom.

Record t : Type := mk {
  (* [#info-panel] carries the class [hidden] *)
  infoPanelHidden : bool;
  (* text of [#info-title] *)
  infoTitle : JsString.t;
  (* text of [#info-description] *)
  infoDescription : JsString.t;
  (* text of [#measurement-result]: empty, or the distance it shows *)
  measurementResult : option float;
  (* [#measurement-display] carries the class [hidden] *)
  measurementDisplayHidden : bool;
  (* [#annotation-modal] carries the class [hidden] *)
  annotationModalHidden : bool;
  (* value of the [#annotation-title] input *)
  annotationTitle : JsString.t;
  (* value of the [#annotation-description] input *)
  annotationDescription : JsString.t;
  (* [#btn-save-annotation] is disabled *)
  saveDisabled : bool;
  (* [style.cursor] of the canvas *)
  cursor : Cursor
}.

Definition set_infoPanelHidden (v : bool) (s : t) : t :=
  {| infoPanelHidden := v; infoTitle := infoTitle s; infoDescription :=
     infoDescription s; measurementResult := measurementResult s;
     measurementDisplayHidden := measurementDisplayHidden s;
     annotationModalHidden := annotationModalHidden s; annotationTitle :=
     annotationTitle s; annotationDescription := annotationDescription s;
     saveDisabled := saveDisabled s; cursor := cursor s |}.
Definition set_infoTitle (v : JsString.t) (s : t) : t :=
  {| infoPanelHidden := infoPanelHidden s; infoTitle := v; infoDescription :=
     infoDescription s; measurementResult := measurementResult s;
     measurementDisplayHidden := measurementDisplayHidden s;
     annotationModalHidden := annotationModalHidden s; annotationTitle :=
     annotationTitle s; annotationDescription := annotationDescription s;
     saveDisabled := saveDisabled s; cursor := cursor s |}.
Definition set_infoDescription (v : JsString.t) (s : t) : t :=
  {| infoPanelHidden := infoPanelHidden s; infoTitle := infoTitle s;
     infoDescription := v; measurementResult := measurementResult s;
     measurementDisplayHidden := measurementDisplayHidden s;
     annotationModalHidden := annotationModalHidden s; annotationTitle :=
     annotationTitle s; annotationDescription := annotationDescription s;
     saveDisabled := saveDisabled s; cursor := cursor s |}.
Definition set_measurementResult (v : option float) (s : t) : t :=
  {| infoPanelHidden := infoPanelHidden s; infoTitle := infoTitle s;
     infoDescription := infoDescription s; measurementResult := v;
     measurementDisplayHidden := measurementDisplayHidden s;
     annotationModalHidden := annotationModalHidden s; annotationTitle :=
     annotationTitle s; annotationDescription := annotationDescription s;
     saveDisabled := saveDisabled s; cursor := cursor s |}.
Definition set_measurementDisplayHidden (v : bool) (s : t) : t :=
  {| infoPanelHidden := infoPanelHidden s; infoTitle := infoTitle s;
     infoDescription := infoDescription s; measurementResult :=
     measurementResult s; measurementDisplayHidden := v;
     annotationModalHidden := annotationModalHidden s; annotationTitle :=
     annotationTitle s; annotationDescription := annotationDescription s;
     saveDisabled := saveDisabled s; cursor := cursor s |}.
Definition set_annotationModalHidden (v : bool) (s : t) : t :=
  {| infoPanelHidden := infoPanelHidden s; infoTitle := infoTitle s;
     infoDescription := infoDescription s; measurementResult :=
     measurementResult s; measurementDisplayHidden :=
     measurementDisplayHidden s; annotationModalHidden := v; annotationTitle
     := annotationTitle s; annotationDescription := annotationDescription s;
     saveDisabled := saveDisabled s; cursor := cursor s |}.
Definition set_annotationTitle (v : JsString.t) (s : t) : t :=
  {| infoPanelHidden := infoPanelHidden s; infoTitle := infoTitle s;
     infoDescription := infoDescription s; measurementResult :=
     measurementResult s; measurementDisplayHidden :=
     measurementDisplayHidden s; annotationModalHidden :=
     annotationModalHidden s; annotationTitle := v; annotationDescription :=
     annotationDescription s; saveDisabled := saveDisabled s; cursor :=
     cursor s |}.
Definition set_annotationDescription (v : JsString.t) (s : t) : t :=
  {| infoPanelHidden := infoPanelHidden s; infoTitle := infoTitle s;
     infoDescription := infoDescription s; measurementResult :=
     measurementResult s; measurementDisplayHidden :=
     measurementDisplayHidden s; annotationModalHidden :=
     annotationModalHidden s; annotationTitle := annotationTitle s;
     annotationDescription := v; saveDisabled := saveDisabled s; cursor :=
     cursor s |}.
Definition set_saveDisabled (v : bool) (s : t) : t :=
  {| infoPanelHidden := infoPanelHidden s; infoTitle := infoTitle s;
     infoDescription := infoDescription s; measurementResult :=
     measurementResult s; measurementDisplayHidden :=
     measurementDisplayHidden s; annotationModalHidden :=
     annotationModalHidden s; annotationTitle := annotationTitle s;
     annotationDescription := annotationDescription s; saveDisabled := v;
     cursor := cursor s |}.
Definition set_cursor (v : Cursor) (s : t) : t :=
  {| infoPanelHidden := infoPanelHidden s; infoTitle := infoTitle s;
     infoDescription := infoDescription s; measurementResult :=
     measurementResult s; measurementDisplayHidden :=
     measurementDisplayHidden s; annotationModalHidden :=
     annotationModalHidden s; annotationTitle := annotationTitle s;
     annotationDescription := annotationDescription s; saveDisabled :=
     saveDisabled s; cursor := v |}.

End Dom.

(** ** The scene, the camera and the host *)

Module World.

Record t : Type := mk {
  env : Env;
  (* number of [performance.now()] calls so far *)
  clockReads : nat;
  (* [state.scene.children] *)
  children : list Child;
  (* three.js's object id counter *)
  nextId : nat;
  (* [update] closures queued by [requestAnimationFrame] *)
  frames : list Animation;
  (* [state.camera.position] *)
  cameraPosition : Vector3.t;
  (* [state.controls.target] *)
  controlsTarget : Vector3.t
}.

Definition set_clockReads (v : nat) (s : t) : t :=
  {| env := env s; clockReads := v; children := children s; nextId := nextId
     s; frames := frames s; cameraPosition := cameraPosition s;
     controlsTarget := controlsTarget s |}.
Definition set_children (v : list Child) (s : t) : t :=
  {| env := env s; clockReads := clockReads s; children := v; nextId :=
     nextId s; frames := frames s; cameraPosition := cameraPosition s;
     controlsTarget := controlsTarget s |}.
Definition set_nextId (v : nat) (s : t) : t :=
  {| env := env s; clockReads := clockReads s; children := children s; nextId
     := v; frames := frames s; cameraPosition := cameraPosition s;
     controlsTarget := controlsTarget s |}.
Definition set_frames (v : list Animation) (s : t) : t :=
  {| env := env s; clockReads := clockReads s; children := children s; nextId
     := nextId s; frames := v; cameraPosition := cameraPosition s;
     controlsTarget := controlsTarget s |}.
Definition set_cameraPosition (v : Vector3.t) (s : t) : t :=
  {| env := env s; clockReads := clockReads s; children := children s; nextId
     := nextId s; frames := frames s; cameraPosition := v; controlsTarget :=
     controlsTarget s |}.
Definition set_controlsTarget (v : Vector3.t) (s : t) : t :=
  {| env := env s; clockReads := clockReads s; children := children s; nextId
     := nextId s; frames := frames s; cameraPosition := cameraPosition s;
     controlsTarget := v |}.

End World.

(** ** Application state: the [state] object of the source *)

Record State : Type := mkState {
  world : World.t;
  dom : Dom.t;
  (* [state.model], kept as the size of [state.modelBoundingBox] *)
  model : option Vector3.t;
  annotations : list Annotation.t;
  tourIndex : Z;
  isTourActive : bool;
  isMeasuring : bool;
  measurePoints : list Vector3.t;
  measureMarkers : list Object3D;
  measureLine : option Object3D;
  isAddingAnnotation : bool;
  pendingAnnotationPosition : option Vector3.t;
  previewMarker : option Object3D;
  placedMarker : option Object3D;
  annotationMarkers : list Object3D
}.

(** Assignments [state.f = v]. *)
Definition set_world (v : World.t) (s : State) : State :=
  {| world := v; dom := dom s; model := model s; annotations := annotations s;
     tourIndex := tourIndex s; isTourActive := isTourActive s; isMeasuring :=
     isMeasuring s; measurePoints := measurePoints s; measureMarkers :=
     measureMarkers s; measureLine := measureLine s; isAddingAnnotation :=
     isAddingAnnotation s; pendingAnnotationPosition :=
     pendingAnnotationPosition s; previewMarker := previewMarker s;
     placedMarker := placedMarker s; annotationMarkers := annotationMarkers s |}.
Definition set_dom (v : Dom.t) (s : State) : State :=
  {| world := world s; dom := v; model := model s; annotations := annotations
     s; tourIndex := tourIndex s; isTourActive := isTourActive s; isMeasuring
     := isMeasuring s; measurePoints := measurePoints s; measureMarkers :=
     measureMarkers s; measureLine := measureLine s; isAddingAnnotation :=
     isAddingAnnotation s; pendingAnnotationPosition :=
     pendingAnnotationPosition s; previewMarker := previewMarker s;
     placedMarker := placedMarker s; annotationMarkers := annotationMarkers s |}.
Definition set_model (v : option Vector3.t) (s : State) : State :=
  {| world := world s; dom := dom s; model := v; annotations := annotations s;
     tourIndex := tourIndex s; isTourActive := isTourActive s; isMeasuring :=
     isMeasuring s; measurePoints := measurePoints s; measureMarkers :=
     measureMarkers s; measureLine := measureLine s; isAddingAnnotation :=
     isAddingAnnotation s; pendingAnnotationPosition :=
     pendingAnnotationPosition s; previewMarker := previewMarker s;
     placedMarker := placedMarker s; annotationMarkers := annotationMarkers s |}.
Definition set_annotations (v : list Annotation.t) (s : State) : State :=
  {| world := world s; dom := dom s; model := model s; annotations := v;
     tourIndex := tourIndex s; isTourActive := isTourActive s; isMeasuring :=
     isMeasuring s; measurePoints := measurePoints s; measureMarkers :=
     measureMarkers s; measureLine := measureLine s; isAddingAnnotation :=
     isAddingAnnotation s; pendingAnnotationPosition :=
     pendingAnnotationPosition s; previewMarker := previewMarker s;
     placedMarker := placedMarker s; annotationMarkers := annotationMarkers s |}.
Definition set_tourIndex (v : Z) (s : State) : State :=
  {| world := world s; dom := dom s; model := model s; annotations :=
     annotations s; tourIndex := v; isTourActive := isTourActive s; isMeasuring
     := isMeasuring s; measurePoints := measurePoints s; measureMarkers :=
     measureMarkers s; measureLine := measureLine s; isAddingAnnotation :=
     isAddingAnnotation s; pendingAnnotationPosition :=
     pendingAnnotationPosition s; previewMarker := previewMarker s;
     placedMarker := placedMarker s; annotationMarkers := annotationMarkers s |}.
Definition set_isTourActive (v : bool) (s : State) : State :=
  {| world := world s; dom := dom s; model := model s; annotations :=
     annotations s; tourIndex := tourIndex s; isTourActive := v; isMeasuring :=
     isMeasuring s; measurePoints := measurePoints s; measureMarkers :=
     measureMarkers s; measureLine := measureLine s; isAddingAnnotation :=
     isAddingAnnotation s; pendingAnnotationPosition :=
     pendingAnnotationPosition s; previewMarker := previewMarker s;
     placedMarker := placedMarker s; annotationMarkers := annotationMarkers s |}.
Definition set_isMeasuring (v : bool) (s : State) : State :=
  {| world := world s; dom := dom s; model := model s; annotations :=
     annotations s; tourIndex := tourIndex s; isTourActive := isTourActive s;
     isMeasuring := v; measurePoints := measurePoints s; measureMarkers :=
     measureMarkers s; measureLine := measureLine s; isAddingAnnotation :=
     isAddingAnnotation s; pendingAnnotationPosition :=
     pendingAnnotationPosition s; previewMarker := previewMarker s;
     placedMarker := placedMarker s; annotationMarkers := annotationMarkers s |}.
Definition set_measurePoints (v : list Vector3.t) (s : State) : State :=
  {| world := world s; dom := dom s; model := model s; annotations :=
     annotations s; tourIndex := tourIndex s; isTourActive := isTourActive s;
     isMeasuring := isMeasuring s; measurePoints := v; measureMarkers :=
     measureMarkers s; measureLine := measureLine s; isAddingAnnotation :=
     isAddingAnnotation s; pendingAnnotationPosition :=
     pendingAnnotationPosition s; previewMarker := previewMarker s;
     placedMarker := placedMarker s; annotationMarkers := annotationMarkers s |}.
Definition set_measureMarkers (v : list Object3D) (s : State) : State :=
  {| world := world s; dom := dom s; model := model s; annotations :=
     annotations s; tourIndex := tourIndex s; isTourActive := isTourActive s;
     isMeasuring := isMeasuring s; measurePoints := measurePoints s;
     measureMarkers := v; measureLine := measureLine s; isAddingAnnotation :=
     isAddingAnnotation s; pendingAnnotationPosition :=
     pendingAnnotationPosition s; previewMarker := previewMarker s;
     placedMarker := placedMarker s; annotationMarkers := annotationMarkers s |}.
Definition set_measureLine (v : option Object3D) (s : State) : State :=
  {| world := world s; dom := dom s; model := model s; annotations :=
     annotations s; tourIndex := tourIndex s; isTourActive := isTourActive s;
     isMeasuring := isMeasuring s; measurePoints := measurePoints s;
     measureMarkers := measureMarkers s; measureLine := v; isAddingAnnotation
     := isAddingAnnotation s; pendingAnnotationPosition :=
     pendingAnnotationPosition s; previewMarker := previewMarker s;
     placedMarker := placedMarker s; annotationMarkers := annotationMarkers s |}.
Definition set_isAddingAnnotation (v : bool) (s : State) : State :=
  {| world := world s; dom := dom s; model := model s; annotations :=
     annotations s; tourIndex := tourIndex s; isTourActive := isTourActive s;
     isMeasuring := isMeasuring s; measurePoints := measurePoints s;
     measureMarkers := measureMarkers s; measureLine := measureLine s;
     isAddingAnnotation := v; pendingAnnotationPosition :=
     pendingAnnotationPosition s; previewMarker := previewMarker s;
     placedMarker := placedMarker s; annotationMarkers := annotationMarkers s |}.
Definition set_pendingAnnotationPosition (v : option Vector3.t) (s : State) : State :=
  {| world := world s; dom := dom s; model := model s; annotations :=
     annotations s; tourIndex := tourIndex s; isTourActive := isTourActive s;
     isMeasuring := isMeasuring s; measurePoints := measurePoints s;
     measureMarkers := measureMarkers s; measureLine := measureLine s;
     isAddingAnnotation := isAddingAnnotation s; pendingAnnotationPosition :=
     v; previewMarker := previewMarker s; placedMarker := placedMarker s;
     annotationMarkers := annotationMarkers s |}.
Definition set_previewMarker (v : option Object3D) (s : State) : State :=
  {| world := world s; dom := dom s; model := model s; annotations :=
     annotations s; tourIndex := tourIndex s; isTourActive := isTourActive s;
     isMeasuring := isMeasuring s; measurePoints := measurePoints s;
     measureMarkers := measureMarkers s; measureLine := measureLine s;
     isAddingAnnotation := isAddingAnnotation s; pendingAnnotationPosition :=
     pendingAnnotationPosition s; previewMarker := v; placedMarker :=
     placedMarker s; annotationMarkers := annotationMarkers s |}.
Definition set_placedMarker (v : option Object3D) (s : State) : State :=
  {| world := world s; dom := dom s; model := model s; annotations :=
     annotations s; tourIndex := tourIndex s; isTourActive := isTourActive s;
     isMeasuring := isMeasuring s; measurePoints := measurePoints s;
     measureMarkers := measureMarkers s; measureLine := measureLine s;
     isAddingAnnotation := isAddingAnnotation s; pendingAnnotationPosition :=
     pendingAnnotationPosition s; previewMarker := previewMarker s;
     placedMarker := v; annotationMarkers := annotationMarkers s |}.
Definition set_annotationMarkers (v : list Object3D) (s : State) : State :=
  {| world := world s; dom := dom s; model := model s; annotations :=
     annotations s; tourIndex := tourIndex s; isTourActive := isTourActive s;
     isMeasuring := isMeasuring s; measurePoints := measurePoints s;
     measureMarkers := measureMarkers s; measureLine := measureLine s;
     isAddingAnnotation := isAddingAnnotation s; pendingAnnotationPosition :=
     pendingAnnotationPosition s; previewMarker := previewMarker s;
     placedMarker := placedMarker s; annotationMarkers := v |}.

(** Assignments to the scene and to page elements. *)
Definition set_clockReads (v : nat) (s : State) : State :=
  set_world (World.set_clockReads v (world s)) s.
Definition set_children (v : list Child) (s : State) : State :=
  set_world (World.set_children v (world s)) s.
Definition set_nextId (v : nat) (s : State) : State :=
  set_world (World.set_nextId v (world s)) s.
Definition set_frames (v : list Animation) (s : State) : State :=
  set_world (World.set_frames v (world s)) s.
Definition set_cameraPosition (v : Vector3.t) (s : State) : State :=
  set_world (World.set_cameraPosition v (world s)) s.
Definition set_controlsTarget (v : Vector3.t) (s : State) : State :=
  set_world (World.set_controlsTarget v (world s)) s.
Definition set_infoPanelHidden (v : bool) (s : State) : State :=
  set_dom (Dom.set_infoPanelHidden v (dom s)) s.
Definition set_infoTitle (v : JsString.t) (s : State) : State :=
  set_dom (Dom.set_infoTitle v (dom s)) s.
Definition set_infoDescription (v : JsString.t) (s : State) : State :=
  set_dom (Dom.set_infoDescription v (dom s)) s.
Definition set_measurementResult (v : option float) (s : State) : State :=
  set_dom (Dom.set_measurementResult v (dom s)) s.
Definition set_measurementDisplayHidden (v : bool) (s : State) : State :=
  set_dom (Dom.set_measurementDisplayHidden v (dom s)) s.
Definition set_annotationModalHidden (v : bool) (s : State) : State :=
  set_dom (Dom.set_annotationModalHidden v (dom s)) s.
Definition set_annotationTitle (v : JsString.t) (s : State) : State :=
  set_dom (Dom.set_annotationTitle v (dom s)) s.
Definition set_annotationDescription (v : JsString.t) (s : State) : State :=
  set_dom (Dom.set_annotationDescription v (dom s)) s.
Definition set_saveDisabled (v : bool) (s : State) : State :=
  set_dom (Dom.set_saveDisabled v (dom s)) s.
Definition set_cursor (v : Cursor) (s : State) : State :=
  set_dom (Dom.set_cursor v (dom s)) s.

(** ** Arrays *)

Module JsArray.

(** [a[index]], [None] for [undefined]. *)
Definition get {A : Type} (a : list A) (index : Z) : option A :=
  if index <? 0 then None else nth_error a (Z.to_nat index).

(** [a.splice(index, 1)]: a negative start counts from the end, the start
    is clamped to [0, length], and at most one element is removed. *)
Definition splice1 {A : Type} (index : Z) (a : list A) : list A :=
  let len := Z.of_nat (List.length a) in
  let start := if index <? 0 then Z.max (len + index) 0 else Z.min index len in
  firstn (Z.to_nat start) a ++ skipn (S (Z.to_nat start)) a.

End JsArray.

(** ** Scene and clock primitives *)

Notation "s |> f" := (f s) (at level 45, left associativity, only parsing).

Definition performanceNow (s : State) : float * State :=
  (performance_now (World.env (world s)) (World.clockReads (world s)),
   set_clockReads (S (World.clockReads (world s))) s).

Definition requestAnimationFrame (a : Animation) (s : State) : State :=
  set_frames (World.frames (world s) ++ [a]) s.

(** [state.scene.add(o)] for an object that has no parent yet. *)
Definition sceneAdd (o : Object3D) (s : State) : State :=
  set_children (World.children (world s) ++ [childOf o]) s.

Fixpoint removeChild (i : nat) (l : list Child) : list Child :=
  match l with
  | [] => []
  | c :: l' => if Nat.eqb (childId c) i then l' else c :: removeChild i l'
  end.

(** [state.scene.remove(o)] *)
Definition sceneRemove (o : Object3D) (s : State) : State :=
  set_children (removeChild (objectId o) (World.children (world s))) s.

Definition sceneRemoveAll (l : list Object3D) (s : State) : State :=
  fold_left (fun st o => sceneRemove o st) l s.

(** A [new THREE.Mesh], [Group] or [Line]: the next identity. *)
Definition allocate (s : State) : nat * State :=
  (World.nextId (world s), set_nextId (S (World.nextId (world s))) s).

(** [state.controls.update()] *)
Definition controlsUpdate (s : State) : State :=
  let r := controls_update (World.env (world s))
             (World.cameraPosition (world s), World.controlsTarget (world s)) in
  s |> set_cameraPosition (fst r) |> set_controlsTarget (snd r).

(** ** Camera animation (source lines 401-425) *)

Definition easeOutCubic (e : Env) (t : float) : float :=
  (1 - Math_pow e (1 - t) 3)%float.

(** The two [lerpVectors] assignments of [update]. *)
Definition commit (a : Animation) (eased : float) (s : State) : State :=
  s |> set_cameraPosition
         (Vector3.lerpVectors (startPosition a) (newPosition a) eased)
    |> set_controlsTarget
         (Vector3.lerpVectors (startTarget a) (newTarget a) eased).

(** One run of the closure [update] of [animateCamera]. *)
Definition update (a : Animation) (s : State) : State :=
  let (now, s) := performanceNow s in
  let elapsed := (now - startTime a)%float in
  let progress := Num.Math_min (elapsed / duration a)%float 1%float in
  let eased := easeOutCubic (World.env (world s)) progress in
  let s := commit a eased s in
  let s := controlsUpdate s in
  if (progress <? 1)%float then requestAnimationFrame a s else s.

Definition animateCamera (newPosition newTarget : Vector3.t)
    (duration : float) (s : State) : State :=
  let startPosition := World.cameraPosition (world s) in
  let startTarget := World.controlsTarget (world s) in
  let (startTime, s) := performanceNow s in
  update (mkAnimation startPosition startTarget newPosition newTarget
            duration startTime) s.

(** The browser's display refresh: the queued closures run in order, and
    those they queue wait for the next refresh. *)
Definition animationFrame (s : State) : State :=
  fold_left (fun st a => update a st) (World.frames (world s))
    (set_frames [] s).

(** ** Annotation system (source lines 264-399) *)

(** [createAnnotationMarker(position, index, isPreview)] *)
Definition createAnnotationMarker (position : Vector3.t) (index : Z)
    (isPreview : bool) (s : State) : Object3D * State :=
  let scale := (if isPreview then 1.5 else 1.0)%float in
  let (i, s) := allocate s in
  (mkObject i (if isPreview then PreviewMarker else AnnotationMarker)
     (Vector3.liftY position (0.06 * scale)%float) true (Some index) isPreview,
   s).

(** [createPlacedMarker(position)] *)
Definition createPlacedMarker (position : Vector3.t) (s : State)
  : Object3D * State :=
  let (i, s) := allocate s in
  (mkObject i PlacedMarker (Vector3.liftY position 0.1%float) true None false,
   s).

(** The [forEach] of [update3DAnnotationMarkers], from index [index] on. *)
Fixpoint addMarkersFrom (index : Z) (l : list Annotation.t) (s : State)
  : State :=
  match l with
  | [] => s
  | annotation :: l' =>
      let (marker, s) :=
        createAnnotationMarker (Annotation.position annotation) index false s in
      let s := sceneAdd marker s in
      let s := set_annotationMarkers (annotationMarkers s ++ [marker]) s in
      addMarkersFrom (index + 1) l' s
  end.

Definition update3DAnnotationMarkers (s : State) : State :=
  let s := sceneRemoveAll (annotationMarkers s) s in
  let s := set_annotationMarkers [] s in
  addMarkersFrom 0 (annotations s) s.

(** How a call ends: it returns, or an exception leaves it.  Either way
    [a] is what the call has written by then. *)
Inductive Outcome (A : Type) : Type :=
| Returns (a : A)
| Throws (a : A).

Arguments Returns {A} a.
Arguments Throws {A} a.

Definition written {A : Type} (o : Outcome A) : A :=
  match o with Returns a | Throws a => a end.

Definition returns {A : Type} (o : Outcome A) : bool :=
  match o with Returns _ => true | Throws _ => false end.

Module Card.

(** A card of [#annotation-list]: whether its [className] carries
    [active], the markup assigned to its [innerHTML], and the index that
    its two click listeners pass to [focusAnnotation] and
    [deleteAnnotation]. *)
Record t : Type := mk {
  active : bool;
  innerHTML : JsString.t;
  index : Z
}.

End Card.

(** A piece of markup written in the source. *)
Definition html (s : string) : JsString.t := JsString.of_string s.

(** The double quote. *)
Definition quot : JsString.t := [34%N].

(** The template literal assigned to [card.innerHTML], with its three
    interpolations; the title and the description go in as they are
    stored, markup included.  The button's text is the multiplication
    sign, U+00D7. *)
Definition cardHTML (number : Z) (title description : JsString.t)
  : JsString.t :=
  html "
            <div class=" ++ quot ++ html "annotation-card-header" ++ quot ++ html ">
                <div class=" ++ quot ++ html "annotation-card-number" ++ quot ++ html ">"
  ++ Num.digits number ++ html "</div>
                <div class=" ++ quot ++ html "annotation-card-title" ++ quot ++ html ">"
  ++ title ++ html "</div>
                <button class=" ++ quot ++ html "annotation-delete" ++ quot ++ html " title=" ++ quot ++ html "Delete annotation" ++ quot ++ html ">"
  ++ [215%N] ++ html "</button>
            </div>
            <div class=" ++ quot ++ html "annotation-card-description" ++ quot ++ html ">"
  ++ description ++ html "</div>
        ".

(** The [forEach] of [updateAnnotationList], from index [index] on.  Where
    the parsed markup of a card holds no element of class
    [annotation-delete], [deleteBtn] is [null] and
    [deleteBtn.addEventListener] throws a TypeError: that card and the
    following ones are not appended. *)
Fixpoint cardsFrom (e : Env) (index : Z) (cursor : Z)
    (l : list Annotation.t) : Outcome (list Card.t) :=
  match l with
  | [] => Returns []
  | annotation :: l' =>
      let card :=
        Card.mk (cursor =? index)
          (cardHTML (index + 1) (Annotation.title annotation)
             (Annotation.description annotation))
          index in
      if querySelector_delete e (Card.innerHTML card)
      then
        match cardsFrom e (index + 1) cursor l' with
        | Returns cards => Returns (card :: cards)
        | Throws cards => Throws (card :: cards)
        end
      else Throws []
  end.

(** [updateAnnotationList()]: the cards appended to the emptied list, none
    for an empty store (the list then shows its placeholder text), and
    whether the call returns. *)
Definition updateAnnotationList (s : State) : Outcome (list Card.t) :=
  cardsFrom (World.env (world s)) 0 (tourIndex s) (annotations s).

(** The renumbering [forEach] of [deleteAnnotation], from index [i] on. *)
Fixpoint renumberFrom (i : Z) (l : list Annotation.t) : list Annotation.t :=
  match l with
  | [] => []
  | annotation :: l' =>
      Annotation.set_id (i + 1) annotation :: renumberFrom (i + 1) l'
  end.

(** [deleteAnnotation(index)].  The list, the labels and the tour progress
    are page elements that no handler reads back: the state does not hold
    them, and the calls that redraw them matter to it in one way only.
    When [updateAnnotationList()] throws, the handler ends there, with the
    state as it is at that point: the markers are not rebuilt. *)
Definition deleteAnnotation (index : Z) (s : State) : State :=
  let s := set_annotations (JsArray.splice1 index (annotations s)) s in
  let s := set_annotations (renumberFrom 0 (annotations s)) s in
  let length := Z.of_nat (List.length (annotations s)) in
  let s := if tourIndex s >=? length then set_tourIndex (length - 1) s else s in
  let s := if length =? 0
           then s |> set_tourIndex (-1) |> set_infoPanelHidden true
           else s in
  match updateAnnotationList s with
  | Returns _ => update3DAnnotationMarkers s
  | Throws _ => s
  end.

(** [focusAnnotation(index)].  The three redraw calls come last: when
    [updateAnnotationList()] throws, the state is already as it is here, and
    no caller runs a statement that writes the state after this call. *)
Definition focusAnnotation (index : Z) (s : State) : State :=
  match JsArray.get (annotations s) index with
  | None => s
  | Some annotation =>
      let s := set_tourIndex index s in
      let s := s |> set_infoTitle (Annotation.title annotation)
                 |> set_infoDescription (Annotation.description annotation)
                 |> set_infoPanelHidden false in
      let targetPosition := Annotation.position annotation in
      let cameraOffset := Vector3.mk 0.5 0.3 1.5 in
      let newCameraPos := Vector3.add targetPosition cameraOffset in
      animateCamera newCameraPos targetPosition 1000 s
  end.

(** ** Tour system (source lines 430-469) *)

Definition startTour (s : State) : State :=
  if (Z.of_nat (List.length (annotations s)) =? 0) then s
  else
    let s := set_isTourActive true s in
    let s := set_tourIndex 0 s in
    focusAnnotation 0 s.

Definition endTour (s : State) : State :=
  s |> set_isTourActive false |> set_tourIndex (-1)
    |> set_infoPanelHidden true.

Definition nextTourStop (s : State) : State :=
  if tourIndex s <? Z.of_nat (List.length (annotations s)) - 1
  then focusAnnotation (tourIndex s + 1) s else s.

Definition prevTourStop (s : State) : State :=
  if tourIndex s >? 0 then focusAnnotation (tourIndex s - 1) s else s.

(** ** Measurement tool (source lines 483-536) *)

Definition clearMeasurement (s : State) : State :=
  let s := set_measurePoints [] s in
  let s := sceneRemoveAll (measureMarkers s) s in
  let s := set_measureMarkers [] s in
  let s := match measureLine s with
           | Some line => s |> sceneRemove line |> set_measureLine None
           | None => s
           end in
  set_measurementResult None s.

Definition toggleMeasureMode (s : State) : State :=
  let s := set_isMeasuring (negb (isMeasuring s)) s in
  let s := clearMeasurement s in
  let s := set_measurementDisplayHidden (negb (isMeasuring s)) s in
  if isMeasuring s then set_cursor Crosshair s else set_cursor Grab s.

(** [addMeasurePoint(point)] *)
Definition addMeasurePoint (point : Vector3.t) (s : State) : State :=
  let (i, s) := allocate s in
  let marker := mkObject i MeasureMarker point true None false in
  let s := sceneAdd marker s in
  let s := set_measureMarkers (measureMarkers s ++ [marker]) s in
  let s := set_measurePoints (measurePoints s ++ [point]) s in
  match measurePoints s with
  | [p0; p1] =>
      let distance := Vector3.distanceTo p0 p1 in
      let s := set_measurementResult (Some distance) s in
      let (j, s) := allocate s in
      let line := mkObject j MeasureLine (Vector3.mk 0 0 0) true None false in
      let s := set_measureLine (Some line) s in
      sceneAdd line s
  | _ => s
  end.

(** The text node of [#measurement-result], where its digits are modelled. *)
Definition measurementText (r : option float) : option JsString.t :=
  match r with
  | None => Some []
  | Some distance =>
      match Num.toFixed3 distance with
      | Some digits =>
          Some (JsString.of_string "Distance: " ++ digits
                  ++ JsString.of_string " units")
      | None => None
      end
  end.

(** ** Add-annotation mode (source lines 599-747) *)

Definition toggleAddAnnotationMode (s : State) : State :=
  let s := set_isAddingAnnotation (negb (isAddingAnnotation s)) s in
  let s := set_annotationModalHidden (negb (isAddingAnnotation s)) s in
  if isAddingAnnotation s then
    let s := set_cursor Crosshair s in
    let s := set_pendingAnnotationPosition None s in
    let s := s |> set_saveDisabled true
               |> set_annotationTitle []
               |> set_annotationDescription [] in
    let s := match previewMarker s with
             | Some marker => sceneRemove marker s
             | None => s
             end in
    let (marker, s) :=
      createAnnotationMarker (Vector3.mk 0 (-1000) 0) (-1) true s in
    let s := set_previewMarker (Some (set_visible false marker)) s in
    sceneAdd marker s
  else
    let s := set_cursor Grab s in
    let s := match previewMarker s with
             | Some marker => s |> sceneRemove marker |> set_previewMarker None
             | None => s
             end in
    match placedMarker s with
    | Some marker => s |> sceneRemove marker |> set_placedMarker None
    | None => s
    end.

(** [setAnnotationPosition(point)] *)
Definition setAnnotationPosition (point : Vector3.t) (s : State) : State :=
  let s := set_pendingAnnotationPosition (Some point) s in
  let s := set_saveDisabled false s in
  let s := match previewMarker s with
           | Some marker => set_previewMarker (Some (set_visible false marker)) s
           | None => s
           end in
  let s := match placedMarker s with
           | Some marker => sceneRemove marker s
           | None => s
           end in
  let (marker, s) := createPlacedMarker point s in
  let s := set_placedMarker (Some marker) s in
  sceneAdd marker s.

Definition noDescription : JsString.t :=
  JsString.of_string "No description provided.".

(** [saveAnnotation()].  When [updateAnnotationList()] throws, the handler
    ends after the push and the removal of the placed marker: the markers
    are not rebuilt and the mode is not left. *)
Definition saveAnnotation (s : State) : State :=
  let title := JsString.trim (Dom.annotationTitle (dom s)) in
  let description := JsString.trim (Dom.annotationDescription (dom s)) in
  match JsString.truthy title, pendingAnnotationPosition s with
  | true, Some pending =>
      let newAnnotation :=
        Annotation.mk (Z.of_nat (List.length (annotations s)) + 1)
          title (JsString.or description noDescription) pending in
      let s := set_annotations (annotations s ++ [newAnnotation]) s in
      let s := match placedMarker s with
               | Some marker => s |> sceneRemove marker |> set_placedMarker None
               | None => s
               end in
      match updateAnnotationList s with
      | Returns _ =>
          let s := update3DAnnotationMarkers s in
          toggleAddAnnotationMode s
      | Throws _ => s
      end
  | _, _ => s
  end.

Definition cancelAnnotation (s : State) : State := toggleAddAnnotationMode s.

(** ** Model loading and view reset (source lines 162-211, 758-767) *)

Definition framing (size : Vector3.t) : Vector3.t * Vector3.t :=
  let maxDim :=
    Num.Math_max (Num.Math_max (Vector3.x size) (Vector3.y size))
      (Vector3.z size) in
  (Vector3.mk 0 (Vector3.y size * 0.5) (maxDim * 2),
   Vector3.mk 0 (Vector3.y size * 0.3) 0).

(** [onModelLoaded(gltf)], for a model whose bounding box has size [size].
    The redraw calls come last. *)
Definition onModelLoaded (size : Vector3.t) (s : State) : State :=
  let s := set_model (Some size) s in
  let (i, s) := allocate s in
  let s := sceneAdd (mkObject i ModelRoot (Vector3.mk 0 0 0) true None false) s in
  let s := s |> set_cameraPosition (fst (framing size))
             |> set_controlsTarget (snd (framing size)) in
  controlsUpdate s.

Definition resetView (s : State) : State :=
  match model s with
  | None => s
  | Some size => animateCamera (fst (framing size)) (snd (framing size)) 1000 s
  end.

(** ** Raycasting and interaction (source lines 836-888) *)

(** What the raycaster reports for a pointer event: the marker of
    [state.annotationMarkers] that owns the nearest intersected mesh, by its
    place in that array, and the nearest point on the model. *)
Record Pointer : Type := mkPointer {
  markerHit : option nat;
  modelHit : option Vector3.t
}.

(** The marker test of [onCanvasClick]: the annotation index to focus. *)
Definition markerTarget (ev : Pointer) (s : State) : option Z :=
  if negb (isMeasuring s) && negb (isAddingAnnotation s)
     && (0 <? List.length (annotationMarkers s))%nat
  then
    match markerHit ev with
    | Some k =>
        match nth_error (annotationMarkers s) k with
        | Some obj =>
            match userIndex obj with
            | Some index => if userIsPreview obj then None else Some index
            | None => None
            end
        | None => None
        end
    | None => None
    end
  else None.

Definition onCanvasClick (ev : Pointer) (s : State) : State :=
  match model s with
  | None => s
  | Some _ =>
      match markerTarget ev s with
      | Some index => focusAnnotation index s
      | None =>
          match modelHit ev with
          | Some point =>
              if isMeasuring s && (List.length (measurePoints s) <? 2)%nat
              then addMeasurePoint point s
              else if isAddingAnnotation s
              then setAnnotationPosition point s
              else s
          | None => s
          end
      end
  end.

Definition onCanvasMouseMove (ev : Pointer) (s : State) : State :=
  match model s with
  | None => s
  | Some _ =>
      if negb (isAddingAnnotation s) then s
      else
        match previewMarker s with
        | Some marker =>
            match modelHit ev with
            | Some point =>
                set_previewMarker
                  (Some (marker |> set_position (Vector3.liftY point 0.09)
                                |> set_visible true)) s
            | None => set_previewMarker (Some (set_visible false marker)) s
            end
        | None => s
        end
  end.

(** ** Event listeners (source lines 893-957) *)

Inductive Key : Type := Escape | ArrowRight | ArrowLeft | OtherKey.

Inductive Event : Type :=
| ModelLoaded (size : Vector3.t)
| CanvasClick (ev : Pointer)
| CanvasMouseMove (ev : Pointer)
| ClickResetView
| ClickAddAnnotation
| ClickCancelAnnotation
| ClickSaveAnnotation
| ClickTourStart
| ClickTourPrev
| ClickTourNext
| ClickInfoClose
| ClickCard (index : Z)            (* a card or a label: focusAnnotation(index) *)
| ClickDelete (index : Z)          (* the card's delete button *)
| InputTitle (value : JsString.t)          (* typing into #annotation-title *)
| InputDescription (value : JsString.t)    (* typing into #annotation-description *)
| KeyDown (key : Key)
| AnimationFrame                   (* the display refreshes *)
| Orbit (position target : Vector3.t)  (* OrbitControls moves the camera *)
| ToggleMeasure.                   (* toggleMeasureMode(), which no listener calls *)

Definition onKeyDown (key : Key) (s : State) : State :=
  match key with
  | Escape =>
      let s := if isAddingAnnotation s then cancelAnnotation s else s in
      if isTourActive s then endTour s else s
  | ArrowRight => if isTourActive s then nextTourStop s else s
  | ArrowLeft => if isTourActive s then prevTourStop s else s
  | OtherKey => s
  end.

Definition handle (e : Event) (s : State) : State :=
  match e with
  | ModelLoaded size => onModelLoaded size s
  | CanvasClick ev => onCanvasClick ev s
  | CanvasMouseMove ev => onCanvasMouseMove ev s
  | ClickResetView => resetView s
  | ClickAddAnnotation => toggleAddAnnotationMode s
  | ClickCancelAnnotation => cancelAnnotation s
  | ClickSaveAnnotation => saveAnnotation s
  | ClickTourStart => if isTourActive s then endTour s else startTour s
  | ClickTourPrev => prevTourStop s
  | ClickTourNext => nextTourStop s
  | ClickInfoClose => set_infoPanelHidden true s
  | ClickCard index => focusAnnotation index s
  | ClickDelete index => deleteAnnotation index s
  | InputTitle value => set_annotationTitle value s
  | InputDescription value => set_annotationDescription value s
  | KeyDown key => onKeyDown key s
  | AnimationFrame => animationFrame s
  | Orbit position target =>
      s |> set_cameraPosition position |> set_controlsTarget target
  | ToggleMeasure => toggleMeasureMode s
  end.

(** The state after a sequence of events. *)
Definition run (events : list Event) (s : State) : State :=
  fold_left (fun st e => handle e st) events s.

(** The states passed through, the last one included. *)
Fixpoint trace (events : list Event) (s : State) : list State :=
  match events with
  | [] => []
  | e :: events' => handle e s :: trace events' (handle e s)
  end.

(** ** The state after [init()] *)

(** [setupLights]: ambient, directional, fill and rim. *)
Definition lights : list Child :=
  [mkChild 0 Light; mkChild 1 Light; mkChild 2 Light; mkChild 3 Light].

(** The state once [init()] has run, on a host [e] and a page whose
    elements are as [page] says. *)
Definition initial (e : Env) (page : Dom.t) : State :=
  {| world := {| World.env := e;
                 World.clockReads := 0;
                 World.children := lights;
                 World.nextId := 4;
                 World.frames := [];
                 World.cameraPosition := Vector3.mk 0 2 5;
                 World.controlsTarget := Vector3.mk 0 0.5 0 |};
     dom := page;
     model := None;
     annotations := [];
     tourIndex := -1;
     isTourActive := false;
     isMeasuring := false;
     measurePoints := [];
     measureMarkers := [];
     measureLine := None;
     isAddingAnnotation := false;
     pendingAnnotationPosition := None;
     previewMarker := None;
     placedMarker := None;
     annotationMarkers := [] |}.

(** ** Properties of states *)

(** [t] neither starts nor ends with white space. *)
Definition tight (t : JsString.t) : Prop :=
  forall c, hd_error t = Some c \/ hd_error (rev t) = Some c ->
    JsString.isWhiteSpace c = false.

(** [t] is [s] without the white space at its two ends. *)
Definition trimmedOf (s t : JsString.t) : Prop :=
  tight t
  /\ exists pre post,
       s = pre ++ t ++ post
       /\ forallb JsString.isWhiteSpace pre = true
       /\ forallb JsString.isWhiteSpace post = true.

(** Number of annotations, [state.annotations.length]. *)
Definition count (s : State) : Z := Z.of_nat (List.length (annotations s)).

(** The ordinals in array order. *)
Definition ordinals (s : State) : list Z := map Annotation.id (annotations s).

(** The ordinals are 1, 2, ..., N: each is its index plus one. *)
Definition ordinalsOk (s : State) : Prop :=
  ordinals s
  = map (fun i => Z.of_nat i + 1) (seq 0 (List.length (annotations s))).

(** The tour cursor is -1 or an index of the store. *)
Definition cursorOk (s : State) : Prop := -1 <= tourIndex s <= count s - 1.

(** At most one interaction mode is on. *)
Definition exclusive (s : State) : Prop :=
  (isMeasuring s && isAddingAnnotation s) = false.

(** No object of kind [k] is in the scene. *)
Definition absent (k : Kind) (s : State) : Prop :=
  forall c, In c (World.children (world s)) -> childKind c <> k.

(** The marker at place [k] carries index [k] and is no preview. *)
Definition markersOk (s : State) : Prop :=
  forall k m, nth_error (annotationMarkers s) k = Some m ->
    userIndex m = Some (Z.of_nat k) /\ userIsPreview m = false.

(** Every child of kind [k] is the object that [o] holds. *)
Definition tracked (k : Kind) (o : option Object3D) (children : list Child)
  : Prop :=
  forall c, In c children -> childKind c = k ->
    exists m, o = Some m /\ childId c = objectId m.

(** The scene's children are distinct objects made before [next], and the
    preview and placed markers among them are the ones the state holds. *)
Definition SceneOk (children : list Child) (next : nat)
    (preview placed : option Object3D) : Prop :=
  NoDup (map childId children)
  /\ (forall c, In c children -> (childId c < next)%nat)
  /\ tracked PreviewMarker preview children
  /\ tracked PlacedMarker placed children.

Definition sceneOk (s : State) : Prop :=
  SceneOk (World.children (world s)) (World.nextId (world s))
    (previewMarker s) (placedMarker s).

(** What every reachable state satisfies. *)
Definition Inv (s : State) : Prop :=
  ordinalsOk s /\ cursorOk s /\ (List.length (measurePoints s) <= 2)%nat
  /\ markersOk s /\ sceneOk s.

(** The state [s] with other camera, clock and frame queue. *)
Definition withCamera (reads : nat) (queue : list Animation)
    (position target : Vector3.t) (s : State) : State :=
  s |> set_clockReads reads |> set_frames queue
    |> set_cameraPosition position |> set_controlsTarget target.

(** The part of the state that [Inv] reads, the cursor apart. *)
Definition store (s : State) :=
  (annotations s, measurePoints s, annotationMarkers s,
   World.children (world s), World.nextId (world s),
   previewMarker s, placedMarker s).

(** ** Sample hosts and pages *)

(** [l] starts with [p]. *)
Fixpoint startsWith (p l : JsString.t) : bool :=
  match p, l with
  | [], _ => true
  | c :: p', d :: l' => (c =? d)%N && startsWith p' l'
  | _ :: _, [] => false
  end.

(** [p] occurs in [l]. *)
Fixpoint includes (p l : JsString.t) : bool :=
  startsWith p l
  || match l with [] => false | _ :: l' => includes p l' end.

(** The markup outside comments: a comment runs from [<!--] to the next
    [-->], or to the end where there is none.  [skip] counts the code units
    of a delimiter still to pass. *)
Fixpoint outsideComments (skip : nat) (inComment : bool) (l : JsString.t)
  : JsString.t :=
  match l with
  | [] => []
  | c :: l' =>
      match skip with
      | S k => outsideComments k inComment l'
      | O =>
          if inComment then
            if startsWith (JsString.of_string "-->") l
            then outsideComments 2 false l'
            else outsideComments 0 true l'
          else if startsWith (JsString.of_string "<!--") l
          then outsideComments 3 true l'
          else c :: outsideComments 0 false l'
      end
  end.

(** A parser that knows comments only: the delete button is found where
    its class attribute stands outside every comment. *)
Definition commentParser (markup : JsString.t) : bool :=
  includes (html "class=" ++ quot ++ html "annotation-delete" ++ quot)
    (outsideComments 0 false markup).

(** A host whose clock stands still between two readings, as a browser's
    coarsened clock does within one handler. *)
Definition frozenHost : Env :=
  mkEnv (fun _ => 0%float) (fun b _ => (b * b * b)%float) (fun c => c)
        commentParser.

(** A host whose clock advances by one millisecond at every reading. *)
Definition tickingHost : Env :=
  mkEnv (fun n => of_uint63 (Uint63.of_Z (Z.of_nat n)))
        (fun b _ => (b * b * b)%float) (fun c => c) commentParser.

(** A page with its panels hidden and its inputs empty. *)
Definition blankPage : Dom.t :=
  Dom.mk true [] [] None true true [] [] true CursorDefault.

Definition start : State := initial frozenHost blankPage.

Definition unitBox : Vector3.t := Vector3.mk 1 1 1.

Definition pick (p : Vector3.t) : Pointer := mkPointer None (Some p).

Definition origin : Vector3.t := Vector3.mk 0 0 0.

(** A session in PlacingAnnotation mode with a position staged. *)
Definition stageOne : list Event :=
  [ModelLoaded unitBox; ClickAddAnnotation; CanvasClick (pick origin)].

(** A session in Measuring mode with one point picked. *)
Definition measureOne : list Event :=
  [ModelLoaded unitBox; ToggleMeasure; CanvasClick (pick origin)].

(** A session that places two annotations, [A] and [B]. *)
Definition placeTwo : list Event :=
  [ModelLoaded unitBox; ClickAddAnnotation; CanvasClick (pick origin);
   InputTitle (JsString.of_string "A"); ClickSaveAnnotation;
   ClickAddAnnotation; CanvasClick (pick (Vector3.mk 1 0 0));
   InputTitle (JsString.of_string "B"); ClickSaveAnnotation].

(** The title that opens a comment and never closes it. *)
Definition openComment : JsString.t := JsString.of_string "<!--".

(** A session that places [A] and [B], saves a third annotation titled
    [<!--], whose card loses its delete button, and cancels. *)
Definition placeBroken : list Event :=
  placeTwo
  ++ [ClickAddAnnotation; CanvasClick (pick (Vector3.mk 0 1 0));
      InputTitle openComment; ClickSaveAnnotation; ClickCancelAnnotation].

(** [placeBroken] followed by the deletion of [A] and of [B], each from
    its card: the store holds the third annotation only. *)
Definition staleMarkers : list Event :=
  placeBroken ++ [ClickDelete 0; ClickDelete 0].

(** A session that places one annotation titled [A] at the origin. *)
Definition placeOne : list Event :=
  [ModelLoaded unitBox; ClickAddAnnotation;
   CanvasClick (pick (Vector3.mk 0 0 0));
   InputTitle (JsString.of_string "A"); ClickSaveAnnotation].

(** ** What the other redraw functions write (source lines 331-345, 471-478) *)

Module TourProgress.

(** The text [current / total] of [#tour-progress] and the [disabled]
    flags of the two tour buttons. *)
Record t : Type := mk {
  current : Z;
  total : Z;
  prevDisabled : bool;
  nextDisabled : bool
}.

End TourProgress.


Module Label.

(** A label of [#annotation-labels]: [dataset.index], the number in its
    dot and whether the dot carries the class [active]; a click on it calls
    [focusAnnotation(index)]. *)
Record t : Type := mk { index : Z; number : Z; active : bool }.

End Label.



(** ** More properties of states *)

(** The state [s] with other tour fields and detail panel. *)
Definition withTour (active : bool) (index : Z) (hidden : bool)
    (title description : JsString.t) (s : State) : State :=
  s |> set_isTourActive active |> set_tourIndex index
    |> set_infoPanelHidden hidden |> set_infoTitle title
    |> set_infoDescription description.

(** [s'] differs from [s] in the camera, the tour fields and the detail
    panel at most. *)
Definition tourStep (s s' : State) : Prop :=
  exists reads queue position target active index hidden title description,
    s' = withCamera reads queue position target
           (withTour active index hidden title description s).

Definition kindIs (k : Kind) (c : Child) : bool := Kind_eqb (childKind c) k.

(** The children of kind [k], in scene order. *)
Definition ofKind (k : Kind) (l : list Child) : list Child :=
  filter (kindIs k) l.

Definition optionList {A : Type} (o : option A) : list A :=
  match o with Some a => [a] | None => [] end.

(** The objects of kind [k] that the state refers to. *)
Definition held (s : State) (k : Kind) : list Child :=
  match k with
  | Light => lights
  | ModelRoot => ofKind ModelRoot (World.children (world s))
  | MeasureMarker => map childOf (measureMarkers s)
  | MeasureLine => map childOf (optionList (measureLine s))
  | AnnotationMarker => map childOf (annotationMarkers s)
  | PreviewMarker => map childOf (optionList (previewMarker s))
  | PlacedMarker => map childOf (optionList (placedMarker s))
  end.

(** [h] with the objects of kind [k] replaced by [v]. *)
Definition upd (h : Kind -> list Child) (k : Kind) (v : list Child)
  : Kind -> list Child :=
  fun k' => if Kind_eqb k' k then v else h k'.

(** The children are distinct objects made before [next], and those of
    each kind other than the model are the ones [h] lists, in order. *)
Definition Acc (children : list Child) (next : nat)
    (h : Kind -> list Child) : Prop :=
  NoDup (map childId children)
  /\ (forall c, In c children -> (childId c < next)%nat)
  /\ forall k, k <> ModelRoot -> ofKind k children = h k.

(** The scene holds the lights, the model and exactly the objects the
    state refers to. *)
Definition accounted (s : State) : Prop :=
  Acc (World.children (world s)) (World.nextId (world s)) (held s).

(** The children left by [scene.remove] of each object of [l] in turn. *)
Definition removeAll (l : list Object3D) (children : list Child)
  : list Child :=
  fold_left (fun c o => removeChild (objectId o) c) l children.

(** Where [createAnnotationMarker] puts the marker of an annotation. *)
Definition markerPosition (a : Annotation.t) : Vector3.t :=
  Vector3.liftY (Annotation.position a) (0.06 * 1.0)%float.

(** The preview marker exists exactly in PlacingAnnotation mode; a placed
    marker exists in that mode only, with a position staged, and sits 0.1
    above it; the save button is enabled exactly when a position is
    staged. *)
Definition placementOk (s : State) : Prop :=
  (isAddingAnnotation s = true <-> previewMarker s <> None)
  /\ (isAddingAnnotation s = false -> placedMarker s = None)
  /\ (isAddingAnnotation s = true ->
      match pendingAnnotationPosition s with
      | Some point =>
          Dom.saveDisabled (dom s) = false
          /\ forall marker, placedMarker s = Some marker ->
               position marker = Vector3.liftY point 0.1%float
      | None => Dom.saveDisabled (dom s) = true /\ placedMarker s = None
      end).

(** One marker sits at each measurement point; the line exists exactly
    when two points are held, and then the distance shown is theirs. *)
Definition measurementOk (s : State) : Prop :=
  map position (measureMarkers s) = measurePoints s
  /\ (measureLine s <> None <-> List.length (measurePoints s) = 2%nat)
  /\ forall p0 p1, measurePoints s = [p0; p1] ->
       Dom.measurementResult (dom s) = Some (Vector3.distanceTo p0 p1).

(** One marker per annotation, each 0.06 above its annotation. *)
Definition markersPlaced (s : State) : Prop :=
  map position (annotationMarkers s) = map markerPosition (annotations s).

(** [updateAnnotationList()] returns when called in state [s]: every card
    has its delete button. *)
Definition drawn (s : State) : Prop :=
  returns (updateAnnotationList s) = true.

(** The markers are those of the store wherever the list can be drawn. *)
Definition mirrored (s : State) : Prop := drawn s -> markersPlaced s.

(** What every reachable state satisfies besides [Inv]. *)
Definition Inv2 (s : State) : Prop :=
  accounted s /\ placementOk s /\ measurementOk s /\ mirrored s.

(** The measurement session and its mode flag. *)
Definition measureView (s : State) :=
  (isMeasuring s, measurePoints s, measureMarkers s, measureLine s).

(** What an annotation says, its ordinal apart. *)
Definition content (a : Annotation.t) : JsString.t * JsString.t * Vector3.t :=
  (Annotation.title a, Annotation.description a, Annotation.position a).

(** * Proofs *)

(** ** Strings *)

Lemma trimStart_blank (s : JsString.t) :
  forallb JsString.isWhiteSpace s = true -> JsString.trimStart s = [].
Proof.
  induction s as [|c s IH]; simpl; intros H; [reflexivity|].
  apply andb_true_iff in H. destruct H as [Hc Hs].
  rewrite Hc. auto.
Qed.

Lemma trim_blank (s : JsString.t) :
  forallb JsString.isWhiteSpace s = true -> JsString.trim s = [].
Proof.
  intros H. unfold JsString.trim. rewrite (trimStart_blank s H). reflexivity.
Qed.

Lemma trimStart_suffix (s : JsString.t) :
  exists pre, s = pre ++ JsString.trimStart s
              /\ forallb JsString.isWhiteSpace pre = true.
Proof.
  induction s as [|c s [pre [E W]]]; simpl.
  - exists []. auto.
  - destruct (JsString.isWhiteSpace c) eqn:Hc.
    + exists (c :: pre). simpl. rewrite Hc, W. split; [congruence | reflexivity].
    + exists []. auto.
Qed.

(** [trim] only drops white space, at the two ends. *)
Lemma trim_ends (s : JsString.t) :
  exists pre post,
    s = pre ++ JsString.trim s ++ post
    /\ forallb JsString.isWhiteSpace pre = true
    /\ forallb JsString.isWhiteSpace post = true.
Proof.
  destruct (trimStart_suffix s) as [pre [E W]].
  destruct (trimStart_suffix (rev (JsString.trimStart s))) as [q [E' W']].
  exists pre, (rev q). unfold JsString.trim, JsString.trimEnd.
  repeat split; trivial.
  - rewrite E at 1. f_equal.
    rewrite <- rev_app_distr, <- E'. symmetry. apply rev_involutive.
  - rewrite forallb_forall in *. intros c Hc. apply W'.
    now apply in_rev.
Qed.

Lemma trimStart_head (s : JsString.t) (c : N) :
  hd_error (JsString.trimStart s) = Some c -> JsString.isWhiteSpace c = false.
Proof.
  induction s as [|d s IH]; simpl; [discriminate|].
  destruct (JsString.isWhiteSpace d) eqn:Hd; [exact IH|].
  simpl. intros H. injection H as <-. exact Hd.
Qed.

(** [trim] drops the white space at the two ends, all of it and nothing
    else. *)
Lemma trim_trimmedOf (s : JsString.t) : trimmedOf s (JsString.trim s).
Proof.
  split; [|apply trim_ends].
  unfold JsString.trim, JsString.trimEnd.
  destruct (trimStart_suffix (rev (JsString.trimStart s))) as [q [E W]].
  set (u := JsString.trimStart (rev (JsString.trimStart s))) in *.
  intros c [H|H].
  - assert (T : JsString.trimStart s = rev u ++ rev q)
      by (rewrite <- rev_app_distr, <- E; symmetry; apply rev_involutive).
    apply (trimStart_head s). rewrite T.
    destruct (rev u) as [|d w]; [discriminate|]. exact H.
  - rewrite rev_involutive in H.
    now apply (trimStart_head (rev (JsString.trimStart s))).
Qed.

Lemma trim_not_blank (s : JsString.t) :
  forallb JsString.isWhiteSpace s = false -> JsString.trim s <> [].
Proof.
  intros H E. destruct (trim_ends s) as (pre & post & S & W1 & W2).
  rewrite E in S. simpl in S. rewrite S, forallb_app, W1, W2 in H.
  discriminate.
Qed.

(** ** Arrays *)

Lemma get_in_range {A : Type} (a : list A) (index : Z) (v : A) :
  JsArray.get a index = Some v -> 0 <= index < Z.of_nat (List.length a).
Proof.
  unfold JsArray.get. destruct (index <? 0) eqn:E; [discriminate|].
  intros H. apply Z.ltb_ge in E.
  assert (Hn : nth_error a (Z.to_nat index) <> None) by congruence.
  apply nth_error_Some in Hn. lia.
Qed.

Lemma get_out_of_range {A : Type} (a : list A) (index : Z) :
  index < 0 \/ Z.of_nat (List.length a) <= index -> JsArray.get a index = None.
Proof.
  unfold JsArray.get. intros [H|H].
  - apply Z.ltb_lt in H. now rewrite H.
  - destruct (index <? 0); [reflexivity|].
    apply nth_error_None. lia.
Qed.

Lemma get_some {A : Type} (a : list A) (k : nat) :
  (k < List.length a)%nat -> exists v, JsArray.get a (Z.of_nat k) = Some v.
Proof.
  intros H. unfold JsArray.get.
  assert (E : (Z.of_nat k <? 0) = false) by (apply Z.ltb_ge; lia).
  rewrite E, Nat2Z.id.
  destruct (nth_error a k) as [v|] eqn:N; [now exists v|].
  apply nth_error_None in N. lia.
Qed.


Lemma get_in_range_some {A : Type} (a : list A) (index : Z) :
  0 <= index < Z.of_nat (List.length a) ->
  exists v, JsArray.get a index = Some v.
Proof.
  intros H. rewrite <- (Z2Nat.id index) by lia. apply get_some. lia.
Qed.

Lemma splice1_past_end {A : Type} (a : list A) (index : Z) :
  Z.of_nat (List.length a) <= index -> JsArray.splice1 index a = a.
Proof.
  intros H. unfold JsArray.splice1.
  assert (E : (index <? 0) = false) by (apply Z.ltb_ge; lia). rewrite E.
  rewrite Z.min_r by lia. rewrite Nat2Z.id.
  rewrite firstn_all, skipn_all2 by lia. apply app_nil_r.
Qed.

Lemma splice1_length {A : Type} (a : list A) (index : Z) :
  (List.length (JsArray.splice1 index a) <= List.length a)%nat.
Proof.
  unfold JsArray.splice1. rewrite length_app, length_firstn, length_skipn. lia.
Qed.

Lemma renumberFrom_length (i : Z) (l : list Annotation.t) :
  List.length (renumberFrom i l) = List.length l.
Proof. revert i. induction l; simpl; intros; auto. Qed.

Lemma renumberFrom_ids (i : Z) (l : list Annotation.t) :
  map Annotation.id (renumberFrom i l)
  = map (fun k => i + Z.of_nat k + 1) (seq 0 (List.length l)).
Proof.
  revert i. induction l as [|a l IH]; intros i; simpl; [reflexivity|].
  f_equal; [lia|].
  rewrite IH, <- seq_shift, map_map. apply map_ext. intros k. lia.
Qed.

Lemma renumberFrom_fixed (l : list Annotation.t) (i : Z) :
  map Annotation.id l = map (fun k => i + Z.of_nat k + 1) (seq 0 (List.length l)) ->
  renumberFrom i l = l.
Proof.
  revert i. induction l as [|a l IH]; intros i H; simpl in *; [reflexivity|].
  injection H as Ha Hl. f_equal.
  - destruct a; unfold Annotation.set_id; simpl in *. f_equal. lia.
  - apply IH. rewrite Hl, <- seq_shift, map_map. apply map_ext. intros k. lia.
Qed.

(** ** Handlers that only move the camera *)

Lemma withCamera_same (s : State) :
  withCamera (World.clockReads (world s)) (World.frames (world s))
    (World.cameraPosition (world s)) (World.controlsTarget (world s)) s = s.
Proof. destruct s as [[] ? ? ? ? ? ? ? ? ? ? ? ? ? ?]. reflexivity. Qed.

Lemma update_camera (a : Animation) (s : State) :
  exists k f p t, update a s = withCamera k f p t s.
Proof.
  exists (World.clockReads (world (update a s))),
    (World.frames (world (update a s))),
    (World.cameraPosition (world (update a s))),
    (World.controlsTarget (world (update a s))).
  unfold update, performanceNow, commit, controlsUpdate. simpl.
  match goal with |- context [if ?c then _ else _] => destruct c end;
    reflexivity.
Qed.

Lemma animateCamera_camera (np nt : Vector3.t) (d : float) (s : State) :
  exists k f p t, animateCamera np nt d s = withCamera k f p t s.
Proof.
  unfold animateCamera, performanceNow.
  match goal with |- context [update ?a ?s'] =>
    destruct (update_camera a s') as (k & f & p & q & E) end.
  simpl in *. rewrite E. exists k, f, p, q. reflexivity.
Qed.

Lemma updates_camera (l : list Animation) (s : State) :
  exists k f p t, fold_left (fun st a => update a st) l s = withCamera k f p t s.
Proof.
  revert s. induction l as [|a l IH]; intros s; simpl.
  - do 4 eexists. symmetry. apply withCamera_same.
  - destruct (update_camera a s) as (k & f & p & q & E). rewrite E.
    destruct (IH (withCamera k f p q s)) as (k' & f' & p' & q' & E').
    rewrite E'. exists k', f', p', q'. reflexivity.
Qed.

Lemma animationFrame_camera (s : State) :
  exists k f p t, animationFrame s = withCamera k f p t s.
Proof.
  unfold animationFrame.
  destruct (updates_camera (World.frames (world s)) (set_frames [] s))
    as (k & f & p & q & E).
  rewrite E. exists k, f, p, q. reflexivity.
Qed.

(** ** The scene *)

Lemma removeChild_incl (i : nat) (l : list Child) (c : Child) :
  In c (removeChild i l) -> In c l.
Proof.
  induction l as [|d l IH]; simpl; [tauto|].
  destruct (Nat.eqb (childId d) i); simpl; tauto.
Qed.

Lemma removeChild_NoDup (i : nat) (l : list Child) :
  NoDup (map childId l) -> NoDup (map childId (removeChild i l)).
Proof.
  induction l as [|d l IH]; simpl; intros H; [assumption|].
  inversion H as [|? ? Hd Hl]; subst.
  destruct (Nat.eqb (childId d) i); [assumption|].
  simpl. constructor; [|auto].
  intros Hin. apply Hd. apply in_map_iff in Hin. destruct Hin as [c [E Hc]].
  apply in_map_iff. exists c. split; [assumption|].
  eapply removeChild_incl; eassumption.
Qed.

Lemma removeChild_gone (i : nat) (l : list Child) (c : Child) :
  NoDup (map childId l) -> In c (removeChild i l) -> childId c <> i.
Proof.
  induction l as [|d l IH]; simpl; intros H Hin; [contradiction|].
  inversion H as [|? ? Hd Hl]; subst.
  destruct (Nat.eqb (childId d) i) eqn:E.
  - apply Nat.eqb_eq in E. intros Hc. apply Hd. rewrite E, <- Hc.
    now apply in_map.
  - destruct Hin as [->|Hin]; [now apply Nat.eqb_neq | auto].
Qed.

Section SceneSteps.

Variables (children : list Child) (next : nat).
Variables (preview placed : option Object3D).
Hypothesis ok : SceneOk children next preview placed.

Lemma SceneOk_remove (i : nat) :
  SceneOk (removeChild i children) next preview placed.
Proof.
  pose proof ok as (D & B & P & Q).
  split; [now apply removeChild_NoDup|].
  split; [intros c Hc; apply B; eapply removeChild_incl; eassumption|].
  split; intros c Hc; [apply P | apply Q]; eapply removeChild_incl; eassumption.
Qed.

Lemma SceneOk_allocate : SceneOk children (S next) preview placed.
Proof.
  pose proof ok as (D & B & P & Q). repeat split; trivial.
  intros c Hc. specialize (B c Hc). lia.
Qed.

Lemma fresh_NoDup (k : Kind) :
  NoDup (map childId (children ++ [mkChild next k])).
Proof.
  pose proof ok as (D & B & _). rewrite map_app. simpl.
  apply NoDup_app; [assumption | repeat constructor; simpl; tauto |].
  intros i Hi [<-|[]]. apply in_map_iff in Hi. destruct Hi as [c [E Hc]].
  specialize (B c Hc). simpl in *. lia.
Qed.

Lemma fresh_below (k : Kind) (c : Child) :
  In c (children ++ [mkChild next k]) -> (childId c < S next)%nat.
Proof.
  pose proof ok as (_ & B & _). intros Hc. apply in_app_or in Hc.
  destruct Hc as [Hc|[<-|[]]]; [specialize (B c Hc)|simpl]; lia.
Qed.

(** Adding a new object that is neither a preview nor a placed marker. *)
Lemma SceneOk_add (k : Kind) :
  k <> PreviewMarker -> k <> PlacedMarker ->
  SceneOk (children ++ [mkChild next k]) (S next) preview placed.
Proof.
  intros Hk1 Hk2. pose proof ok as (D & B & P & Q).
  split; [apply fresh_NoDup|]. split; [apply fresh_below|].
  split; intros c Hc Hkind; apply in_app_or in Hc;
    (destruct Hc as [Hc|[<-|[]]]; [auto | simpl in Hkind; congruence]).
Qed.

(** A new preview marker, when no preview marker is in the scene. *)
Lemma SceneOk_add_preview (m : Object3D) :
  preview = None -> objectId m = next ->
  SceneOk (children ++ [mkChild next PreviewMarker]) (S next) (Some m) placed.
Proof.
  intros Hp Hm. pose proof ok as (D & B & P & Q).
  split; [apply fresh_NoDup|]. split; [apply fresh_below|].
  split; intros c Hc Hkind; apply in_app_or in Hc.
  - destruct Hc as [Hc|[<-|[]]].
    + destruct (P c Hc Hkind) as (m' & E & _). congruence.
    + exists m. auto.
  - destruct Hc as [Hc|[<-|[]]]; [auto | discriminate].
Qed.

(** A new placed marker, when no placed marker is in the scene. *)
Lemma SceneOk_add_placed (m : Object3D) :
  placed = None -> objectId m = next ->
  SceneOk (children ++ [mkChild next PlacedMarker]) (S next) preview (Some m).
Proof.
  intros Hp Hm. pose proof ok as (D & B & P & Q).
  split; [apply fresh_NoDup|]. split; [apply fresh_below|].
  split; intros c Hc Hkind; apply in_app_or in Hc.
  - destruct Hc as [Hc|[<-|[]]]; [auto | discriminate].
  - destruct Hc as [Hc|[<-|[]]].
    + destruct (Q c Hc Hkind) as (m' & E & _). congruence.
    + exists m. auto.
Qed.

(** Removing the preview marker leaves no preview marker behind. *)
Lemma SceneOk_drop_preview (m : Object3D) :
  preview = Some m ->
  SceneOk (removeChild (objectId m) children) next None placed.
Proof.
  intros Hp. destruct (SceneOk_remove (objectId m)) as (D & B & P & Q).
  repeat split; trivial.
  intros c Hc Hkind. destruct (P c Hc Hkind) as (m' & E & Hid).
  assert (m' = m) by congruence. subst m'. exfalso.
  eapply removeChild_gone; [apply ok | exact Hc | exact Hid].
Qed.

Lemma SceneOk_drop_placed (m : Object3D) :
  placed = Some m ->
  SceneOk (removeChild (objectId m) children) next preview None.
Proof.
  intros Hp. destruct (SceneOk_remove (objectId m)) as (D & B & P & Q).
  repeat split; trivial.
  intros c Hc Hkind. destruct (Q c Hc Hkind) as (m' & E & Hid).
  assert (m' = m) by congruence. subst m'. exfalso.
  eapply removeChild_gone; [apply ok | exact Hc | exact Hid].
Qed.

(** The preview marker may move or hide: it stays the same object. *)
Lemma SceneOk_same_preview (m m' : Object3D) :
  preview = Some m -> objectId m' = objectId m ->
  SceneOk children next (Some m') placed.
Proof.
  intros Hp Hid. pose proof ok as (D & B & P & Q). repeat split; trivial.
  intros c Hc Hkind. destruct (P c Hc Hkind) as (m0 & E & Hc0).
  assert (m0 = m) by congruence. subst m0.
  exists m'. split; [reflexivity | congruence].
Qed.

Lemma SceneOk_absent_preview :
  preview = None -> forall c, In c children -> childKind c <> PreviewMarker.
Proof.
  intros Hp c Hc Hkind. pose proof ok as (_ & _ & P & _).
  destruct (P c Hc Hkind) as (m & E & _). congruence.
Qed.

Lemma SceneOk_absent_placed :
  placed = None -> forall c, In c children -> childKind c <> PlacedMarker.
Proof.
  intros Hp c Hc Hkind. pose proof ok as (_ & _ & _ & Q).
  destruct (Q c Hc Hkind) as (m & E & _). congruence.
Qed.

End SceneSteps.

(** ** Frames: what a handler leaves alone *)

Ltac split_match :=
  repeat match goal with
  | |- context [match ?x with _ => _ end] => destruct x eqn:?
  end.

Lemma store_fields (s s' : State) :
  store s' = store s ->
  annotations s' = annotations s
  /\ measurePoints s' = measurePoints s
  /\ annotationMarkers s' = annotationMarkers s
  /\ World.children (world s') = World.children (world s)
  /\ World.nextId (world s') = World.nextId (world s)
  /\ previewMarker s' = previewMarker s
  /\ placedMarker s' = placedMarker s.
Proof. unfold store. intros H. injection H as -> -> -> -> -> -> ->. tauto. Qed.

Lemma focusAnnotation_store (index : Z) (s : State) :
  store (focusAnnotation index s) = store s.
Proof.
  unfold focusAnnotation. destruct (JsArray.get (annotations s) index); [|reflexivity].
  match goal with |- context [animateCamera ?np ?nt ?d ?s'] =>
    destruct (animateCamera_camera np nt d s') as (k & f & p & q & E) end.
  rewrite E. reflexivity.
Qed.

Lemma focusAnnotation_flags (index : Z) (s : State) :
  isMeasuring (focusAnnotation index s) = isMeasuring s
  /\ isAddingAnnotation (focusAnnotation index s) = isAddingAnnotation s
  /\ pendingAnnotationPosition (focusAnnotation index s)
     = pendingAnnotationPosition s
  /\ isTourActive (focusAnnotation index s) = isTourActive s
  /\ Dom.measurementResult (dom (focusAnnotation index s))
     = Dom.measurementResult (dom s).
Proof.
  unfold focusAnnotation. destruct (JsArray.get (annotations s) index); [|tauto].
  match goal with |- context [animateCamera ?np ?nt ?d ?s'] =>
    destruct (animateCamera_camera np nt d s') as (k & f & p & q & E) end.
  rewrite E. simpl. tauto.
Qed.

Lemma focusAnnotation_tourIndex (index : Z) (s : State) :
  tourIndex (focusAnnotation index s)
  = match JsArray.get (annotations s) index with
    | Some _ => index
    | None => tourIndex s
    end.
Proof.
  unfold focusAnnotation. destruct (JsArray.get (annotations s) index); [|reflexivity].
  match goal with |- context [animateCamera ?np ?nt ?d ?s'] =>
    destruct (animateCamera_camera np nt d s') as (k & f & p & q & E) end.
  rewrite E. reflexivity.
Qed.

Lemma focusAnnotation_cursor (index : Z) (s : State) :
  cursorOk s -> cursorOk (focusAnnotation index s).
Proof.
  unfold cursorOk, count. intros H.
  destruct (store_fields _ _ (focusAnnotation_store index s)) as (-> & _).
  rewrite focusAnnotation_tourIndex.
  destruct (JsArray.get (annotations s) index) eqn:E; [|assumption].
  apply get_in_range in E. lia.
Qed.

Lemma focusAnnotation_shows (index : Z) (s : State) (a : Annotation.t) :
  JsArray.get (annotations s) index = Some a ->
  tourIndex (focusAnnotation index s) = index
  /\ Dom.infoTitle (dom (focusAnnotation index s)) = Annotation.title a
  /\ Dom.infoDescription (dom (focusAnnotation index s))
     = Annotation.description a
  /\ Dom.infoPanelHidden (dom (focusAnnotation index s)) = false
  /\ annotations (focusAnnotation index s) = annotations s
  /\ isTourActive (focusAnnotation index s) = isTourActive s.
Proof.
  intros H. unfold focusAnnotation. rewrite H.
  match goal with |- context [animateCamera ?np ?nt ?d ?s'] =>
    destruct (animateCamera_camera np nt d s') as (k & f & p & q & E) end.
  rewrite E. repeat split; reflexivity.
Qed.

Lemma sceneRemoveAll_children (l : list Object3D) (s : State) :
  exists ch, sceneRemoveAll l s = set_children ch s.
Proof.
  unfold sceneRemoveAll. revert s.
  induction l as [|o l IH]; intros s; simpl.
  - exists (World.children (world s)).
    destruct s as [[] ? ? ? ? ? ? ? ? ? ? ? ? ? ?]. reflexivity.
  - destruct (IH (sceneRemove o s)) as [ch E]. rewrite E.
    exists ch. reflexivity.
Qed.

Lemma sceneRemoveAll_ok (l : list Object3D) (s : State) :
  sceneOk s -> sceneOk (sceneRemoveAll l s).
Proof.
  unfold sceneRemoveAll. revert s.
  induction l as [|o l IH]; intros s H; simpl; [assumption|].
  apply IH. unfold sceneOk in *. simpl. now apply SceneOk_remove.
Qed.

Lemma addMarkersFrom_frame (l : list Annotation.t) (index : Z) (s : State) :
  exists ch n ms,
    addMarkersFrom index l s
    = set_annotationMarkers ms (set_nextId n (set_children ch s)).
Proof.
  revert index s. induction l as [|a l IH]; intros index s; simpl.
  - exists (World.children (world s)), (World.nextId (world s)),
      (annotationMarkers s).
    destruct s as [[] ? ? ? ? ? ? ? ? ? ? ? ? ? ?]. reflexivity.
  - match goal with |- context [addMarkersFrom ?i l ?s'] =>
      destruct (IH i s') as (ch & n & ms & E) end.
    rewrite E. exists ch, n, ms. reflexivity.
Qed.

Lemma addMarkersFrom_ok (l : list Annotation.t) (index : Z) (s : State) :
  sceneOk s -> sceneOk (addMarkersFrom index l s).
Proof.
  revert index s. induction l as [|a l IH]; intros index s H; simpl;
    [assumption|].
  apply IH. unfold sceneOk in *. simpl. apply SceneOk_add; [assumption | |];
    discriminate.
Qed.

Lemma addMarkersFrom_markers (l : list Annotation.t) (index : Z) (s : State) :
  exists ms,
    annotationMarkers (addMarkersFrom index l s) = annotationMarkers s ++ ms
    /\ List.length ms = List.length l
    /\ forall k m, nth_error ms k = Some m ->
         userIndex m = Some (index + Z.of_nat k) /\ userIsPreview m = false.
Proof.
  revert index s. induction l as [|a l IH]; intros index s; simpl.
  - exists []. rewrite app_nil_r. split; [reflexivity|]. split; [reflexivity|].
    intros [|k] m; discriminate.
  - match goal with |- context [addMarkersFrom ?i l ?s'] =>
      destruct (IH i s') as (ms & E & L & P) end.
    rewrite E. simpl.
    match goal with |- context [(_ ++ [?o]) ++ ms] => exists (o :: ms) end.
    rewrite <- app_assoc. split; [reflexivity|].
    split; [simpl; now rewrite L|].
    intros [|k] m H; simpl in H.
    + injection H as <-. simpl. now rewrite Z.add_0_r.
    + destruct (P k m H) as [Hi Hp]. split; [|assumption].
      rewrite Hi. f_equal. lia.
Qed.

Lemma update3D_frame (s : State) :
  exists ch n ms,
    update3DAnnotationMarkers s
    = set_annotationMarkers ms (set_nextId n (set_children ch s)).
Proof.
  unfold update3DAnnotationMarkers.
  destruct (sceneRemoveAll_children (annotationMarkers s) s) as [ch E].
  rewrite E.
  match goal with |- context [addMarkersFrom ?i ?l ?s'] =>
    destruct (addMarkersFrom_frame l i s') as (ch' & n & ms & E') end.
  simpl in *. rewrite E'. exists ch', n, ms. reflexivity.
Qed.

(** Whether the list redraw returns does not depend on the cursor. *)
Lemma cardsFrom_returns (e : Env) (index cursor cursor' : Z)
    (l : list Annotation.t) :
  returns (cardsFrom e index cursor l) = returns (cardsFrom e index cursor' l).
Proof.
  revert index. induction l as [|a l IH]; intros index; simpl; [reflexivity|].
  destruct (querySelector_delete e _); [|reflexivity].
  specialize (IH (index + 1)).
  destruct (cardsFrom e (index + 1) cursor l),
    (cardsFrom e (index + 1) cursor' l); simpl in *; congruence.
Qed.

Lemma drawn_ext (s s' : State) :
  World.env (world s') = World.env (world s) ->
  annotations s' = annotations s ->
  returns (updateAnnotationList s') = returns (updateAnnotationList s).
Proof.
  unfold updateAnnotationList. intros -> ->. apply cardsFrom_returns.
Qed.

(** [deleteAnnotation] ends with the markers rebuilt or, where the list
    redraw throws, with the state as it is: the scene, the identity counter
    and the markers apart, that is the same state. *)
Lemma rebuild_frame (s : State) :
  exists ch n ms,
    match updateAnnotationList s with
    | Returns _ => update3DAnnotationMarkers s
    | Throws _ => s
    end
    = set_annotationMarkers ms (set_nextId n (set_children ch s)).
Proof.
  destruct (updateAnnotationList s); [apply update3D_frame|].
  exists (World.children (world s)), (World.nextId (world s)),
    (annotationMarkers s).
  destruct s as [[] ? ? ? ? ? ? ? ? ? ? ? ? ? ?]. reflexivity.
Qed.

Lemma update3D_ok (s : State) :
  sceneOk s -> sceneOk (update3DAnnotationMarkers s).
Proof.
  intros H. unfold update3DAnnotationMarkers.
  apply addMarkersFrom_ok.
  apply (sceneRemoveAll_ok (annotationMarkers s)) in H.
  exact H.
Qed.

Lemma update3D_markers (s : State) :
  markersOk (update3DAnnotationMarkers s).
Proof.
  unfold markersOk, update3DAnnotationMarkers.
  destruct (sceneRemoveAll_children (annotationMarkers s) s) as [ch' E].
  rewrite E.
  match goal with |- context [addMarkersFrom ?i ?l ?s'] =>
    destruct (addMarkersFrom_markers l i s') as (ms' & E' & L & P) end.
  simpl in *. rewrite E'.
  intros k m H. apply (P k m H).
Qed.

(** ** The invariant *)

(** Rebuilds [SceneOk] after removals and additions, from [S]. *)
Ltac scene S :=
  solve
    [ exact S
    | eapply SceneOk_same_preview; [exact S | reflexivity | reflexivity]
    | eapply SceneOk_add_preview; [scene S | reflexivity | reflexivity]
    | eapply SceneOk_add_placed; [scene S | reflexivity | reflexivity]
    | eapply SceneOk_drop_placed; [scene S | reflexivity]
    | eapply SceneOk_drop_preview; [scene S | reflexivity] ].

Ltac inv_split := unfold Inv; split; [|split; [|split; [|split]]].

Lemma Inv_frame (s s' : State) :
  store s' = store s -> cursorOk s' -> Inv s -> Inv s'.
Proof.
  intros E C (O & _ & M & K & S).
  destruct (store_fields _ _ E) as (Ea & Em & Ek & Ec & En & Ep & Eq).
  unfold Inv, ordinalsOk, ordinals, markersOk, sceneOk in *.
  rewrite Ea, Em, Ek, Ec, En, Ep, Eq. tauto.
Qed.

Lemma cursorOk_frame (s s' : State) :
  annotations s' = annotations s -> tourIndex s' = tourIndex s ->
  cursorOk s -> cursorOk s'.
Proof. unfold cursorOk, count. intros -> ->. trivial. Qed.

Lemma Inv_initial (e : Env) (page : Dom.t) : Inv (initial e page).
Proof.
  unfold Inv. split; [reflexivity|].
  split; [unfold cursorOk, count; simpl; lia|].
  split; [simpl; lia|]. split.
  - intros [|k] m; discriminate.
  - unfold sceneOk, SceneOk, tracked. simpl. unfold lights.
    split; [repeat constructor; simpl; intuition discriminate|].
    split; [|split]; intros c Hc; simpl in Hc;
      repeat (destruct Hc as [<-|Hc]; [simpl; try lia; discriminate|]);
      contradiction.
Qed.

Lemma Inv_focusAnnotation (index : Z) (s : State) :
  Inv s -> Inv (focusAnnotation index s).
Proof.
  intros H. apply (Inv_frame s); trivial.
  - apply focusAnnotation_store.
  - apply focusAnnotation_cursor, H.
Qed.

Lemma Inv_startTour (s : State) : Inv s -> Inv (startTour s).
Proof.
  intros H. unfold startTour.
  destruct (Z.of_nat (List.length (annotations s)) =? 0) eqn:E; [assumption|].
  apply Inv_focusAnnotation. apply (Inv_frame s); trivial.
  apply Z.eqb_neq in E. unfold cursorOk, count. simpl. lia.
Qed.

Lemma Inv_endTour (s : State) : Inv s -> Inv (endTour s).
Proof.
  intros H. apply (Inv_frame s); trivial.
  unfold cursorOk, count, endTour. simpl. lia.
Qed.

Lemma Inv_nextTourStop (s : State) : Inv s -> Inv (nextTourStop s).
Proof.
  intros H. unfold nextTourStop. split_match; [|assumption].
  now apply Inv_focusAnnotation.
Qed.

Lemma Inv_prevTourStop (s : State) : Inv s -> Inv (prevTourStop s).
Proof.
  intros H. unfold prevTourStop. split_match; [|assumption].
  now apply Inv_focusAnnotation.
Qed.

Lemma Inv_withCamera k f p q (s : State) : Inv s -> Inv (withCamera k f p q s).
Proof. intros H. apply (Inv_frame s); trivial. apply H. Qed.

Lemma Inv_resetView (s : State) : Inv s -> Inv (resetView s).
Proof.
  intros H. unfold resetView. destruct (model s); [|assumption].
  match goal with |- context [animateCamera ?np ?nt ?d ?s'] =>
    destruct (animateCamera_camera np nt d s') as (k & f & p & q & E) end.
  rewrite E. now apply Inv_withCamera.
Qed.

Lemma Inv_animationFrame (s : State) : Inv s -> Inv (animationFrame s).
Proof.
  intros H. destruct (animationFrame_camera s) as (k & f & p & q & E).
  rewrite E. now apply Inv_withCamera.
Qed.

Lemma Inv_onModelLoaded (size : Vector3.t) (s : State) :
  Inv s -> Inv (onModelLoaded size s).
Proof.
  intros (O & C & M & K & S). inv_split; trivial.
  unfold sceneOk in *. simpl. apply SceneOk_add; [assumption| |]; discriminate.
Qed.

Lemma Inv_clearMeasurement (s : State) : Inv s -> Inv (clearMeasurement s).
Proof.
  intros (O & C & M & K & S). unfold clearMeasurement.
  destruct (sceneRemoveAll_children (measureMarkers (set_measurePoints [] s))
              (set_measurePoints [] s)) as [ch E].
  assert (S' : sceneOk (sceneRemoveAll (measureMarkers (set_measurePoints [] s))
                          (set_measurePoints [] s)))
    by (apply sceneRemoveAll_ok; exact S).
  rewrite E in *. simpl.
  assert (R : forall line, sceneOk (sceneRemove line (set_children ch s))).
  { intros line. unfold sceneOk in *. simpl in *. now apply SceneOk_remove. }
  destruct (measureLine s) as [line|]; inv_split; trivial; simpl; try lia;
    try apply (R line); exact S'.
Qed.

Lemma Inv_toggleMeasureMode (s : State) : Inv s -> Inv (toggleMeasureMode s).
Proof.
  intros H. unfold toggleMeasureMode.
  match goal with |- context [clearMeasurement ?s'] =>
    assert (H' : Inv (clearMeasurement s')) by (apply Inv_clearMeasurement; exact H);
    set (s1 := clearMeasurement s') in * end.
  match goal with |- context [if ?c then _ else _] => destruct c end;
    (apply (Inv_frame s1); [reflexivity | apply H' | exact H']).
Qed.

Lemma Inv_addMeasurePoint (point : Vector3.t) (s : State) :
  (List.length (measurePoints s) < 2)%nat ->
  Inv s -> Inv (addMeasurePoint point s).
Proof.
  intros L (O & C & M & K & S). unfold addMeasurePoint. simpl.
  assert (S1 : SceneOk
                 (World.children (world s)
                  ++ [mkChild (World.nextId (world s)) MeasureMarker])
                 (Datatypes.S (World.nextId (world s)))
                 (previewMarker s) (placedMarker s))
    by (apply SceneOk_add; [assumption| |]; discriminate).
  destruct (measurePoints s) as [|p0 [|p1 l]] eqn:E; simpl in *;
    try lia; (inv_split; trivial; simpl; try lia);
    unfold sceneOk; simpl;
    first [exact S1 | apply SceneOk_add; [exact S1 | |]; discriminate].
Qed.

Lemma Inv_setAnnotationPosition (point : Vector3.t) (s : State) :
  Inv s -> Inv (setAnnotationPosition point s).
Proof.
  intros (O & C & M & K & S). unfold setAnnotationPosition. simpl.
  unfold sceneOk in S.
  destruct (previewMarker s) as [pm|] eqn:Epm; simpl;
    destruct (placedMarker s) as [qm|] eqn:Eqm; simpl;
    (inv_split; trivial; unfold sceneOk; simpl; rewrite ?Epm, ?Eqm; scene S).
Qed.

Lemma Inv_onCanvasClick (ev : Pointer) (s : State) :
  Inv s -> Inv (onCanvasClick ev s).
Proof.
  intros H. unfold onCanvasClick.
  destruct (model s); [|assumption].
  destruct (markerTarget ev s); [now apply Inv_focusAnnotation|].
  destruct (modelHit ev) as [point|]; [|assumption].
  destruct (isMeasuring s && (List.length (measurePoints s) <? 2)%nat) eqn:E.
  - apply andb_true_iff in E. destruct E as [_ E]. apply Nat.ltb_lt in E.
    now apply Inv_addMeasurePoint.
  - destruct (isAddingAnnotation s); [|assumption].
    now apply Inv_setAnnotationPosition.
Qed.

Lemma Inv_onCanvasMouseMove (ev : Pointer) (s : State) :
  Inv s -> Inv (onCanvasMouseMove ev s).
Proof.
  intros H. unfold onCanvasMouseMove.
  destruct (model s); [|assumption].
  destruct (negb (isAddingAnnotation s)); [assumption|].
  destruct (previewMarker s) as [pm|] eqn:Epm; [|assumption].
  destruct H as (O & C & M & K & S). unfold sceneOk in S. rewrite Epm in S.
  destruct (modelHit ev); (inv_split; trivial; unfold sceneOk; simpl);
    (eapply SceneOk_same_preview; [exact S|reflexivity|reflexivity]).
Qed.

Lemma Inv_toggleAddAnnotationMode (s : State) :
  Inv s -> Inv (toggleAddAnnotationMode s).
Proof.
  intros (O & C & M & K & S). unfold toggleAddAnnotationMode. simpl.
  unfold sceneOk in S.
  destruct (negb (isAddingAnnotation s)); simpl;
    destruct (previewMarker s) as [pm|] eqn:Epm; simpl;
    try (destruct (placedMarker s) as [qm|] eqn:Eqm; simpl);
    (inv_split; trivial; unfold sceneOk; simpl; rewrite ?Epm, ?Eqm; scene S).
Qed.

Lemma ordinalsOk_push (l : list Annotation.t) (a : Annotation.t) :
  map Annotation.id l
  = map (fun i => Z.of_nat i + 1) (seq 0 (List.length l)) ->
  Annotation.id a = Z.of_nat (List.length l) + 1 ->
  map Annotation.id (l ++ [a])
  = map (fun i => Z.of_nat i + 1) (seq 0 (List.length (l ++ [a]))).
Proof.
  intros H Ha. rewrite map_app, length_app. simpl.
  rewrite seq_app, map_app. simpl. now rewrite H, Ha.
Qed.

Lemma Inv_saveAnnotation (s : State) : Inv s -> Inv (saveAnnotation s).
Proof.
  intros H. unfold saveAnnotation.
  destruct (JsString.truthy _); [|assumption].
  destruct (pendingAnnotationPosition s) as [pending|]; [|assumption].
  destruct H as (O & C & M & K & S).
  match goal with |- context [updateAnnotationList ?s'] =>
    assert (S' : sceneOk s'); [|set (s1 := s') in *] end.
  { unfold sceneOk in *. simpl.
    destruct (placedMarker s) as [qm|] eqn:Eqm; simpl; rewrite ?Eqm; scene S. }
  assert (A : annotations s1 = annotations s ++ [Annotation.mk
               (Z.of_nat (List.length (annotations s)) + 1)
               (JsString.trim (Dom.annotationTitle (dom s)))
               (JsString.or (JsString.trim (Dom.annotationDescription (dom s)))
                  noDescription) pending]).
  { subst s1. simpl. destruct (placedMarker s); reflexivity. }
  assert (T : tourIndex s1 = tourIndex s /\ measurePoints s1 = measurePoints s).
  { subst s1. simpl. destruct (placedMarker s); split; reflexivity. }
  destruct T as [T1 T2].
  assert (K1 : annotationMarkers s1 = annotationMarkers s)
    by (subst s1; simpl; destruct (placedMarker s); reflexivity).
  assert (O1 : ordinalsOk s1)
    by (unfold ordinalsOk, ordinals; rewrite A; now apply ordinalsOk_push).
  assert (C1 : cursorOk s1)
    by (unfold cursorOk, count in *; rewrite A, T1, length_app; simpl; lia).
  destruct (update3D_frame s1) as (ch & n & ms & E).
  destruct (updateAnnotationList s1).
  - apply Inv_toggleAddAnnotationMode. inv_split.
    + rewrite E. exact O1.
    + rewrite E. exact C1.
    + rewrite E. simpl. now rewrite T2.
    + apply update3D_markers.
    + now apply update3D_ok.
  - inv_split; trivial.
    + now rewrite T2.
    + unfold markersOk. now rewrite K1.
Qed.

Lemma Inv_deleteAnnotation (index : Z) (s : State) :
  Inv s -> Inv (deleteAnnotation index s).
Proof.
  intros (O & C & M & K & S). unfold deleteAnnotation. simpl.
  rewrite renumberFrom_length.
  set (l := JsArray.splice1 index (annotations s)).
  match goal with |- context [updateAnnotationList ?s'] =>
    set (s1 := s') end.
  assert (A : annotations s1 = renumberFrom 0 l)
    by (subst s1; split_match; reflexivity).
  assert (P : measurePoints s1 = measurePoints s /\ sceneOk s1
              /\ annotationMarkers s1 = annotationMarkers s).
  { subst s1; split_match; (split; [reflexivity | split; [exact S | reflexivity]]). }
  destruct P as (P1 & P2 & P3).
  assert (T : -1 <= tourIndex s1 <= Z.of_nat (List.length l) - 1).
  { unfold cursorOk, count in C. subst s1.
    rewrite Z.geb_leb.
    destruct (Z.leb_spec (Z.of_nat (List.length l)) (tourIndex s));
      destruct (Z.eqb_spec (Z.of_nat (List.length l)) 0); simpl; lia. }
  assert (O1 : ordinalsOk s1).
  { unfold ordinalsOk, ordinals. rewrite A.
    rewrite renumberFrom_ids, renumberFrom_length. apply map_ext. intros; lia. }
  assert (C1 : cursorOk s1)
    by (unfold cursorOk, count; rewrite A, renumberFrom_length; exact T).
  destruct (update3D_frame s1) as (ch & n & ms & E).
  destruct (updateAnnotationList s1).
  - inv_split.
    + rewrite E. exact O1.
    + rewrite E. exact C1.
    + rewrite E. simpl. now rewrite P1.
    + apply update3D_markers.
    + now apply update3D_ok.
  - inv_split; trivial.
    + now rewrite P1.
    + unfold markersOk. now rewrite P3.
Qed.

Lemma Inv_onKeyDown (key : Key) (s : State) : Inv s -> Inv (onKeyDown key s).
Proof.
  intros H. destruct key; simpl; trivial.
  - assert (H' : Inv (if isAddingAnnotation s then cancelAnnotation s else s))
      by (destruct (isAddingAnnotation s);
          [now apply Inv_toggleAddAnnotationMode | assumption]).
    destruct (isTourActive _); [now apply Inv_endTour | assumption].
  - destruct (isTourActive s); [now apply Inv_nextTourStop | assumption].
  - destruct (isTourActive s); [now apply Inv_prevTourStop | assumption].
Qed.

Lemma Inv_handle (e : Event) (s : State) : Inv s -> Inv (handle e s).
Proof.
  intros H. destruct e; simpl.
  - now apply Inv_onModelLoaded.
  - now apply Inv_onCanvasClick.
  - now apply Inv_onCanvasMouseMove.
  - now apply Inv_resetView.
  - now apply Inv_toggleAddAnnotationMode.
  - now apply Inv_toggleAddAnnotationMode.
  - now apply Inv_saveAnnotation.
  - destruct (isTourActive s); [now apply Inv_endTour | now apply Inv_startTour].
  - now apply Inv_prevTourStop.
  - now apply Inv_nextTourStop.
  - apply (Inv_frame s); trivial; apply H.
  - now apply Inv_focusAnnotation.
  - now apply Inv_deleteAnnotation.
  - apply (Inv_frame s); trivial; apply H.
  - apply (Inv_frame s); trivial; apply H.
  - now apply Inv_onKeyDown.
  - now apply Inv_animationFrame.
  - apply (Inv_frame s); trivial; apply H.
  - now apply Inv_toggleMeasureMode.
Qed.

Lemma Inv_run (events : list Event) (s : State) : Inv s -> Inv (run events s).
Proof.
  unfold run. revert s. induction events as [|e events IH]; intros s H; simpl;
    [assumption|].
  apply IH. now apply Inv_handle.
Qed.

Lemma Inv_trace (events : list Event) (s : State) :
  Inv s -> Forall Inv (trace events s).
Proof.
  revert s. induction events as [|e events IH]; intros s H; simpl;
    constructor; [now apply Inv_handle|].
  apply IH. now apply Inv_handle.
Qed.

Lemma Inv_reachable (e : Env) (page : Dom.t) (events : list Event) :
  Inv (run events (initial e page)).
Proof. apply Inv_run, Inv_initial. Qed.

(** ** Ordinals *)

Lemma ordinalsOk_nth (s : State) :
  ordinalsOk s ->
  forall i a, nth_error (annotations s) i = Some a ->
    Annotation.id a = Z.of_nat i + 1.
Proof.
  unfold ordinalsOk, ordinals. intros H i a Ha.
  pose proof (map_nth_error Annotation.id i (annotations s) Ha) as E.
  rewrite H, nth_error_map, nth_error_seq in E.
  destruct (i <? List.length (annotations s))%nat; simpl in E; congruence.
Qed.

Lemma ordinalsOk_NoDup (s : State) : ordinalsOk s -> NoDup (ordinals s).
Proof.
  unfold ordinalsOk. intros ->.
  apply NoDup_map_NoDup_ForallPairs; [|apply seq_NoDup].
  intros i j _ _ H. lia.
Qed.

(** C1.  Along every sequence of events from the initial state (saves and
    deletions at any index among them), after each event the ordinals are
    1, 2, ..., N in array order: the annotation at index [i] has ordinal
    [i + 1], and no ordinal occurs twice. *)
Theorem ordinals_follow_index (e : Env) (page : Dom.t) (events : list Event) :
  Forall (fun s =>
            ordinals s
            = map (fun i => Z.of_nat i + 1) (seq 0 (List.length (annotations s)))
            /\ (forall i a, nth_error (annotations s) i = Some a ->
                  Annotation.id a = Z.of_nat i + 1)
            /\ NoDup (ordinals s))
         (trace events (initial e page)).
Proof.
  pose proof (Inv_trace events (initial e page) (Inv_initial e page)) as H.
  eapply Forall_impl; [|exact H].
  intros s (O & _). split; [exact O|].
  split; [now apply ordinalsOk_nth | now apply ordinalsOk_NoDup].
Qed.

(** ** Modes *)

Lemma toggleMeasureMode_flags (s : State) :
  isMeasuring (toggleMeasureMode s) = negb (isMeasuring s)
  /\ isAddingAnnotation (toggleMeasureMode s) = isAddingAnnotation s.
Proof.
  unfold toggleMeasureMode, clearMeasurement.
  match goal with |- context [sceneRemoveAll ?l ?s'] =>
    destruct (sceneRemoveAll_children l s') as [ch E] end.
  rewrite E. simpl.
  destruct (measureLine s); simpl; destruct (negb (isMeasuring s)); split;
    reflexivity.
Qed.

Lemma toggleAddAnnotationMode_flags (s : State) :
  isAddingAnnotation (toggleAddAnnotationMode s) = negb (isAddingAnnotation s)
  /\ isMeasuring (toggleAddAnnotationMode s) = isMeasuring s.
Proof.
  unfold toggleAddAnnotationMode. simpl.
  destruct (negb (isAddingAnnotation s)); simpl;
    destruct (previewMarker s); simpl; try destruct (placedMarker s);
    split; reflexivity.
Qed.

(** [isMeasuring] changes only in [toggleMeasureMode]. *)
Lemma handle_isMeasuring (e : Event) (s : State) :
  e <> ToggleMeasure -> isMeasuring (handle e s) = isMeasuring s.
Proof.
  assert (F : forall index st,
             isMeasuring (focusAnnotation index st) = isMeasuring st)
    by (intros; apply focusAnnotation_flags).
  assert (T : forall st,
             isMeasuring (toggleAddAnnotationMode st) = isMeasuring st)
    by (intros; apply toggleAddAnnotationMode_flags).
  intros N. destruct e; simpl; trivial; try congruence.
  - unfold onCanvasClick. destruct (model s); trivial.
    destruct (markerTarget ev s); [apply F|].
    destruct (modelHit ev) as [point|]; trivial.
    destruct (isMeasuring s && _).
    + unfold addMeasurePoint. simpl.
      now destruct (measurePoints s ++ [point]) as [|p0 [|p1 [|p2 l]]].
    + destruct (isAddingAnnotation s); trivial.
      unfold setAnnotationPosition. simpl.
      destruct (previewMarker s); simpl; now destruct (placedMarker s).
  - unfold onCanvasMouseMove. destruct (model s); trivial.
    destruct (negb _); trivial. destruct (previewMarker s); trivial.
    now destruct (modelHit ev).
  - unfold resetView. destruct (model s); trivial.
    match goal with |- context [animateCamera ?np ?nt ?d ?s'] =>
      destruct (animateCamera_camera np nt d s') as (k & f & p & q & E) end.
    now rewrite E.
  - unfold saveAnnotation. destruct (JsString.truthy _); trivial.
    destruct (pendingAnnotationPosition s); trivial.
    destruct (updateAnnotationList _);
      [|simpl; now destruct (placedMarker s)].
    rewrite T.
    match goal with |- context [update3DAnnotationMarkers ?s'] =>
      destruct (update3D_frame s') as (ch & k & ms & E) end.
    rewrite E. simpl. now destruct (placedMarker s).
  - destruct (isTourActive s); trivial. unfold startTour.
    destruct (_ =? 0); trivial. now rewrite F.
  - unfold prevTourStop. destruct (_ >? _); trivial.
  - unfold nextTourStop. destruct (_ <? _); trivial.
  - unfold deleteAnnotation.
    match goal with |- context [updateAnnotationList ?s'] =>
      destruct (rebuild_frame s') as (ch & k & ms & E) end.
    rewrite E. simpl. destruct (_ =? 0); simpl; now destruct (_ >=? _).
  - destruct key; simpl; trivial.
    + destruct (isAddingAnnotation s); unfold cancelAnnotation;
        [destruct (isTourActive _); simpl; apply T
        |destruct (isTourActive s); reflexivity].
    + destruct (isTourActive s); trivial. unfold nextTourStop.
      destruct (_ <? _); trivial.
    + destruct (isTourActive s); trivial. unfold prevTourStop.
      destruct (_ >? _); trivial.
  - destruct (animationFrame_camera s) as (k & f & p & q & E). now rewrite E.
Qed.

(** The listeners that [setupEventListeners] registers never turn
    Measuring mode on. *)
Lemma measuring_needs_its_toggle (e : Env) (page : Dom.t)
    (events : list Event) :
  ~ In ToggleMeasure events ->
  isMeasuring (run events (initial e page)) = false.
Proof.
  assert (G : forall s, isMeasuring s = false -> ~ In ToggleMeasure events ->
                        isMeasuring (run events s) = false).
  { unfold run. induction events as [|ev l IH]; intros s Hs H; simpl;
      [assumption|].
    apply IH; [|intros Hin; apply H; now right].
    rewrite handle_isMeasuring; [assumption|].
    intros E. apply H. left. now symmetry. }
  apply G. reflexivity.
Qed.

(** C2, as the code has it.  The two mode flags are toggled independently:
    [toggleMeasureMode] negates [isMeasuring] and leaves
    [isAddingAnnotation] as it was, [toggleAddAnnotationMode] negates
    [isAddingAnnotation] and leaves [isMeasuring] as it was.  So after a
    toggle at most one flag is set exactly when the toggle switched its own
    mode off or the other mode was off before. *)
Theorem toggles_are_independent (s : State) :
  isMeasuring (toggleMeasureMode s) = negb (isMeasuring s)
  /\ isAddingAnnotation (toggleMeasureMode s) = isAddingAnnotation s
  /\ isAddingAnnotation (toggleAddAnnotationMode s)
     = negb (isAddingAnnotation s)
  /\ isMeasuring (toggleAddAnnotationMode s) = isMeasuring s
  /\ (exclusive (toggleMeasureMode s)
      <-> isMeasuring s = true \/ isAddingAnnotation s = false)
  /\ (exclusive (toggleAddAnnotationMode s)
      <-> isAddingAnnotation s = true \/ isMeasuring s = false).
Proof.
  destruct (toggleMeasureMode_flags s) as [M1 M2].
  destruct (toggleAddAnnotationMode_flags s) as [A1 A2].
  unfold exclusive. rewrite M1, M2, A1, A2.
  repeat split; trivial;
    destruct (isMeasuring s), (isAddingAnnotation s); simpl;
    intuition congruence.
Qed.

(** C2 fails as stated: entering Measuring mode while PlacingAnnotation
    mode is on leaves both flags set. *)
Lemma modes_not_exclusive :
  let s := toggleAddAnnotationMode start in
  isAddingAnnotation s = true
  /\ isMeasuring (toggleMeasureMode s) = true
  /\ isAddingAnnotation (toggleMeasureMode s) = true
  /\ ~ exclusive (toggleMeasureMode s).
Proof. vm_compute. repeat split. discriminate. Qed.

(** ** Saving *)

Lemma toggleAddAnnotationMode_annotations (s : State) :
  annotations (toggleAddAnnotationMode s) = annotations s.
Proof.
  unfold toggleAddAnnotationMode. simpl.
  destruct (negb (isAddingAnnotation s)); simpl;
    destruct (previewMarker s); simpl; try destruct (placedMarker s);
    reflexivity.
Qed.

Lemma saveAnnotation_rejects (s : State) :
  JsString.trim (Dom.annotationTitle (dom s)) = []
  \/ pendingAnnotationPosition s = None ->
  saveAnnotation s = s.
Proof.
  unfold saveAnnotation. intros [-> | ->]; simpl; [reflexivity|].
  now destruct (JsString.truthy _).
Qed.

Lemma saveAnnotation_appends (s : State) (p : Vector3.t) :
  JsString.trim (Dom.annotationTitle (dom s)) <> [] ->
  pendingAnnotationPosition s = Some p ->
  annotations (saveAnnotation s)
  = annotations s
    ++ [Annotation.mk (count s + 1)
          (JsString.trim (Dom.annotationTitle (dom s)))
          (JsString.or (JsString.trim (Dom.annotationDescription (dom s)))
             noDescription)
          p].
Proof.
  intros T P. unfold saveAnnotation. rewrite P.
  destruct (JsString.trim (Dom.annotationTitle (dom s))) eqn:E; [congruence|].
  simpl. destruct (updateAnnotationList _);
    [|simpl; destruct (placedMarker s); reflexivity].
  rewrite toggleAddAnnotationMode_annotations.
  match goal with |- context [update3DAnnotationMarkers ?s'] =>
    destruct (update3D_frame s') as (ch & k & ms & F) end.
  rewrite F. simpl. destruct (placedMarker s); reflexivity.
Qed.

(** C6.  Saving with an empty title or without a staged position returns
    the state as it was, so the annotation list keeps its length and its
    contents; a save that goes through appends one entry, whose ordinal is
    the previous length plus one and whose position is the staged one. *)
Theorem save_needs_title_and_position (s : State) :
  (Dom.annotationTitle (dom s) = [] \/ pendingAnnotationPosition s = None ->
   saveAnnotation s = s)
  /\ (forall p,
        JsString.trim (Dom.annotationTitle (dom s)) <> [] ->
        pendingAnnotationPosition s = Some p ->
        exists a,
          annotations (saveAnnotation s) = annotations s ++ [a]
          /\ Annotation.id a = Z.of_nat (List.length (annotations s)) + 1
          /\ Annotation.position a = p).
Proof.
  split.
  - intros [H|H]; apply saveAnnotation_rejects; [left | now right].
    now rewrite H.
  - intros p T P. eexists. split; [exact (saveAnnotation_appends s p T P)|].
    split; reflexivity.
Qed.

(** C10.  A title made of white space only is rejected like an empty one:
    the state is returned as it was.  A save whose title holds some other
    character goes through and stores the title without the white space at
    its two ends, and the description without the white space at its two
    ends or, when nothing is left of it, the text
    [No description provided.]. *)
Theorem save_trims_its_input (s : State) :
  (forallb JsString.isWhiteSpace (Dom.annotationTitle (dom s)) = true ->
   saveAnnotation s = s)
  /\ (forall p,
        forallb JsString.isWhiteSpace (Dom.annotationTitle (dom s)) = false ->
        pendingAnnotationPosition s = Some p ->
        exists a d,
          annotations (saveAnnotation s) = annotations s ++ [a]
          /\ trimmedOf (Dom.annotationTitle (dom s)) (Annotation.title a)
          /\ Annotation.title a <> []
          /\ trimmedOf (Dom.annotationDescription (dom s)) d
          /\ Annotation.description a
             = match d with
               | [] => JsString.of_string "No description provided."
               | _ :: _ => d
               end).
Proof.
  split.
  - intros H. apply saveAnnotation_rejects. left. now apply trim_blank.
  - intros p T P. apply trim_not_blank in T.
    eexists. exists (JsString.trim (Dom.annotationDescription (dom s))).
    split; [exact (saveAnnotation_appends s p T P)|].
    split; [apply trim_trimmedOf|]. split; [exact T|].
    split; [apply trim_trimmedOf|]. simpl. unfold JsString.or.
    now destruct (JsString.trim (Dom.annotationDescription (dom s))).
Qed.

(** ** Deleting and focusing *)

Lemma deleteAnnotation_fields (index : Z) (s : State) :
  let l := renumberFrom 0 (JsArray.splice1 index (annotations s)) in
  let n := Z.of_nat (List.length l) in
  annotations (deleteAnnotation index s) = l
  /\ tourIndex (deleteAnnotation index s)
     = (if n =? 0 then -1 else if tourIndex s >=? n then n - 1 else tourIndex s)
  /\ (n = 0 -> Dom.infoPanelHidden (dom (deleteAnnotation index s)) = true).
Proof.
  unfold deleteAnnotation. simpl.
  match goal with |- context [updateAnnotationList ?s'] =>
    destruct (rebuild_frame s') as (ch & k & ms & F) end.
  rewrite F. simpl.
  destruct (Z.eqb_spec (Z.of_nat (List.length
              (renumberFrom 0 (JsArray.splice1 index (annotations s))))) 0);
    destruct (tourIndex s >=? _); simpl; repeat split; intros; congruence.
Qed.

(** C3, as the code has it.  In every reachable state, focusing an index
    outside [0, N-1] returns the state as it was, and deleting at an index
    of N or more leaves the annotation list, its ordinals and the tour
    cursor as they were. *)
Theorem index_out_of_range (e : Env) (page : Dom.t) (events : list Event)
    (index : Z) :
  let s := run events (initial e page) in
  (index < 0 \/ count s <= index -> focusAnnotation index s = s)
  /\ (count s <= index ->
      annotations (deleteAnnotation index s) = annotations s
      /\ ordinals (deleteAnnotation index s) = ordinals s
      /\ tourIndex (deleteAnnotation index s) = tourIndex s).
Proof.
  intros s. split.
  - intros H. unfold focusAnnotation.
    now rewrite (get_out_of_range (annotations s) index H).
  - intros H. destruct (Inv_reachable e page events) as (O & C & _).
    fold s in O, C. unfold count in H.
    destruct (deleteAnnotation_fields index s) as (A & T & _).
    rewrite (splice1_past_end _ _ H) in A, T.
    assert (R : renumberFrom 0 (annotations s) = annotations s).
    { apply renumberFrom_fixed. unfold ordinalsOk, ordinals in O. rewrite O.
      apply map_ext. intros; lia. }
    rewrite R in A, T. unfold ordinals. rewrite A.
    split; [reflexivity|]. split; [reflexivity|].
    rewrite T. unfold cursorOk, count in C. rewrite Z.geb_leb.
    destruct (Z.eqb_spec (Z.of_nat (List.length (annotations s))) 0);
      destruct (Z.leb_spec (Z.of_nat (List.length (annotations s))) (tourIndex s));
      lia.
Qed.

(** C3 fails as stated: deleting at index -1, which is outside [0, N-1],
    removes the last annotation. *)
Lemma delete_at_minus_one :
  let s := run placeOne start in
  ~ (0 <= -1 <= count s - 1)
  /\ annotations (deleteAnnotation (-1) s) <> annotations s.
Proof. vm_compute. split; [intuition congruence | discriminate]. Qed.

(** C4.  In every reachable state, after [deleteAnnotation] at any index
    the tour cursor lies in [-1, N-1] for the new length N; when N is 0 the
    cursor is -1 and the detail panel is hidden. *)
Theorem delete_clamps_cursor (e : Env) (page : Dom.t) (events : list Event)
    (index : Z) :
  let s' := deleteAnnotation index (run events (initial e page)) in
  -1 <= tourIndex s' <= count s' - 1
  /\ (count s' = 0 ->
      tourIndex s' = -1 /\ Dom.infoPanelHidden (dom s') = true).
Proof.
  intros s'. split.
  - apply (Inv_deleteAnnotation index), Inv_reachable.
  - unfold count, s'. intros H.
    destruct (deleteAnnotation_fields index (run events (initial e page)))
      as (A & T & P).
    rewrite A in H. split; [|now apply P].
    rewrite T. apply Z.eqb_eq in H. now rewrite H.
Qed.

(** ** Clicks *)

Lemma setAnnotationPosition_fields (point : Vector3.t) (s : State) :
  pendingAnnotationPosition (setAnnotationPosition point s) = Some point
  /\ Dom.saveDisabled (dom (setAnnotationPosition point s)) = false
  /\ measurePoints (setAnnotationPosition point s) = measurePoints s
  /\ Dom.measurementResult (dom (setAnnotationPosition point s))
     = Dom.measurementResult (dom s).
Proof.
  unfold setAnnotationPosition. simpl.
  destruct (previewMarker s); simpl; destruct (placedMarker s); simpl;
    repeat split; reflexivity.
Qed.

Lemma addMeasurePoint_fields (point : Vector3.t) (s : State) :
  measurePoints (addMeasurePoint point s) = measurePoints s ++ [point]
  /\ pendingAnnotationPosition (addMeasurePoint point s)
     = pendingAnnotationPosition s
  /\ Dom.measurementResult (dom (addMeasurePoint point s))
     = match measurePoints s ++ [point] with
       | [p0; p1] => Some (Vector3.distanceTo p0 p1)
       | _ => Dom.measurementResult (dom s)
       end.
Proof.
  unfold addMeasurePoint. simpl.
  destruct (measurePoints s ++ [point]) as [|p0 [|p1 [|p2 l]]] eqn:E; simpl;
    rewrite ?E; repeat split; reflexivity.
Qed.

Lemma markerTarget_modes (ev : Pointer) (s : State) (index : Z) :
  markerTarget ev s = Some index ->
  isMeasuring s = false /\ isAddingAnnotation s = false.
Proof.
  unfold markerTarget.
  destruct (isMeasuring s), (isAddingAnnotation s); simpl; try discriminate.
  auto.
Qed.


Lemma markerTarget_none (ev : Pointer) (s : State) :
  isMeasuring s = true \/ isAddingAnnotation s = true \/ markerHit ev = None ->
  markerTarget ev s = None.
Proof.
  unfold markerTarget. intros [H|[H|H]]; rewrite H; simpl.
  - reflexivity.
  - now rewrite andb_false_r.
  - now destruct (_ && _).
Qed.

(** The distance that three.js computes is the square root of the sum of
    the squared coordinate differences, each operation rounded to
    binary64. *)
Lemma distanceTo_euclidean (p q : Vector3.t) :
  Vector3.distanceTo p q
  = (let dx := Vector3.x p - Vector3.x q in
     let dy := Vector3.y p - Vector3.y q in
     let dz := Vector3.z p - Vector3.z q in
     sqrt (dx * dx + dy * dy + dz * dz))%float.
Proof. reflexivity. Qed.

(** C5.  In every reachable state at most two measurement points are
    held.  In Measuring mode with one point held, a click that hits the
    model records the second point and publishes the Euclidean distance
    between the two: the square root of the sum of the squares of the
    three coordinate differences, each operation rounded to binary64.
    With two points held a click changes neither the points nor the
    published distance, until [toggleMeasureMode] clears them.  A
    published distance of 5 is shown as [Distance: 5.000 units]. *)
Theorem measurement_of_two_picks (e : Env) (page : Dom.t)
    (events : list Event) (ev : Pointer) (p0 p1 : Vector3.t) :
  let s := run events (initial e page) in
  let dx := (Vector3.x p0 - Vector3.x p1)%float in
  let dy := (Vector3.y p0 - Vector3.y p1)%float in
  let dz := (Vector3.z p0 - Vector3.z p1)%float in
  (List.length (measurePoints s) <= 2)%nat
  /\ (model s <> None -> isMeasuring s = true ->
      measurePoints s = [p0] -> modelHit ev = Some p1 ->
      measurePoints (onCanvasClick ev s) = [p0; p1]
      /\ Dom.measurementResult (dom (onCanvasClick ev s))
         = Some (sqrt (dx * dx + dy * dy + dz * dz))%float)
  /\ (List.length (measurePoints s) = 2%nat ->
      measurePoints (onCanvasClick ev s) = measurePoints s
      /\ Dom.measurementResult (dom (onCanvasClick ev s))
         = Dom.measurementResult (dom s))
  /\ measurePoints (toggleMeasureMode s) = []
  /\ measurementText (Some 5%float)
     = Some (JsString.of_string "Distance: 5.000 units").
Proof.
  intros s dx dy dz. split; [apply (Inv_reachable e page events)|].
  split; [|split; [|split; [|reflexivity]]].
  - intros Hm M P H. unfold onCanvasClick.
    destruct (model s); [|congruence].
    rewrite (markerTarget_none ev s (or_introl M)), H, M, P. simpl.
    destruct (addMeasurePoint_fields p1 s) as (A & _ & R).
    rewrite A, R, P. split; [reflexivity|].
    simpl. now rewrite distanceTo_euclidean.
  - intros L. unfold onCanvasClick.
    destruct (model s); [|split; reflexivity].
    destruct (markerTarget ev s) as [index|].
    + destruct (store_fields _ _ (focusAnnotation_store index s))
        as (_ & -> & _).
      destruct (focusAnnotation_flags index s) as (_ & _ & _ & _ & ->).
      split; reflexivity.
    + destruct (modelHit ev) as [point|]; [|split; reflexivity].
      rewrite L. simpl. rewrite andb_false_r.
      destruct (isAddingAnnotation s); [|split; reflexivity].
      destruct (setAnnotationPosition_fields point s) as (_ & _ & -> & ->).
      split; reflexivity.
  - unfold toggleMeasureMode, clearMeasurement.
    match goal with |- context [sceneRemoveAll ?l ?s'] =>
      destruct (sceneRemoveAll_children l s') as [ch E] end.
    rewrite E. simpl.
    destruct (measureLine s); simpl; destruct (negb (isMeasuring s));
      reflexivity.
Qed.

(** ** Leaving PlacingAnnotation mode *)

Lemma toggleAddAnnotationMode_exit (s : State) :
  isAddingAnnotation s = true ->
  isAddingAnnotation (toggleAddAnnotationMode s) = false
  /\ previewMarker (toggleAddAnnotationMode s) = None
  /\ placedMarker (toggleAddAnnotationMode s) = None
  /\ pendingAnnotationPosition (toggleAddAnnotationMode s)
     = pendingAnnotationPosition s.
Proof.
  intros H. unfold toggleAddAnnotationMode. simpl. rewrite H. simpl.
  destruct (previewMarker s) eqn:E1; simpl;
    destruct (placedMarker s) eqn:E2; simpl; rewrite ?E1, ?E2;
    repeat split; reflexivity.
Qed.

Lemma toggleAddAnnotationMode_enter (s : State) :
  isAddingAnnotation s = false ->
  isAddingAnnotation (toggleAddAnnotationMode s) = true
  /\ pendingAnnotationPosition (toggleAddAnnotationMode s) = None.
Proof.
  intros H. unfold toggleAddAnnotationMode. simpl. rewrite H. simpl.
  destruct (previewMarker s); simpl; split; reflexivity.
Qed.

Lemma absent_markers (s : State) :
  sceneOk s -> previewMarker s = None -> placedMarker s = None ->
  absent PreviewMarker s /\ absent PlacedMarker s.
Proof.
  intros S P Q. unfold sceneOk in S. split; intros c Hc.
  - eapply SceneOk_absent_preview; eassumption.
  - eapply SceneOk_absent_placed; eassumption.
Qed.

Lemma toggleAddAnnotationMode_env (s : State) :
  World.env (world (toggleAddAnnotationMode s)) = World.env (world s).
Proof.
  unfold toggleAddAnnotationMode. simpl.
  destruct (negb (isAddingAnnotation s)); simpl;
    destruct (previewMarker s); simpl; try destruct (placedMarker s);
    reflexivity.
Qed.

(** A save in PlacingAnnotation mode leaves the mode exactly when it goes
    through and its list redraw returns. *)
Lemma saveAnnotation_exit (s : State) :
  isAddingAnnotation s = true ->
  (isAddingAnnotation (saveAnnotation s) = false
   <-> JsString.trim (Dom.annotationTitle (dom s)) <> []
       /\ pendingAnnotationPosition s <> None
       /\ drawn (saveAnnotation s))
  /\ pendingAnnotationPosition (saveAnnotation s)
     = pendingAnnotationPosition s.
Proof.
  intros A. unfold drawn, saveAnnotation.
  destruct (JsString.trim (Dom.annotationTitle (dom s))) eqn:E; simpl.
  { split; [|reflexivity]. rewrite A. split; [discriminate|].
    intros (H & _). congruence. }
  destruct (pendingAnnotationPosition s) as [p|] eqn:P.
  2:{ split; [|now rewrite P]. rewrite A. split; [discriminate|].
      intros (_ & H & _). congruence. }
  match goal with |- context [updateAnnotationList ?s'] =>
    set (s1 := s');
    assert (A1 : isAddingAnnotation s1 = true
                 /\ pendingAnnotationPosition s1 = Some p)
      by (subst s1; simpl; destruct (placedMarker s); simpl; auto)
  end.
  destruct A1 as [A1 P1].
  destruct (updateAnnotationList s1) eqn:U.
  - destruct (update3D_frame s1) as (ch & k & ms & F).
    assert (A2 : isAddingAnnotation (update3DAnnotationMarkers s1) = true)
      by (rewrite F; exact A1).
    destruct (toggleAddAnnotationMode_exit _ A2) as (X1 & _ & _ & X4).
    rewrite X1, X4. split; [|rewrite F; exact P1].
    split; [|reflexivity]. intros _.
    split; [discriminate|]. split; [discriminate|].
    rewrite (drawn_ext s1).
    + now rewrite U.
    + rewrite toggleAddAnnotationMode_env, F. reflexivity.
    + rewrite toggleAddAnnotationMode_annotations, F. reflexivity.
  - rewrite A1, P1, U. split; [|reflexivity].
    split; [discriminate|]. intros (_ & _ & H). discriminate H.
Qed.

Lemma endTour_fields (s : State) :
  isAddingAnnotation (endTour s) = isAddingAnnotation s
  /\ previewMarker (endTour s) = previewMarker s
  /\ placedMarker (endTour s) = placedMarker s
  /\ pendingAnnotationPosition (endTour s) = pendingAnnotationPosition s.
Proof. repeat split; reflexivity. Qed.

(** The pending position is kept by every event that ends
    PlacingAnnotation mode. *)
Lemma handle_pending (e : Event) (s : State) :
  isAddingAnnotation s = true ->
  isAddingAnnotation (handle e s) = false ->
  pendingAnnotationPosition (handle e s) = pendingAnnotationPosition s.
Proof.
  intros A.
  assert (F : forall index st,
             pendingAnnotationPosition (focusAnnotation index st)
             = pendingAnnotationPosition st)
    by (intros; apply focusAnnotation_flags).
  assert (X : pendingAnnotationPosition (toggleAddAnnotationMode s)
              = pendingAnnotationPosition s)
    by (now apply toggleAddAnnotationMode_exit).
  destruct e; simpl; trivial; intros H.
  - unfold onCanvasClick in *. destruct (model s); trivial.
    destruct (markerTarget ev s); [apply F|].
    destruct (modelHit ev) as [point|]; trivial.
    destruct (isMeasuring s && _); [apply addMeasurePoint_fields|].
    rewrite A in *. exfalso. revert H.
    unfold setAnnotationPosition. simpl.
    destruct (previewMarker s); simpl; destruct (placedMarker s); simpl;
      congruence.
  - unfold onCanvasMouseMove. destruct (model s); trivial.
    destruct (negb _); trivial. destruct (previewMarker s); trivial.
    now destruct (modelHit ev).
  - unfold resetView. destruct (model s); trivial.
    match goal with |- context [animateCamera ?np ?nt ?d ?s'] =>
      destruct (animateCamera_camera np nt d s') as (k & f & p & q & E) end.
    now rewrite E.
  - now apply saveAnnotation_exit.
  - destruct (isTourActive s); trivial. unfold startTour.
    destruct (_ =? 0); trivial. now rewrite F.
  - unfold prevTourStop. destruct (_ >? _); trivial.
  - unfold nextTourStop. destruct (_ <? _); trivial.
  - unfold deleteAnnotation.
    match goal with |- context [updateAnnotationList ?s'] =>
      destruct (rebuild_frame s') as (ch & k & ms & E) end.
    rewrite E. simpl. destruct (_ =? 0); simpl; now destruct (_ >=? _).
  - destruct key; simpl; trivial.
    + rewrite A. unfold cancelAnnotation.
      destruct (isTourActive (toggleAddAnnotationMode s)); exact X.
    + destruct (isTourActive s); trivial. unfold nextTourStop.
      destruct (_ <? _); trivial.
    + destruct (isTourActive s); trivial. unfold prevTourStop.
      destruct (_ >? _); trivial.
  - destruct (animationFrame_camera s) as (k & f & p & q & E). now rewrite E.
  - unfold toggleMeasureMode, clearMeasurement.
    match goal with |- context [sceneRemoveAll ?l ?s'] =>
      destruct (sceneRemoveAll_children l s') as [ch E] end.
    rewrite E. simpl.
    destruct (measureLine s); simpl; destruct (negb (isMeasuring s));
      reflexivity.
Qed.

(** ** Numbers *)

Section FloatFacts.

Local Open Scope float_scope.

Lemma div_zero_positive (x : float) :
  (0 <? x) = true -> x / 0 = infinity.
Proof.
  intros H. rewrite ltb_spec in H.
  rewrite <- (SF2Prim_Prim2SF (x / 0)), div_spec.
  change (Prim2SF 0) with (S754_zero false) in *.
  destruct (Prim2SF x) as [s|s| |s m e]; simpl in *; try discriminate;
    destruct s; try discriminate; reflexivity.
Qed.

Lemma ltb_leb (x y : float) : (x <? y) = true -> (x <=? y) = true.
Proof.
  rewrite ltb_spec, leb_spec. unfold SFltb, SFleb.
  destruct (SFcompare (Prim2SF x) (Prim2SF y)) as [[]|]; trivial.
Qed.

Lemma SFcompare_refl (x : spec_float) :
  x <> S754_nan -> SFcompare x x = Some Eq.
Proof.
  destruct x as [s|s| |s m e]; simpl; intros H; try congruence.
  - now destruct s.
  - destruct s; rewrite Z.compare_refl;
      change (Pos.compare_cont Eq m m) with (Pos.compare m m);
      now rewrite Pos.compare_refl.
Qed.

Lemma leb_not_nan (x y : float) : (x <=? y) = true -> is_nan y = false.
Proof.
  rewrite leb_spec. unfold is_nan. rewrite eqb_spec. unfold SFleb, SFeqb.
  intros H. rewrite SFcompare_refl; [reflexivity|].
  intros E. rewrite E in H. now destruct (Prim2SF x).
Qed.

Lemma zero_leb_one (x : float) : is_zero x = true -> (x <=? 1) = true.
Proof.
  unfold is_zero. rewrite eqb_spec, leb_spec. unfold SFeqb, SFleb.
  change (Prim2SF zero) with (S754_zero false).
  change (Prim2SF 1) with (S754_finite false 4503599627370496 (-52)).
  destruct (Prim2SF x) as [s|s| |s m e]; cbn [SFcompare]; trivial;
    destruct s; trivial; discriminate.
Qed.

(** [Math.min(q, 1)] is [q] or 1, and it is [q] only if [q] is at most 1. *)
Lemma Math_min_one (q : float) :
  is_nan q = false ->
  (Num.Math_min q 1 = q /\ (q <=? 1) = true) \/ Num.Math_min q 1 = 1.
Proof.
  intros N. unfold Num.Math_min. rewrite N.
  change (is_nan 1) with false. simpl.
  destruct (q <? 1) eqn:L; [left; split; [reflexivity | now apply ltb_leb]|].
  destruct (1 <? q); [now right|].
  destruct (is_zero q) eqn:Z; simpl; [|now right].
  destruct (get_sign q); [left | now right].
  split; [reflexivity | now apply zero_leb_one].
Qed.

Lemma progress_in_range (q : float) :
  (0 <=? q) = true ->
  (0 <=? Num.Math_min q 1) = true /\ (Num.Math_min q 1 <=? 1) = true.
Proof.
  intros H. destruct (Math_min_one q (leb_not_nan 0 q H)) as [[-> L]| ->].
  - now split.
  - split; reflexivity.
Qed.

End FloatFacts.

(** ** Camera animation *)

Lemma update_unfold (a : Animation) (s : State) :
  let host := World.env (world s) in
  let now := performance_now host (World.clockReads (world s)) in
  let progress :=
    Num.Math_min ((now - startTime a) / duration a)%float 1%float in
  let eased := (1 - Math_pow host (1 - progress) 3)%float in
  update a s
  = (if (progress <? 1)%float then requestAnimationFrame a else fun st => st)
      (controlsUpdate (commit a eased (snd (performanceNow s)))).
Proof.
  unfold update, performanceNow, easeOutCubic. simpl.
  match goal with |- context [if ?c then _ else _] => destruct c end;
    reflexivity.
Qed.

(** C7, as the code has it.  A run of [update] reads the clock, takes
    progress = min(elapsed / duration, 1) and eased = 1 - (1 - progress)^3,
    sets the camera position and the orbit target to the interpolation, by
    eased, between the values [animateCamera] sampled when it was called and
    the destinations, lets the controls update, and asks for another frame
    while progress is below 1.  Progress lies in [0, 1] whenever
    elapsed / duration is at least 0.  For duration 0 and a positive
    elapsed time, on an engine whose [Math.pow(0, 3)] is 0, progress and
    eased are 1, no further frame is requested and the position committed
    is [lerpVectors(start, destination, 1)]. *)
Theorem camera_animation (s : State) (a : Animation) (np nt : Vector3.t)
    (d : float) :
  let host := World.env (world s) in
  let now := performance_now host (World.clockReads (world s)) in
  let elapsed := (now - startTime a)%float in
  let progress := Num.Math_min (elapsed / duration a)%float 1%float in
  let eased := (1 - Math_pow host (1 - progress) 3)%float in
  update a s
  = (if (progress <? 1)%float then requestAnimationFrame a else fun st => st)
      (controlsUpdate (commit a eased (snd (performanceNow s))))
  /\ World.cameraPosition (world (commit a eased s))
     = Vector3.lerpVectors (startPosition a) (newPosition a) eased
  /\ World.controlsTarget (world (commit a eased s))
     = Vector3.lerpVectors (startTarget a) (newTarget a) eased
  /\ animateCamera np nt d s
     = update (mkAnimation (World.cameraPosition (world s))
                 (World.controlsTarget (world s)) np nt d now)
         (snd (performanceNow s))
  /\ ((0 <=? elapsed / duration a)%float = true ->
      (0 <=? progress)%float = true /\ (progress <=? 1)%float = true)
  /\ (duration a = 0%float -> (0 <? elapsed)%float = true ->
      Math_pow host 0 3 = 0%float ->
      progress = 1%float /\ eased = 1%float
      /\ World.frames (world (update a s)) = World.frames (world s)
      /\ World.cameraPosition (world (commit a eased s))
         = Vector3.lerpVectors (startPosition a) (newPosition a) 1).
Proof.
  intros host now elapsed progress eased.
  split; [apply update_unfold|]. split; [reflexivity|]. split; [reflexivity|].
  split; [reflexivity|]. split; [apply progress_in_range|].
  intros D E P.
  assert (Hp : progress = 1%float).
  { unfold progress. rewrite D, (div_zero_positive elapsed E). reflexivity. }
  assert (He : eased = 1%float).
  { unfold eased. rewrite Hp. change (1 - 1)%float with 0%float.
    rewrite P. reflexivity. }
  split; [exact Hp|]. split; [exact He|]. split.
  - rewrite update_unfold. fold host now elapsed progress. rewrite Hp.
    change (1 <? 1)%float with false. reflexivity.
  - rewrite He. reflexivity.
Qed.

(** C7 fails as stated: with duration 0 and a clock that reads the same
    value twice, elapsed / duration is 0 / 0; progress and eased are NaN,
    no further frame is requested, and the camera is left at NaN, not at
    the destination. *)
Lemma zero_duration_not_a_number :
  let destination := Vector3.mk 1 2 3 in
  let s := animateCamera destination (Vector3.mk 0 0 0) 0 start in
  let progress := Num.Math_min ((0 - 0) / 0)%float 1%float in
  World.frames (world s) = []
  /\ easeOutCubic frozenHost progress <> 1%float
  /\ World.cameraPosition (world s) <> destination.
Proof.
  split; [reflexivity|]. split; intros H.
  - apply (f_equal is_nan) in H. vm_compute in H. discriminate.
  - apply (f_equal (fun v => is_nan (Vector3.x v))) in H.
    vm_compute in H. discriminate.
Qed.

(** Even with eased = 1 the interpolation is rounded: from the initial
    camera depth 5 to a destination depth 0.1 it commits
    5 + (0.1 - 5) * 1, which is not 0.1 in binary64. *)
Example lerp_is_rounded :
  let destination := Vector3.mk 0 2 0.1 in
  let s := animateCamera destination (Vector3.mk 0 0 0) 0
             (initial tickingHost blankPage) in
  World.frames (world s) = []
  /\ (Vector3.z (World.cameraPosition (world s)) =? Vector3.z destination)%float
     = false.
Proof. vm_compute. split; reflexivity. Qed.


(** ** The theorems at sample sessions *)

Ltac evaluate := vm_compute; first [reflexivity | discriminate | lia].

Lemma index_out_of_range_at_one :
  let s := run placeOne start in
  focusAnnotation (-1) s = s
  /\ focusAnnotation 1 s = s
  /\ annotations (deleteAnnotation 1 s) = annotations s
  /\ ordinals (deleteAnnotation 1 s) = ordinals s
  /\ tourIndex (deleteAnnotation 1 s) = tourIndex s.
Proof.
  split; [|split].
  - apply (index_out_of_range frozenHost blankPage placeOne (-1)).
    left. evaluate.
  - apply (index_out_of_range frozenHost blankPage placeOne 1).
    right. evaluate.
  - apply (index_out_of_range frozenHost blankPage placeOne 1).
    evaluate.
Defined.

Lemma delete_clamps_cursor_at_last :
  let s := run (placeTwo ++ [ClickCard 1]) start in
  let s' := deleteAnnotation 1 s in
  let t := run (placeOne ++ [ClickCard 0]) start in
  let t' := deleteAnnotation 0 t in
  (tourIndex s = 1 /\ count s' = 1 /\ tourIndex s' = 0
   /\ -1 <= tourIndex s' <= count s' - 1)
  /\ (tourIndex t = 0 /\ Dom.infoPanelHidden (dom t) = false
      /\ count t' = 0
      /\ tourIndex t' = -1 /\ Dom.infoPanelHidden (dom t') = true).
Proof.
  intros s s' t t'.
  destruct (delete_clamps_cursor frozenHost blankPage
              (placeTwo ++ [ClickCard 1]) 1) as [B _].
  destruct (delete_clamps_cursor frozenHost blankPage
              (placeOne ++ [ClickCard 0]) 0) as [_ E].
  split.
  - split; [evaluate|]. split; [evaluate|]. split; [evaluate|exact B].
  - split; [evaluate|]. split; [evaluate|]. split; [evaluate|].
    apply E. evaluate.
Defined.

Lemma measurement_3_4_5 :
  let ev := pick (Vector3.mk 3 4 0) in
  let ev' := pick (Vector3.mk 2 3 6) in
  let s := run measureOne start in
  let s2 := run (measureOne ++ [CanvasClick ev]) start in
  (measurePoints (onCanvasClick ev s) = [origin; Vector3.mk 3 4 0]
   /\ Dom.measurementResult (dom (onCanvasClick ev s)) = Some 5%float)
  /\ (measurePoints (onCanvasClick ev' s) = [origin; Vector3.mk 2 3 6]
      /\ Dom.measurementResult (dom (onCanvasClick ev' s)) = Some 7%float)
  /\ (measurePoints (onCanvasClick ev s2) = measurePoints s2
      /\ Dom.measurementResult (dom (onCanvasClick ev s2))
         = Dom.measurementResult (dom s2))
  /\ measurementText (Dom.measurementResult (dom s2))
     = Some (JsString.of_string "Distance: 5.000 units").
Proof.
  split; [|split; [|split]].
  - apply (measurement_of_two_picks frozenHost blankPage measureOne
             (pick (Vector3.mk 3 4 0)) origin (Vector3.mk 3 4 0));
      evaluate.
  - apply (measurement_of_two_picks frozenHost blankPage measureOne
             (pick (Vector3.mk 2 3 6)) origin (Vector3.mk 2 3 6));
      evaluate.
  - apply (measurement_of_two_picks frozenHost blankPage
             (measureOne ++ [CanvasClick (pick (Vector3.mk 3 4 0))])
             (pick (Vector3.mk 3 4 0)) origin origin).
    evaluate.
  - evaluate.
Defined.

Lemma save_at_samples :
  let s := run (stageOne ++ [InputTitle (JsString.of_string "A")]) start in
  saveAnnotation start = start
  /\ exists a,
       annotations (saveAnnotation s) = annotations s ++ [a]
       /\ Annotation.id a = Z.of_nat (List.length (annotations s)) + 1
       /\ Annotation.position a = origin.
Proof.
  split.
  - apply (save_needs_title_and_position start). left. evaluate.
  - apply (proj2 (save_needs_title_and_position
                    (run (stageOne ++ [InputTitle (JsString.of_string "A")])
                       start)) origin); evaluate.
Defined.

Lemma save_trims_at_samples :
  let blank := run (stageOne ++ [InputTitle (JsString.of_string "   ")]) start in
  let padded := run (stageOne ++ [InputTitle [9; 160; 65; 32; 66; 32; 8233]%N;
                                  InputDescription [32; 10]%N])
                  start in
  saveAnnotation blank = blank
  /\ (exists a d,
        annotations (saveAnnotation padded) = annotations padded ++ [a]
        /\ trimmedOf (Dom.annotationTitle (dom padded)) (Annotation.title a)
        /\ Annotation.title a <> []
        /\ trimmedOf (Dom.annotationDescription (dom padded)) d
        /\ Annotation.description a
           = match d with
             | [] => JsString.of_string "No description provided."
             | _ :: _ => d
             end)
  /\ map Annotation.title (annotations (saveAnnotation padded))
     = [JsString.of_string "A B"]
  /\ map Annotation.description (annotations (saveAnnotation padded))
     = [JsString.of_string "No description provided."].
Proof.
  split; [|split; [|split]].
  - apply (save_trims_its_input
             (run (stageOne ++ [InputTitle (JsString.of_string "   ")]) start)).
    evaluate.
  - apply (proj2 (save_trims_its_input
                    (run (stageOne
                          ++ [InputTitle [9; 160; 65; 32; 66; 32; 8233]%N;
                              InputDescription [32; 10]%N])
                       start)) origin); evaluate.
  - evaluate.
  - evaluate.
Defined.

Lemma zero_duration_after_a_tick :
  let s := snd (performanceNow (initial tickingHost blankPage)) in
  let a := mkAnimation (Vector3.mk 0 2 5) (Vector3.mk 0 0.5 0)
             (Vector3.mk 1 2 3) origin 0 0 in
  let host := World.env (world s) in
  let now := performance_now host (World.clockReads (world s)) in
  let elapsed := (now - startTime a)%float in
  let progress := Num.Math_min (elapsed / duration a)%float 1%float in
  let eased := (1 - Math_pow host (1 - progress) 3)%float in
  progress = 1%float /\ eased = 1%float
  /\ World.frames (world (update a s)) = World.frames (world s)
  /\ World.cameraPosition (world (commit a eased s))
     = Vector3.lerpVectors (startPosition a) (newPosition a) 1.
Proof.
  apply (camera_animation
           (snd (performanceNow (initial tickingHost blankPage)))
           (mkAnimation (Vector3.mk 0 2 5) (Vector3.mk 0 0.5 0)
              (Vector3.mk 1 2 3) origin 0 0)
           origin origin 0); evaluate.
Defined.

(** ** The built-ins on sample values *)

Example toFixed_samples :
  Num.toFixed3 5%float = Some (JsString.of_string "5.000")
  /\ Num.toFixed3 0.0005%float = Some (JsString.of_string "0.001")
  /\ Num.toFixed3 1234.5678%float = Some (JsString.of_string "1234.568")
  /\ Num.toFixed3 (-0.0001)%float = Some (JsString.of_string "-0.000")
  /\ Num.toFixed3 (0 / 0)%float = Some (JsString.of_string "NaN").
Proof. vm_compute. repeat split. Qed.

Example trim_samples :
  JsString.trim (JsString.of_string "  a b  ") = JsString.of_string "a b"
  /\ JsString.trim [9; 160; 65; 8232; 65279]%N = [65]%N.
Proof. vm_compute. split; reflexivity. Qed.

Example splice_samples :
  JsArray.splice1 1 [10; 20; 30] = [10; 30]
  /\ JsArray.splice1 (-1) [10; 20; 30] = [10; 20]
  /\ JsArray.splice1 (-7) [10; 20; 30] = [20; 30]
  /\ JsArray.splice1 3 [10; 20; 30] = [10; 20; 30].
Proof. vm_compute. repeat split. Qed.

Example min_samples :
  Num.Math_min (1 / 0)%float 1%float = 1%float
  /\ is_nan (Num.Math_min (0 / 0)%float 1%float) = true
  /\ Num.Math_min 0.25%float 1%float = 0.25%float.
Proof. vm_compute. repeat split. Qed.

(** ** Scene accounting *)

Lemma Kind_eqb_eq (a b : Kind) : Kind_eqb a b = true <-> a = b.
Proof. destruct a, b; simpl; split; intros H; congruence. Qed.

Lemma Kind_eqb_refl (a : Kind) : Kind_eqb a a = true.
Proof. now destruct a. Qed.

Lemma Kind_eqb_sym (a b : Kind) : Kind_eqb a b = Kind_eqb b a.
Proof. now destruct a, b. Qed.

Lemma ofKind_In (k : Kind) (l : list Child) (c : Child) :
  In c (ofKind k l) -> In c l /\ childKind c = k.
Proof.
  unfold ofKind. intros H. apply filter_In in H. destruct H as [H K].
  split; [assumption | now apply Kind_eqb_eq].
Qed.

Lemma same_id_same_child (l : list Child) (c d : Child) :
  NoDup (map childId (d :: l)) -> In c (d :: l) -> childId d = childId c ->
  d = c.
Proof.
  intros N [H|H] E; [assumption|]. exfalso.
  inversion N as [|? ? Hd _]; subst. apply Hd. rewrite E. now apply in_map.
Qed.

Lemma removeChild_ofKind_other (k : Kind) (l : list Child) (c : Child) :
  NoDup (map childId l) -> In c l -> kindIs k c = false ->
  ofKind k (removeChild (childId c) l) = ofKind k l.
Proof.
  induction l as [|d l IH]; intros N H K; [reflexivity|]. simpl.
  destruct (Nat.eqb_spec (childId d) (childId c)) as [E|E].
  - rewrite (same_id_same_child l c d N H E). now rewrite K.
  - simpl. destruct H as [->|H]; [congruence|].
    inversion N; subst. now rewrite IH.
Qed.

Lemma removeChild_ofKind_head (k : Kind) (l rest : list Child) (c : Child) :
  NoDup (map childId l) -> ofKind k l = c :: rest ->
  ofKind k (removeChild (childId c) l) = rest.
Proof.
  unfold ofKind.
  induction l as [|d l IH]; intros N H; [discriminate|]. simpl in *.
  inversion N as [|? ? Hd Hl]; subst.
  destruct (kindIs k d) eqn:K.
  - injection H as -> <-. now rewrite Nat.eqb_refl.
  - assert (Hc : In c l).
    { apply (ofKind_In k). unfold ofKind. rewrite H. now left. }
    destruct (Nat.eqb_spec (childId d) (childId c)) as [E|E].
    + exfalso. apply Hd. rewrite E. now apply in_map.
    + simpl. rewrite K. now apply IH.
Qed.

Lemma Acc_ext (children : list Child) (next : nat)
    (h h' : Kind -> list Child) :
  Acc children next h ->
  (forall k, k <> ModelRoot -> h k = h' k) ->
  Acc children next h'.
Proof.
  intros (D & B & F) E. split; [assumption|]. split; [assumption|].
  intros k Hk. rewrite <- E by assumption. now apply F.
Qed.

(** Adding a new object of kind [k]. *)
Lemma Acc_add (children : list Child) (next : nat)
    (h : Kind -> list Child) (k : Kind) :
  Acc children next h ->
  Acc (children ++ [mkChild next k]) (S next)
    (upd h k (h k ++ [mkChild next k])).
Proof.
  intros (D & B & F). split; [|split].
  - rewrite map_app. simpl.
    apply NoDup_app; [assumption | repeat constructor; simpl; tauto |].
    intros i Hi [<-|[]]. apply in_map_iff in Hi. destruct Hi as [c [E Hc]].
    specialize (B c Hc). lia.
  - intros c Hc. apply in_app_or in Hc.
    destruct Hc as [Hc|[<-|[]]]; [specialize (B c Hc)|simpl]; lia.
  - intros k' Hk. unfold ofKind, upd. rewrite filter_app. simpl.
    unfold kindIs at 2. simpl. rewrite (Kind_eqb_sym k k').
    destruct (Kind_eqb k' k) eqn:E.
    + apply Kind_eqb_eq in E. subst k'. f_equal. now apply F.
    + rewrite app_nil_r. now apply F.
Qed.

(** Removing the first object that [h] lists for kind [k]. *)
Lemma Acc_remove_head (children : list Child) (next : nat)
    (h : Kind -> list Child) (k : Kind) (c : Child) (rest : list Child) :
  Acc children next h -> k <> ModelRoot -> h k = c :: rest ->
  Acc (removeChild (childId c) children) next (upd h k rest).
Proof.
  intros (D & B & F) Hk E. split; [now apply removeChild_NoDup|].
  split; [intros d Hd; apply B; eapply removeChild_incl; eassumption|].
  intros k' Hk'. unfold upd.
  assert (Hc : In c children /\ childKind c = k).
  { apply ofKind_In. rewrite F, E by assumption. now left. }
  destruct Hc as [Hc Kc].
  destruct (Kind_eqb k' k) eqn:K.
  - apply Kind_eqb_eq in K. subst k'. apply removeChild_ofKind_head; trivial.
    now rewrite F.
  - rewrite removeChild_ofKind_other; trivial; [now apply F|].
    unfold kindIs. rewrite Kc, Kind_eqb_sym. exact K.
Qed.

(** Removing, in order, all the objects that [h] lists for kind [k]. *)
Lemma Acc_removeAll (l : list Object3D) (children : list Child) (next : nat)
    (h : Kind -> list Child) (k : Kind) :
  Acc children next h -> k <> ModelRoot -> h k = map childOf l ->
  Acc (removeAll l children) next (upd h k []).
Proof.
  unfold removeAll. revert children h.
  induction l as [|o l IH]; intros children h A Hk E; simpl.
  - eapply Acc_ext; [exact A|]. intros k' _. unfold upd.
    destruct (Kind_eqb k' k) eqn:K; [|reflexivity].
    apply Kind_eqb_eq in K. now subst k'.
  - eapply Acc_ext.
    + apply (IH (removeChild (objectId o) children) (upd h k (map childOf l))).
      * apply (Acc_remove_head children next h k (childOf o)); assumption.
      * assumption.
      * unfold upd. now rewrite Kind_eqb_refl.
    + intros k' _. unfold upd. now destruct (Kind_eqb k' k).
Qed.

Lemma sceneRemoveAll_removeAll (l : list Object3D) (s : State) :
  sceneRemoveAll l s = set_children (removeAll l (World.children (world s))) s.
Proof.
  unfold sceneRemoveAll, removeAll. revert s.
  induction l as [|o l IH]; intros s; simpl.
  - destruct s as [[] ? ? ? ? ? ? ? ? ? ? ? ? ? ?]. reflexivity.
  - rewrite IH. reflexivity.
Qed.

(** ** Handlers that touch the camera, the tour and the panel only *)

Lemma tourStep_refl (s : State) : tourStep s s.
Proof.
  exists (World.clockReads (world s)), (World.frames (world s)),
    (World.cameraPosition (world s)), (World.controlsTarget (world s)),
    (isTourActive s), (tourIndex s), (Dom.infoPanelHidden (dom s)),
    (Dom.infoTitle (dom s)), (Dom.infoDescription (dom s)).
  destruct s as [[] [] ? ? ? ? ? ? ? ? ? ? ? ? ?]. reflexivity.
Qed.

Lemma tourStep_trans (s s' s'' : State) :
  tourStep s s' -> tourStep s' s'' -> tourStep s s''.
Proof.
  intros (k & f & p & q & a & i & h & t & d & ->)
         (k' & f' & p' & q' & a' & i' & h' & t' & d' & ->).
  exists k', f', p', q', a', i', h', t', d'. reflexivity.
Qed.

Lemma tourStep_camera (s : State) k f p q : tourStep s (withCamera k f p q s).
Proof.
  exists k, f, p, q, (isTourActive s), (tourIndex s),
    (Dom.infoPanelHidden (dom s)), (Dom.infoTitle (dom s)),
    (Dom.infoDescription (dom s)).
  destruct s as [[] [] ? ? ? ? ? ? ? ? ? ? ? ? ?]. reflexivity.
Qed.

Lemma tourStep_tour (s : State) a i h t d : tourStep s (withTour a i h t d s).
Proof.
  exists (World.clockReads (world s)), (World.frames (world s)),
    (World.cameraPosition (world s)), (World.controlsTarget (world s)),
    a, i, h, t, d.
  destruct s as [[] [] ? ? ? ? ? ? ? ? ? ? ? ? ?]. reflexivity.
Qed.

Lemma focusAnnotation_tourStep (index : Z) (s : State) :
  tourStep s (focusAnnotation index s).
Proof.
  unfold focusAnnotation.
  destruct (JsArray.get (annotations s) index) as [a|]; [|apply tourStep_refl].
  match goal with |- context [animateCamera ?np ?nt ?d ?s'] =>
    destruct (animateCamera_camera np nt d s') as (k & f & p & q & E) end.
  rewrite E. eapply tourStep_trans; [|apply tourStep_camera].
  apply (tourStep_tour s (isTourActive s) index false (Annotation.title a)
           (Annotation.description a)).
Qed.

Lemma endTour_tourStep (s : State) : tourStep s (endTour s).
Proof.
  apply (tourStep_tour s false (-1) true (Dom.infoTitle (dom s))
           (Dom.infoDescription (dom s))).
Qed.

Lemma startTour_tourStep (s : State) : tourStep s (startTour s).
Proof.
  unfold startTour. destruct (_ =? 0); [apply tourStep_refl|].
  eapply tourStep_trans; [|apply focusAnnotation_tourStep].
  exists (World.clockReads (world s)), (World.frames (world s)),
    (World.cameraPosition (world s)), (World.controlsTarget (world s)),
    true, 0, (Dom.infoPanelHidden (dom s)), (Dom.infoTitle (dom s)),
    (Dom.infoDescription (dom s)).
  destruct s as [[] [] ? ? ? ? ? ? ? ? ? ? ? ? ?]. reflexivity.
Qed.

Lemma nextTourStop_tourStep (s : State) : tourStep s (nextTourStop s).
Proof.
  unfold nextTourStop.
  destruct (_ <? _); [apply focusAnnotation_tourStep | apply tourStep_refl].
Qed.

Lemma prevTourStop_tourStep (s : State) : tourStep s (prevTourStop s).
Proof.
  unfold prevTourStop.
  destruct (_ >? _); [apply focusAnnotation_tourStep | apply tourStep_refl].
Qed.

Lemma resetView_tourStep (s : State) : tourStep s (resetView s).
Proof.
  unfold resetView. destruct (model s); [|apply tourStep_refl].
  match goal with |- context [animateCamera ?np ?nt ?d ?s'] =>
    destruct (animateCamera_camera np nt d s') as (k & f & p & q & E) end.
  rewrite E. apply tourStep_camera.
Qed.

Lemma animationFrame_tourStep (s : State) : tourStep s (animationFrame s).
Proof.
  destruct (animationFrame_camera s) as (k & f & p & q & E).
  rewrite E. apply tourStep_camera.
Qed.

Lemma Inv2_tourStep (s s' : State) : tourStep s s' -> Inv2 s -> Inv2 s'.
Proof.
  intros (k & f & p & q & a & i & h & t & d & ->) (A & P & M & K).
  split; [exact A|]. split; [exact P|]. split; [exact M|].
  intros D. apply K. unfold drawn in *.
  rewrite <- D. symmetry. now apply drawn_ext.
Qed.

(** ** The second invariant *)

Ltac held_ext :=
  let k := fresh "k" in let Hk := fresh "Hk" in
  intros k Hk; destruct k; try congruence; unfold upd, held; simpl;
  rewrite ?map_app; try reflexivity.

Lemma accounted_onModelLoaded (size : Vector3.t) (s : State) :
  accounted s -> accounted (onModelLoaded size s).
Proof.
  intros A. unfold accounted in *. simpl.
  eapply Acc_ext; [eapply (Acc_add _ _ _ ModelRoot); exact A | held_ext].
Qed.

Lemma accounted_addMeasurePoint (point : Vector3.t) (s : State) :
  (List.length (measurePoints s) < 2)%nat -> measurementOk s ->
  accounted s -> accounted (addMeasurePoint point s).
Proof.
  intros L (_ & Line & _) A.
  assert (N : measureLine s = None).
  { destruct (measureLine s); [|reflexivity].
    assert (List.length (measurePoints s) = 2%nat) by (apply Line; discriminate).
    lia. }
  unfold accounted, addMeasurePoint in *. simpl.
  destruct (measurePoints s) as [|p0 [|p1 l]]; simpl in *; try lia.
  - eapply Acc_ext; [eapply (Acc_add _ _ _ MeasureMarker); exact A | held_ext].
  - eapply Acc_ext;
      [eapply (Acc_add _ _ _ MeasureLine);
       eapply (Acc_add _ _ _ MeasureMarker); exact A
      | held_ext].
    now rewrite N.
Qed.

Ltac replace_placed A Eqm :=
  eapply (Acc_add _ _ _ PlacedMarker);
  first
    [ exact A
    | eapply (Acc_remove_head _ _ _ PlacedMarker (childOf _) []);
      [exact A | discriminate | simpl; now rewrite Eqm] ].

Lemma accounted_setAnnotationPosition (point : Vector3.t) (s : State) :
  accounted s -> accounted (setAnnotationPosition point s).
Proof.
  intros A. unfold accounted, setAnnotationPosition in *. simpl.
  destruct (previewMarker s) as [pm|] eqn:Epm; simpl;
    destruct (placedMarker s) as [qm|] eqn:Eqm; simpl;
    (eapply Acc_ext;
     [replace_placed A Eqm | held_ext; now rewrite ?Epm, ?Eqm]).
Qed.

Lemma accounted_onCanvasMouseMove (ev : Pointer) (s : State) :
  accounted s -> accounted (onCanvasMouseMove ev s).
Proof.
  intros A. unfold onCanvasMouseMove.
  destruct (model s); [|assumption].
  destruct (negb (isAddingAnnotation s)); [assumption|].
  destruct (previewMarker s) as [pm|] eqn:Epm; [|assumption].
  unfold accounted in *.
  destruct (modelHit ev); simpl;
    (eapply Acc_ext; [exact A | held_ext; now rewrite Epm]).
Qed.

Ltac drop_marker k A E :=
  eapply (Acc_remove_head _ _ _ k (childOf _) []);
  [exact A | discriminate | simpl; now rewrite E].

Lemma accounted_toggleAddAnnotationMode (s : State) :
  accounted s -> accounted (toggleAddAnnotationMode s).
Proof.
  intros A. unfold accounted, toggleAddAnnotationMode in *. simpl.
  destruct (negb (isAddingAnnotation s)); simpl;
    destruct (previewMarker s) as [pm|] eqn:Epm; simpl;
    destruct (placedMarker s) as [qm|] eqn:Eqm; simpl;
    (eapply Acc_ext;
     [ first
         [ exact A
         | eapply (Acc_add _ _ _ PreviewMarker);
           first [exact A | drop_marker PreviewMarker A Epm]
         | drop_marker PreviewMarker A Epm
         | drop_marker PlacedMarker A Eqm
         | eapply (Acc_remove_head _ _ _ PlacedMarker (childOf _) []);
           [ drop_marker PreviewMarker A Epm | discriminate
           | unfold upd; simpl; now rewrite Eqm ] ]
     | held_ext; now rewrite ?Epm, ?Eqm ]).
Qed.

Lemma accounted_clearMeasurement (s : State) :
  accounted s -> accounted (clearMeasurement s).
Proof.
  intros A. unfold accounted, clearMeasurement in *.
  rewrite sceneRemoveAll_removeAll. simpl.
  assert (R : Acc (removeAll (measureMarkers s) (World.children (world s)))
                (World.nextId (world s)) (upd (held s) MeasureMarker []))
    by (apply Acc_removeAll; [exact A | discriminate | reflexivity]).
  destruct (measureLine s) as [line|] eqn:El; simpl.
  - eapply Acc_ext;
      [eapply (Acc_remove_head _ _ _ MeasureLine (childOf line) []);
       [exact R | discriminate | unfold upd; simpl; now rewrite El]
      | held_ext].
  - eapply Acc_ext; [exact R | held_ext; now rewrite El].
Qed.

Lemma accounted_toggleMeasureMode (s : State) :
  accounted s -> accounted (toggleMeasureMode s).
Proof.
  intros A. unfold toggleMeasureMode.
  match goal with |- context [clearMeasurement ?s'] =>
    assert (A' : accounted (clearMeasurement s'))
      by (apply accounted_clearMeasurement; exact A);
    set (s1 := clearMeasurement s') in * end.
  match goal with |- context [if ?c then _ else _] => destruct c end;
    exact A'.
Qed.

Lemma accounted_addMarkersFrom (l : list Annotation.t) (index : Z)
    (s : State) :
  accounted s -> accounted (addMarkersFrom index l s).
Proof.
  revert index s. induction l as [|a l IH]; intros index s A; simpl;
    [assumption|].
  apply IH. unfold accounted in *. simpl.
  eapply Acc_ext; [eapply (Acc_add _ _ _ AnnotationMarker); exact A | held_ext].
Qed.

Lemma accounted_update3D (s : State) :
  accounted s -> accounted (update3DAnnotationMarkers s).
Proof.
  intros A. unfold update3DAnnotationMarkers.
  apply accounted_addMarkersFrom. rewrite sceneRemoveAll_removeAll.
  unfold accounted in *. simpl.
  eapply Acc_ext;
    [eapply (Acc_removeAll (annotationMarkers s) _ _ _ AnnotationMarker);
     [exact A | discriminate | reflexivity]
    | held_ext].
Qed.

Lemma addMarkersFrom_positions (l : list Annotation.t) (index : Z)
    (s : State) :
  map position (annotationMarkers (addMarkersFrom index l s))
  = map position (annotationMarkers s) ++ map markerPosition l
  /\ annotations (addMarkersFrom index l s) = annotations s.
Proof.
  revert index s. induction l as [|a l IH]; intros index s; simpl.
  - now rewrite app_nil_r.
  - match goal with |- context [addMarkersFrom ?i l ?s'] =>
      destruct (IH i s') as [-> ->] end.
    simpl. rewrite map_app, <- app_assoc. split; reflexivity.
Qed.

Lemma markersPlaced_update3D (s : State) :
  markersPlaced (update3DAnnotationMarkers s).
Proof.
  unfold markersPlaced, update3DAnnotationMarkers.
  rewrite sceneRemoveAll_removeAll.
  match goal with |- context [addMarkersFrom ?i ?l ?s'] =>
    destruct (addMarkersFrom_positions l i s') as [-> ->] end.
  reflexivity.
Qed.

Ltac inv2_split := unfold Inv2; split; [|split; [|split]].

Lemma placementOk_toggle (s : State) :
  (isAddingAnnotation s = true <-> previewMarker s <> None) ->
  (isAddingAnnotation s = false -> placedMarker s = None) ->
  placementOk (toggleAddAnnotationMode s).
Proof.
  intros P Q. unfold placementOk, toggleAddAnnotationMode. simpl.
  destruct (isAddingAnnotation s) eqn:A; simpl.
  - destruct (previewMarker s) as [pm|] eqn:Epm; simpl;
      destruct (placedMarker s) as [qm|] eqn:Eqm; simpl;
      rewrite ?Epm, ?Eqm; (split; [|split]); try tauto; try discriminate;
      split; congruence.
  - pose proof (Q eq_refl) as Q'.
    destruct (previewMarker s) as [pm|] eqn:Epm; simpl; rewrite ?Q';
      (split; [split; [discriminate | reflexivity] | split; [discriminate|]]);
      intros _; split; reflexivity.
Qed.

Lemma Inv2_toggleAddAnnotationMode (s : State) :
  Inv2 s -> Inv2 (toggleAddAnnotationMode s).
Proof.
  intros (A & (P & Q & R) & M & K). inv2_split.
  - now apply accounted_toggleAddAnnotationMode.
  - now apply placementOk_toggle.
  - unfold measurementOk, toggleAddAnnotationMode in *. simpl.
    destruct (negb (isAddingAnnotation s)); simpl;
      destruct (previewMarker s); simpl; destruct (placedMarker s); exact M.
  - unfold markersPlaced, toggleAddAnnotationMode in *. simpl.
    destruct (negb (isAddingAnnotation s)); simpl;
      destruct (previewMarker s); simpl; destruct (placedMarker s); exact K.
Qed.

Lemma Inv2_onModelLoaded (size : Vector3.t) (s : State) :
  Inv2 s -> Inv2 (onModelLoaded size s).
Proof.
  intros (A & P & M & K). inv2_split; trivial.
  now apply accounted_onModelLoaded.
Qed.

Lemma Inv2_addMeasurePoint (point : Vector3.t) (s : State) :
  (List.length (measurePoints s) < 2)%nat ->
  Inv2 s -> Inv2 (addMeasurePoint point s).
Proof.
  intros L (A & P & M & K). inv2_split.
  - now apply accounted_addMeasurePoint.
  - unfold placementOk, addMeasurePoint in *. simpl.
    destruct (measurePoints s ++ [point]) as [|p0 [|p1 [|p2 l]]]; exact P.
  - destruct M as (Pos & Line & Res).
    assert (N : measureLine s = None).
    { destruct (measureLine s); [|reflexivity].
      assert (List.length (measurePoints s) = 2%nat)
        by (apply Line; discriminate). lia. }
    unfold measurementOk, addMeasurePoint. simpl.
    destruct (measurePoints s) as [|p0 [|p1 l]] eqn:E; simpl in *; try lia;
      rewrite ?map_app, ?Pos, ?N; simpl.
    + split; [reflexivity|]. split; [|discriminate].
      split; [congruence | discriminate].
    + split; [reflexivity|]. split; [split; [reflexivity | discriminate]|].
      intros q0 q1 H. now injection H as <- <-.
  - unfold markersPlaced, addMeasurePoint in *. simpl.
    destruct (measurePoints s ++ [point]) as [|p0 [|p1 [|p2 l]]]; exact K.
Qed.

Lemma Inv2_setAnnotationPosition (point : Vector3.t) (s : State) :
  isAddingAnnotation s = true ->
  Inv2 s -> Inv2 (setAnnotationPosition point s).
Proof.
  intros Adding (A & (P & Q & R) & M & K). inv2_split.
  - now apply accounted_setAnnotationPosition.
  - assert (Hp : previewMarker s <> None) by (apply P, Adding).
    unfold placementOk, setAnnotationPosition. simpl.
    destruct (previewMarker s) as [pm|] eqn:Epm; [|congruence]. simpl.
    destruct (placedMarker s) as [qm|] eqn:Eqm; simpl;
      rewrite ?Epm, ?Eqm, Adding;
      (split; [split; [discriminate | reflexivity] | split; [discriminate|]]);
      intros _; (split; [reflexivity|]);
      intros marker H; injection H as <-; reflexivity.
  - unfold measurementOk, setAnnotationPosition in *. simpl.
    destruct (previewMarker s); simpl; destruct (placedMarker s); exact M.
  - unfold markersPlaced, setAnnotationPosition in *. simpl.
    destruct (previewMarker s); simpl; destruct (placedMarker s); exact K.
Qed.

Lemma Inv2_onCanvasClick (ev : Pointer) (s : State) :
  Inv2 s -> Inv2 (onCanvasClick ev s).
Proof.
  intros H. unfold onCanvasClick.
  destruct (model s); [|assumption].
  destruct (markerTarget ev s) as [index|];
    [apply (Inv2_tourStep s); [apply focusAnnotation_tourStep | assumption]|].
  destruct (modelHit ev) as [point|]; [|assumption].
  destruct (isMeasuring s && (List.length (measurePoints s) <? 2)%nat) eqn:E.
  - apply andb_true_iff in E. destruct E as [_ E]. apply Nat.ltb_lt in E.
    now apply Inv2_addMeasurePoint.
  - destruct (isAddingAnnotation s) eqn:Adding; [|assumption].
    now apply Inv2_setAnnotationPosition.
Qed.

Lemma Inv2_onCanvasMouseMove (ev : Pointer) (s : State) :
  Inv2 s -> Inv2 (onCanvasMouseMove ev s).
Proof.
  intros (A & P & M & K). inv2_split.
  - now apply accounted_onCanvasMouseMove.
  - unfold onCanvasMouseMove. destruct (model s); [|assumption].
    destruct (negb (isAddingAnnotation s)); [assumption|].
    destruct (previewMarker s) as [pm|] eqn:Epm; [|assumption].
    unfold placementOk in *. rewrite Epm in P.
    destruct P as (P1 & P2 & P3).
    destruct (modelHit ev); simpl; (split; [|split; assumption]);
      (split; [discriminate | intros _; apply P1; discriminate]).
  - unfold onCanvasMouseMove. destruct (model s); [|assumption].
    destruct (negb (isAddingAnnotation s)); [assumption|].
    destruct (previewMarker s); [|assumption].
    destruct (modelHit ev); exact M.
  - unfold onCanvasMouseMove. destruct (model s); [|assumption].
    destruct (negb (isAddingAnnotation s)); [assumption|].
    destruct (previewMarker s); [|assumption].
    destruct (modelHit ev); exact K.
Qed.

Lemma Inv2_toggleMeasureMode (s : State) : Inv2 s -> Inv2 (toggleMeasureMode s).
Proof.
  intros (A & P & M & K). inv2_split.
  - now apply accounted_toggleMeasureMode.
  - unfold toggleMeasureMode, clearMeasurement.
    rewrite sceneRemoveAll_removeAll. simpl.
    destruct (measureLine s); simpl; destruct (negb (isMeasuring s)); exact P.
  - unfold measurementOk, toggleMeasureMode, clearMeasurement.
    rewrite sceneRemoveAll_removeAll. simpl.
    destruct (measureLine s) eqn:El; simpl; destruct (negb (isMeasuring s));
      simpl; rewrite ?El;
      (split; [reflexivity|];
       split; [split; [intros H; exfalso; now apply H | discriminate]|]);
      discriminate.
  - unfold toggleMeasureMode, clearMeasurement.
    rewrite sceneRemoveAll_removeAll. simpl.
    destruct (measureLine s); simpl; destruct (negb (isMeasuring s)); exact K.
Qed.

Lemma Inv2_update3D (s : State) :
  accounted s -> placementOk s -> measurementOk s ->
  Inv2 (update3DAnnotationMarkers s).
Proof.
  intros A P M. destruct (update3D_frame s) as (ch & n & ms & E).
  inv2_split.
  - now apply accounted_update3D.
  - rewrite E. exact P.
  - rewrite E. exact M.
  - intros _. apply markersPlaced_update3D.
Qed.

Lemma Inv2_deleteAnnotation (index : Z) (s : State) :
  Inv2 s -> Inv2 (deleteAnnotation index s).
Proof.
  intros (A & P & M & K). unfold deleteAnnotation.
  match goal with |- context [updateAnnotationList ?s'] =>
    set (s1 := s');
    assert (H1 : accounted s1 /\ placementOk s1 /\ measurementOk s1)
      by (subst s1; simpl; destruct (_ >=? _); destruct (_ =? 0);
          (split; [|split]); assumption)
  end.
  destruct H1 as (A1 & P1 & M1).
  destruct (updateAnnotationList s1) eqn:U.
  - now apply Inv2_update3D.
  - inv2_split; trivial.
    unfold mirrored, drawn. rewrite U. discriminate.
Qed.

Lemma Inv2_saveAnnotation (s : State) : Inv2 s -> Inv2 (saveAnnotation s).
Proof.
  intros H. unfold saveAnnotation.
  destruct (JsString.truthy _); [|assumption].
  destruct (pendingAnnotationPosition s) as [pending|]; [|assumption].
  destruct H as (A & (P & Q & R) & M & K).
  match goal with |- context [updateAnnotationList ?s'] =>
    set (s1 := s');
    assert (A1 : accounted s1);
    [|assert (W : (isAddingAnnotation s1 = true <-> previewMarker s1 <> None)
                  /\ (isAddingAnnotation s1 = false -> placedMarker s1 = None)
                  /\ measurementOk s1)]
  end.
  { subst s1. unfold accounted in *. simpl.
    destruct (placedMarker s) as [qm|] eqn:Eqm; simpl.
    - eapply Acc_ext; [drop_marker PlacedMarker A Eqm | held_ext; now rewrite ?Eqm].
    - eapply Acc_ext; [exact A | held_ext; now rewrite ?Eqm]. }
  { subst s1. simpl.
    destruct (placedMarker s) as [qm|] eqn:Eqm; simpl; rewrite ?Eqm;
      (split; [exact P | split; [reflexivity || exact Q | exact M]]). }
  destruct W as (W1 & W2 & W3).
  destruct (update3D_frame s1) as (ch & n & ms & E).
  destruct (updateAnnotationList s1) eqn:U.
  2:{ inv2_split; trivial.
      - split; [exact W1|]. split; [exact W2|].
        assert (F : isAddingAnnotation s1 = isAddingAnnotation s
                    /\ pendingAnnotationPosition s1
                       = pendingAnnotationPosition s
                    /\ Dom.saveDisabled (dom s1) = Dom.saveDisabled (dom s)
                    /\ placedMarker s1 = None)
          by (subst s1; simpl; destruct (placedMarker s) eqn:Eqm; simpl;
              rewrite ?Eqm; repeat split; reflexivity).
        destruct F as (F1 & F2 & F3 & F4). rewrite F1, F2, F3, F4.
        intros Adding. specialize (R Adding).
        destruct (pendingAnnotationPosition s);
          (split; [apply R | discriminate || reflexivity]).
      - unfold mirrored, drawn. rewrite U. discriminate. }
  inv2_split.
  - apply accounted_toggleAddAnnotationMode, accounted_update3D, A1.
  - apply placementOk_toggle; rewrite E; assumption.
  - assert (M' : measurementOk (update3DAnnotationMarkers s1))
      by (rewrite E; exact W3).
    revert M'. generalize (update3DAnnotationMarkers s1). intros s2 M'.
    unfold measurementOk, toggleAddAnnotationMode in *. simpl.
    destruct (negb (isAddingAnnotation s2)); simpl;
      destruct (previewMarker s2); simpl; destruct (placedMarker s2); exact M'.
  - intros _. pose proof (markersPlaced_update3D s1) as K'.
    revert K'. generalize (update3DAnnotationMarkers s1). intros s2 K'.
    unfold markersPlaced, toggleAddAnnotationMode in *. simpl.
    destruct (negb (isAddingAnnotation s2)); simpl;
      destruct (previewMarker s2); simpl; destruct (placedMarker s2); exact K'.
Qed.

Lemma Inv2_onKeyDown (key : Key) (s : State) : Inv2 s -> Inv2 (onKeyDown key s).
Proof.
  intros H. destruct key; simpl; trivial.
  - assert (H' : Inv2 (if isAddingAnnotation s then cancelAnnotation s else s))
      by (destruct (isAddingAnnotation s);
          [now apply Inv2_toggleAddAnnotationMode | assumption]).
    destruct (isTourActive _); [|assumption].
    eapply Inv2_tourStep; [apply endTour_tourStep | exact H'].
  - destruct (isTourActive s); [|assumption].
    eapply Inv2_tourStep; [apply nextTourStop_tourStep | exact H].
  - destruct (isTourActive s); [|assumption].
    eapply Inv2_tourStep; [apply prevTourStop_tourStep | exact H].
Qed.

Lemma Inv2_handle (e : Event) (s : State) : Inv2 s -> Inv2 (handle e s).
Proof.
  intros H. destruct e; simpl.
  - now apply Inv2_onModelLoaded.
  - now apply Inv2_onCanvasClick.
  - now apply Inv2_onCanvasMouseMove.
  - eapply Inv2_tourStep; [apply resetView_tourStep | exact H].
  - now apply Inv2_toggleAddAnnotationMode.
  - now apply Inv2_toggleAddAnnotationMode.
  - now apply Inv2_saveAnnotation.
  - destruct (isTourActive s);
      (eapply Inv2_tourStep; [|exact H]);
      [apply endTour_tourStep | apply startTour_tourStep].
  - eapply Inv2_tourStep; [apply prevTourStop_tourStep | exact H].
  - eapply Inv2_tourStep; [apply nextTourStop_tourStep | exact H].
  - exact H.
  - eapply Inv2_tourStep; [apply focusAnnotation_tourStep | exact H].
  - now apply Inv2_deleteAnnotation.
  - exact H.
  - exact H.
  - now apply Inv2_onKeyDown.
  - eapply Inv2_tourStep; [apply animationFrame_tourStep | exact H].
  - exact H.
  - now apply Inv2_toggleMeasureMode.
Qed.

Lemma Inv2_initial (e : Env) (page : Dom.t) : Inv2 (initial e page).
Proof.
  inv2_split.
  - unfold accounted, Acc. simpl. unfold lights.
    split; [repeat constructor; simpl; intuition discriminate|].
    split.
    + intros c Hc. simpl in Hc.
      repeat (destruct Hc as [<-|Hc]; [simpl; lia|]). contradiction.
    + intros k Hk. destruct k; try congruence; reflexivity.
  - unfold placementOk. simpl. split; [split; [discriminate|congruence]|].
    split; [reflexivity | discriminate].
  - unfold measurementOk. simpl. split; [reflexivity|].
    split; [split; [intros H; exfalso; now apply H | discriminate]|].
    discriminate.
  - intros _. reflexivity.
Qed.

Lemma Inv2_run (events : list Event) (s : State) :
  Inv2 s -> Inv2 (run events s).
Proof.
  unfold run. revert s. induction events as [|e events IH]; intros s H; simpl;
    [assumption|].
  apply IH. now apply Inv2_handle.
Qed.

Lemma Inv2_reachable (e : Env) (page : Dom.t) (events : list Event) :
  Inv2 (run events (initial e page)).
Proof. apply Inv2_run, Inv2_initial. Qed.

Lemma run_app (l l' : list Event) (s : State) :
  run (l ++ l') s = run l' (run l s).
Proof. unfold run. apply fold_left_app. Qed.

(** ** Clicks, in reachable states *)



(** ** Leaving PlacingAnnotation mode, in reachable states *)

(** C9, as the code has it.  In every reachable state in PlacingAnnotation
    mode, the cancel button, the Escape key and the toolbar button end the
    mode, and so does a save that goes through and whose list redraw
    returns.  Every event that ends the mode leaves no preview and no
    placed marker, in the state or in the scene.  The pending position is
    kept as it was; it is cleared when the mode is entered again. *)
Theorem leaving_placement_mode (e : Env) (page : Dom.t)
    (events : list Event) (ev : Event) :
  let s := run events (initial e page) in
  let s' := handle ev s in
  isAddingAnnotation s = true ->
  (ev = ClickCancelAnnotation \/ ev = KeyDown Escape
   \/ ev = ClickAddAnnotation ->
   isAddingAnnotation s' = false)
  /\ (ev = ClickSaveAnnotation ->
      JsString.trim (Dom.annotationTitle (dom s)) <> [] ->
      pendingAnnotationPosition s <> None ->
      returns (updateAnnotationList s') = true ->
      isAddingAnnotation s' = false)
  /\ (isAddingAnnotation s' = false ->
      previewMarker s' = None
      /\ placedMarker s' = None
      /\ absent PreviewMarker s'
      /\ absent PlacedMarker s'
      /\ pendingAnnotationPosition s' = pendingAnnotationPosition s
      /\ pendingAnnotationPosition (toggleAddAnnotationMode s') = None).
Proof.
  intros s s' A. split; [|split].
  - unfold s'. intros [-> | [-> | ->]]; simpl.
    + now apply toggleAddAnnotationMode_exit.
    + rewrite A. unfold cancelAnnotation.
      destruct (toggleAddAnnotationMode_exit s A) as (X1 & _).
      now destruct (isTourActive (toggleAddAnnotationMode s)).
    + now apply toggleAddAnnotationMode_exit.
  - intros -> T P D. unfold s'. simpl.
    apply (saveAnnotation_exit s A). auto.
  - intros A'.
    assert (I : Inv s') by (apply Inv_handle, Inv_reachable).
    assert (I2 : Inv2 s') by (apply Inv2_handle, Inv2_reachable).
    destruct I2 as (_ & (Q1 & Q2 & _) & _).
    assert (P1 : previewMarker s' = None).
    { destruct (previewMarker s') as [m|]; [|reflexivity].
      assert (T : isAddingAnnotation s' = true) by (apply Q1; discriminate).
      congruence. }
    assert (P2 : placedMarker s' = None) by (apply Q2, A').
    destruct I as (_ & _ & _ & _ & S).
    destruct (absent_markers s' S P1 P2) as [Y1 Y2].
    repeat split; trivial.
    + now apply handle_pending.
    + now apply toggleAddAnnotationMode_enter.
Qed.

(** C9 fails as stated: after a position is staged, cancelling leaves
    PlacingAnnotation mode and the staged position is still in the state. *)
Lemma pending_survives_cancel :
  let s := run stageOne start in
  isAddingAnnotation s = true
  /\ isAddingAnnotation (handle ClickCancelAnnotation s) = false
  /\ pendingAnnotationPosition (handle ClickCancelAnnotation s) <> None.
Proof. vm_compute. repeat split; discriminate. Qed.

Lemma leaving_by_cancel :
  let s := run stageOne start in
  let s' := handle ClickCancelAnnotation s in
  isAddingAnnotation s = true
  /\ isAddingAnnotation s' = false
  /\ previewMarker s' = None
  /\ placedMarker s' = None
  /\ absent PreviewMarker s'
  /\ absent PlacedMarker s'
  /\ pendingAnnotationPosition s' = pendingAnnotationPosition s
  /\ pendingAnnotationPosition (toggleAddAnnotationMode s') = None.
Proof.
  intros s s'.
  assert (A : isAddingAnnotation s = true) by (vm_compute; reflexivity).
  destruct (leaving_placement_mode frozenHost blankPage stageOne
              ClickCancelAnnotation A) as (W & _ & T).
  split; [exact A|]. split; [apply W; now left|].
  apply T, W. now left.
Defined.

(** ** The tour *)

(** X1.  Along every sequence of events from the initial state, after each
    event the tour cursor is -1 or an index of the annotation store. *)
Theorem cursor_always_in_range (e : Env) (page : Dom.t)
    (events : list Event) :
  Forall (fun s => -1 <= tourIndex s <= Z.of_nat (List.length (annotations s)) - 1)
         (trace events (initial e page)).
Proof.
  pose proof (Inv_trace events (initial e page) (Inv_initial e page)) as H.
  eapply Forall_impl; [|exact H].
  intros s (_ & C & _). exact C.
Qed.

(** X2.  In every reachable state, [nextTourStop] moves the cursor one
    entry forward and shows that entry's title and description while the
    cursor is before the last entry, and returns the state as it was
    otherwise; [prevTourStop] moves one entry back while the cursor is
    past the first entry, and returns the state as it was otherwise. *)
Theorem tour_stepping (e : Env) (page : Dom.t) (events : list Event) :
  let s := run events (initial e page) in
  (tourIndex s < count s - 1 ->
   exists a,
     JsArray.get (annotations s) (tourIndex s + 1) = Some a
     /\ tourIndex (nextTourStop s) = tourIndex s + 1
     /\ Dom.infoTitle (dom (nextTourStop s)) = Annotation.title a
     /\ Dom.infoDescription (dom (nextTourStop s)) = Annotation.description a
     /\ Dom.infoPanelHidden (dom (nextTourStop s)) = false)
  /\ (count s - 1 <= tourIndex s -> nextTourStop s = s)
  /\ (0 < tourIndex s ->
      exists a,
        JsArray.get (annotations s) (tourIndex s - 1) = Some a
        /\ tourIndex (prevTourStop s) = tourIndex s - 1
        /\ Dom.infoTitle (dom (prevTourStop s)) = Annotation.title a
        /\ Dom.infoDescription (dom (prevTourStop s)) = Annotation.description a
        /\ Dom.infoPanelHidden (dom (prevTourStop s)) = false)
  /\ (tourIndex s <= 0 -> prevTourStop s = s).
Proof.
  intros s. destruct (Inv_reachable e page events) as (_ & C & _).
  fold s in C. unfold cursorOk, count in *.
  split; [|split; [|split]].
  - intros H. unfold nextTourStop.
    apply Z.ltb_lt in H. rewrite H. apply Z.ltb_lt in H.
    destruct (get_in_range_some (annotations s) (tourIndex s + 1)) as [a Ha];
      [lia|].
    exists a. split; [assumption|].
    destruct (focusAnnotation_shows _ s a Ha) as (F1 & F2 & F3 & F4 & _).
    repeat split; assumption.
  - intros H. unfold nextTourStop. apply Z.ltb_ge in H. now rewrite H.
  - intros H. unfold prevTourStop.
    apply Z.gtb_lt in H. rewrite H. apply Z.gtb_lt in H.
    destruct (get_in_range_some (annotations s) (tourIndex s - 1)) as [a Ha];
      [lia|].
    exists a. split; [assumption|].
    destruct (focusAnnotation_shows _ s a Ha) as (F1 & F2 & F3 & F4 & _).
    repeat split; assumption.
  - intros H. unfold prevTourStop.
    destruct (tourIndex s >? 0) eqn:E; [|reflexivity].
    apply Z.gtb_lt in E. lia.
Qed.

(** X3.  [startTour] on an empty store returns the state as it was; on a
    store with entries it activates the tour, puts the cursor on the first
    entry and shows its title and description.  [endTour] deactivates the
    tour, sets the cursor to -1 and hides the panel.  The tour button
    switches the tour on and off when the store has entries. *)
Theorem tour_start_and_end (s : State) :
  (annotations s = [] -> startTour s = s)
  /\ (forall a l, annotations s = a :: l ->
        isTourActive (startTour s) = true
        /\ tourIndex (startTour s) = 0
        /\ Dom.infoTitle (dom (startTour s)) = Annotation.title a
        /\ Dom.infoDescription (dom (startTour s)) = Annotation.description a
        /\ Dom.infoPanelHidden (dom (startTour s)) = false
        /\ isTourActive (handle ClickTourStart s) = negb (isTourActive s))
  /\ isTourActive (endTour s) = false
  /\ tourIndex (endTour s) = -1
  /\ Dom.infoPanelHidden (dom (endTour s)) = true
  /\ annotations (endTour s) = annotations s.
Proof.
  split; [|split; [|repeat split]].
  - intros H. unfold startTour. now rewrite H.
  - intros a l H.
    assert (S : startTour s
                = focusAnnotation 0 (set_tourIndex 0 (set_isTourActive true s)))
      by (unfold startTour; now rewrite H).
    assert (G : JsArray.get
                  (annotations (set_tourIndex 0 (set_isTourActive true s))) 0
                = Some a) by (simpl; now rewrite H).
    destruct (focusAnnotation_shows 0 _ a G) as (F1 & F2 & F3 & F4 & _ & F6).
    rewrite S. repeat split; trivial.
    simpl. destruct (isTourActive s); [reflexivity|].
    simpl. rewrite S. exact F6.
Qed.

(** X4.  In every reachable state, the Escape key leaves PlacingAnnotation
    mode and the tour: afterwards neither is active, no preview or placed
    marker is held, and the cursor is -1 if the tour was active.  It does
    not leave Measuring mode and does not change the annotations. *)
Theorem escape_leaves_placement_and_tour (e : Env) (page : Dom.t)
    (events : list Event) :
  let s := run events (initial e page) in
  let s' := handle (KeyDown Escape) s in
  isAddingAnnotation s' = false
  /\ isTourActive s' = false
  /\ previewMarker s' = None
  /\ placedMarker s' = None
  /\ tourIndex s' = (if isTourActive s then -1 else tourIndex s)
  /\ isMeasuring s' = isMeasuring s
  /\ annotations s' = annotations s.
Proof.
  intros s s'.
  assert (I : Inv2 s') by (apply Inv2_handle, Inv2_reachable).
  destruct I as (_ & (P & Q & _) & _).
  assert (X : isAddingAnnotation s' = false /\ isTourActive s' = false
              /\ tourIndex s' = (if isTourActive s then -1 else tourIndex s)
              /\ isMeasuring s' = isMeasuring s
              /\ annotations s' = annotations s).
  { unfold s'. simpl. unfold cancelAnnotation.
    destruct (isAddingAnnotation s) eqn:A.
    - destruct (toggleAddAnnotationMode_flags s) as [T1 T2].
      pose proof (toggleAddAnnotationMode_annotations s) as T3.
      assert (T4 : isTourActive (toggleAddAnnotationMode s) = isTourActive s
                   /\ tourIndex (toggleAddAnnotationMode s) = tourIndex s).
      { unfold toggleAddAnnotationMode. simpl. rewrite A. simpl.
        destruct (previewMarker s); simpl; destruct (placedMarker s);
          split; reflexivity. }
      destruct T4 as [T4 T5]. rewrite A in T1.
      rewrite T4. destruct (isTourActive s) eqn:Tour; simpl; auto.
    - destruct (isTourActive s) eqn:Tour; simpl; auto. }
  destruct X as (X1 & X2 & X3 & X4 & X5).
  repeat split; trivial.
  - destruct (previewMarker s'); [|reflexivity].
    assert (isAddingAnnotation s' = true) by (apply P; discriminate).
    congruence.
  - now apply Q.
Qed.

(** ** The animation queue *)

Lemma update_frames (a : Animation) (s : State) :
  World.frames (world (update a s)) = World.frames (world s)
  \/ World.frames (world (update a s)) = World.frames (world s) ++ [a].
Proof.
  rewrite update_unfold.
  match goal with |- context [if ?c then _ else _] => destruct c end;
    [right | left]; reflexivity.
Qed.

Lemma animateCamera_frames (np nt : Vector3.t) (d : float) (s : State) :
  World.frames (world (animateCamera np nt d s)) = World.frames (world s)
  \/ World.frames (world (animateCamera np nt d s))
     = World.frames (world s)
       ++ [mkAnimation (World.cameraPosition (world s))
             (World.controlsTarget (world s)) np nt d
             (performance_now (World.env (world s))
                (World.clockReads (world s)))].
Proof.
  unfold animateCamera, performanceNow.
  match goal with |- context [update ?a ?s'] =>
    destruct (update_frames a s') as [E|E] end;
    [left | right]; exact E.
Qed.

Lemma updates_frames (l : list Animation) (s : State) :
  exists kept,
    World.frames (world (fold_left (fun st a => update a st) l s))
    = World.frames (world s) ++ kept
    /\ incl kept l /\ (List.length kept <= List.length l)%nat.
Proof.
  revert s. induction l as [|a l IH]; intros s; simpl.
  - exists []. rewrite app_nil_r. split; [reflexivity|].
    split; [apply incl_refl | simpl; lia].
  - destruct (IH (update a s)) as (kept & E & I & L). rewrite E.
    destruct (update_frames a s) as [F|F]; rewrite F.
    + exists kept. split; [reflexivity|].
      split; [now apply incl_tl | lia].
    + exists (a :: kept). rewrite <- app_assoc. split; [reflexivity|].
      split; [|simpl; lia].
      intros x [<-|Hx]; [now left | right; now apply I].
Qed.

Lemma tourStep_frames_other (s s' : State) :
  tourStep s s' ->
  isAddingAnnotation s' = isAddingAnnotation s
  /\ annotations s' = annotations s
  /\ isMeasuring s' = isMeasuring s
  /\ measurePoints s' = measurePoints s
  /\ measureMarkers s' = measureMarkers s
  /\ measureLine s' = measureLine s
  /\ pendingAnnotationPosition s' = pendingAnnotationPosition s
  /\ previewMarker s' = previewMarker s
  /\ placedMarker s' = placedMarker s
  /\ annotationMarkers s' = annotationMarkers s
  /\ World.children (world s') = World.children (world s)
  /\ model s' = model s.
Proof.
  intros (k & f & p & q & a & i & h & t & d & ->). repeat split.
Qed.

(** What [animateCamera] has done when it returns: two clock readings, one
    run of [update], and the closure queued when that run was not the
    last. *)
Lemma animateCamera_starts (np nt : Vector3.t) (d : float) (s : State) :
  let host := World.env (world s) in
  let t0 := performance_now host (World.clockReads (world s)) in
  let t1 := performance_now host (S (World.clockReads (world s))) in
  let progress := Num.Math_min ((t1 - t0) / d)%float 1%float in
  let eased := (1 - Math_pow host (1 - progress) 3)%float in
  let a := mkAnimation (World.cameraPosition (world s))
             (World.controlsTarget (world s)) np nt d t0 in
  let s' := animateCamera np nt d s in
  World.clockReads (world s') = S (S (World.clockReads (world s)))
  /\ (World.cameraPosition (world s'), World.controlsTarget (world s'))
     = controls_update host
         (Vector3.lerpVectors (World.cameraPosition (world s)) np eased,
          Vector3.lerpVectors (World.controlsTarget (world s)) nt eased)
  /\ World.frames (world s')
     = World.frames (world s) ++ (if (progress <? 1)%float then [a] else []).
Proof.
  unfold animateCamera, update, performanceNow, commit, controlsUpdate,
    requestAnimationFrame, easeOutCubic. simpl.
  destruct (Num.Math_min _ _ <? 1)%float; simpl;
    (split; [reflexivity|]; split; [|rewrite ?app_nil_r; reflexivity]);
    now destruct (controls_update _ _).
Qed.

(** X5.  Focusing an annotation that exists puts the cursor on it, shows
    its title and description in the panel, leaves the annotations and the
    tour's activity as they were, and starts a camera animation of 1000 ms
    from the camera's position and target at that moment towards the
    annotation's position shifted by (0.5, 0.3, 1.5), looking at the
    annotation.  The clock is read twice; the first run of the animation
    has progress min((t1 - t0) / 1000, 1) for the two readings and commits
    the position and the target interpolated by the eased progress, as
    [OrbitControls.update] leaves them; the closure is queued for the next
    display refresh exactly when that progress is below 1. *)
Theorem focus_shows_and_animates (s : State) (index : Z) (a : Annotation.t) :
  JsArray.get (annotations s) index = Some a ->
  let s' := focusAnnotation index s in
  let host := World.env (world s) in
  let t0 := performance_now host (World.clockReads (world s)) in
  let t1 := performance_now host (S (World.clockReads (world s))) in
  let progress := Num.Math_min ((t1 - t0) / 1000)%float 1%float in
  let eased := (1 - Math_pow host (1 - progress) 3)%float in
  let destination :=
    Vector3.mk (Vector3.x (Annotation.position a) + 0.5)
               (Vector3.y (Annotation.position a) + 0.3)
               (Vector3.z (Annotation.position a) + 1.5)%float in
  tourIndex s' = index
  /\ Dom.infoTitle (dom s') = Annotation.title a
  /\ Dom.infoDescription (dom s') = Annotation.description a
  /\ Dom.infoPanelHidden (dom s') = false
  /\ annotations s' = annotations s
  /\ isTourActive s' = isTourActive s
  /\ World.clockReads (world s') = S (S (World.clockReads (world s)))
  /\ (World.cameraPosition (world s'), World.controlsTarget (world s'))
     = controls_update host
         (Vector3.lerpVectors (World.cameraPosition (world s)) destination
            eased,
          Vector3.lerpVectors (World.controlsTarget (world s))
            (Annotation.position a) eased)
  /\ World.frames (world s')
     = World.frames (world s)
       ++ (if (progress <? 1)%float
           then [mkAnimation (World.cameraPosition (world s))
                   (World.controlsTarget (world s)) destination
                   (Annotation.position a) 1000 t0]
           else []).
Proof.
  intros H s' host t0 t1 progress eased destination.
  destruct (focusAnnotation_shows index s a H) as (F1 & F2 & F3 & F4 & F5 & F6).
  do 6 (split; [assumption|]).
  unfold s', focusAnnotation. rewrite H.
  match goal with |- context [animateCamera ?np ?nt ?d ?s1] =>
    exact (animateCamera_starts np nt d s1) end.
Qed.

Lemma handle_frames (e : Event) (s : State) :
  (List.length (World.frames (world (handle e s)))
   <= List.length (World.frames (world s)) + 1)%nat.
Proof.
  assert (A : forall np nt d st,
             (List.length (World.frames (world (animateCamera np nt d st)))
              <= List.length (World.frames (world st)) + 1)%nat).
  { intros. destruct (animateCamera_frames np nt d st) as [E|E]; rewrite E;
      rewrite ?length_app; simpl; lia. }
  assert (F : forall index st,
             (List.length (World.frames (world (focusAnnotation index st)))
              <= List.length (World.frames (world st)) + 1)%nat).
  { intros. unfold focusAnnotation.
    destruct (JsArray.get (annotations st) index); [|lia].
    match goal with |- context [animateCamera ?np ?nt ?d ?s1] =>
      exact (A np nt d s1) end. }
  assert (T : forall st, World.frames (world (toggleAddAnnotationMode st))
                         = World.frames (world st)).
  { intros. unfold toggleAddAnnotationMode. simpl.
    destruct (negb (isAddingAnnotation st)); simpl;
      destruct (previewMarker st); simpl; try destruct (placedMarker st);
      reflexivity. }
  assert (U : forall st, World.frames (world (update3DAnnotationMarkers st))
                         = World.frames (world st)).
  { intros. destruct (update3D_frame st) as (ch & n & ms & E). now rewrite E. }
  destruct e; simpl; try lia.
  - unfold onCanvasClick. destruct (model s); [|lia].
    destruct (markerTarget ev s); [apply F|].
    destruct (modelHit ev) as [point|]; [|lia].
    destruct (isMeasuring s && _).
    + unfold addMeasurePoint. simpl.
      destruct (measurePoints s ++ [point]) as [|p0 [|p1 [|p2 l]]]; simpl; lia.
    + destruct (isAddingAnnotation s); [|lia].
      unfold setAnnotationPosition. simpl.
      destruct (previewMarker s); simpl; destruct (placedMarker s); simpl; lia.
  - unfold onCanvasMouseMove. destruct (model s); [|lia].
    destruct (negb _); [lia|]. destruct (previewMarker s); [|lia].
    destruct (modelHit ev); simpl; lia.
  - unfold resetView. destruct (model s); [apply A | lia].
  - rewrite T. lia.
  - unfold cancelAnnotation. rewrite T. lia.
  - unfold saveAnnotation. destruct (JsString.truthy _); [|lia].
    destruct (pendingAnnotationPosition s); [|lia].
    destruct (updateAnnotationList _); rewrite ?T, ?U; simpl;
      destruct (placedMarker s); simpl; lia.
  - destruct (isTourActive s); simpl; [lia|]. unfold startTour.
    destruct (_ =? 0); [lia|].
    exact (F 0 (set_tourIndex 0 (set_isTourActive true s))).
  - unfold prevTourStop. destruct (_ >? _); [apply F | lia].
  - unfold nextTourStop. destruct (_ <? _); [apply F | lia].
  - apply F.
  - unfold deleteAnnotation.
    destruct (updateAnnotationList _); rewrite ?U; simpl;
      destruct (_ =? 0); simpl; destruct (_ >=? _); simpl; lia.
  - destruct key; simpl; try lia.
    + unfold cancelAnnotation.
      destruct (isAddingAnnotation s);
        destruct (isTourActive _); simpl; rewrite ?T; lia.
    + destruct (isTourActive s); [|lia]. unfold nextTourStop.
      destruct (_ <? _); [apply F | lia].
    + destruct (isTourActive s); [|lia]. unfold prevTourStop.
      destruct (_ >? _); [apply F | lia].
  - unfold animationFrame.
    destruct (updates_frames (World.frames (world s)) (set_frames [] s))
      as (kept & E & _ & L).
    rewrite E. simpl. lia.
  - unfold toggleMeasureMode, clearMeasurement.
    rewrite sceneRemoveAll_removeAll. simpl.
    destruct (measureLine s); simpl; destruct (negb (isMeasuring s));
      simpl; lia.
Qed.

(** X6.  Camera animations never multiply.  A display refresh runs the
    queued closures once each: the closures queued afterwards are among
    those queued before, and there are no more of them.  Any other event
    adds at most one closure to the queue. *)
Theorem animation_queue_is_bounded (s : State) (e : Event) :
  incl (World.frames (world (animationFrame s))) (World.frames (world s))
  /\ (List.length (World.frames (world (animationFrame s)))
      <= List.length (World.frames (world s)))%nat
  /\ (List.length (World.frames (world (handle e s)))
      <= List.length (World.frames (world s)) + 1)%nat.
Proof.
  unfold animationFrame.
  destruct (updates_frames (World.frames (world s)) (set_frames [] s))
    as (kept & E & I & L).
  rewrite E. simpl. split; [exact I|]. split; [exact L | apply handle_frames].
Qed.

(** ** What every reachable state shows *)

Lemma Inv2_trace (events : list Event) (s : State) :
  Inv2 s -> Forall Inv2 (trace events s).
Proof.
  revert s. induction events as [|e events IH]; intros s H; simpl;
    constructor; [now apply Inv2_handle|].
  apply IH. now apply Inv2_handle.
Qed.

Lemma both_trace (events : list Event) (s : State) :
  Inv s -> Inv2 s -> Forall (fun st => Inv st /\ Inv2 st) (trace events s).
Proof.
  revert s. induction events as [|e events IH]; intros s H H2; simpl;
    constructor.
  - split; [now apply Inv_handle | now apply Inv2_handle].
  - apply IH; [now apply Inv_handle | now apply Inv2_handle].
Qed.

(** X7.  Along every sequence of events from the initial state, after each
    event the scene's children are distinct objects and, the model apart,
    they are exactly the four lights and the objects the state refers to,
    kind by kind and in order: the measurement markers, the measurement
    line, the annotation markers, the preview marker and the placed
    marker.  No object stays in the scene once the state has dropped it,
    and none is referred to without being in the scene. *)
Theorem scene_holds_what_the_state_holds (e : Env) (page : Dom.t)
    (events : list Event) :
  Forall (fun s =>
            let children := World.children (world s) in
            NoDup (map childId children)
            /\ ofKind Light children = lights
            /\ ofKind MeasureMarker children = map childOf (measureMarkers s)
            /\ ofKind MeasureLine children
               = map childOf (optionList (measureLine s))
            /\ ofKind AnnotationMarker children
               = map childOf (annotationMarkers s)
            /\ ofKind PreviewMarker children
               = map childOf (optionList (previewMarker s))
            /\ ofKind PlacedMarker children
               = map childOf (optionList (placedMarker s)))
         (trace events (initial e page)).
Proof.
  pose proof (Inv2_trace events (initial e page) (Inv2_initial e page)) as H.
  eapply Forall_impl; [|exact H].
  intros s ((D & _ & F) & _). simpl.
  split; [exact D|].
  repeat split; (apply F; discriminate).
Qed.

(** X8.  Along every sequence of events from the initial state, after each
    event the marker at place [k] carries index [k] and is no preview; and
    wherever the list redraw returns there is one marker per annotation,
    the marker at place [k] sitting 0.06 above the position of annotation
    [k].  (Where a redraw threw, the markers are those of an earlier
    store.) *)
Theorem markers_mirror_the_store (e : Env) (page : Dom.t)
    (events : list Event) :
  Forall (fun s =>
            (forall k m,
               nth_error (annotationMarkers s) k = Some m ->
               userIndex m = Some (Z.of_nat k) /\ userIsPreview m = false)
            /\ (returns (updateAnnotationList s) = true ->
                List.length (annotationMarkers s)
                = List.length (annotations s)
                /\ forall k m a,
                     nth_error (annotationMarkers s) k = Some m ->
                     nth_error (annotations s) k = Some a ->
                     position m
                     = Vector3.liftY (Annotation.position a)
                         (0.06 * 1.0)%float))
         (trace events (initial e page)).
Proof.
  pose proof (both_trace events (initial e page) (Inv_initial e page)
                (Inv2_initial e page)) as H.
  eapply Forall_impl; [|exact H].
  intros s ((_ & _ & _ & K & _) & (_ & _ & _ & P)).
  split; [exact K|]. intros D. specialize (P D). unfold markersPlaced in P.
  split.
  - rewrite <- (length_map position), P. apply length_map.
  - intros k m a Hm Ha.
    pose proof (map_nth_error position k _ Hm) as E.
    rewrite P in E. rewrite (map_nth_error markerPosition k _ Ha) in E.
    now injection E as <-.
Qed.

(** X9.  Along every sequence of events from the initial state, after each
    event one measurement marker sits at each recorded point, the
    connecting line exists exactly when two points are recorded, and then
    the distance shown is the Euclidean distance between them, the square
    root of the sum of the squared coordinate differences in binary64; and
    toggling the measure mode at that moment leaves no measurement marker
    and no line in the scene. *)
Theorem measurement_markers_follow_points (e : Env) (page : Dom.t)
    (events : list Event) :
  Forall (fun s =>
            map position (measureMarkers s) = measurePoints s
            /\ (measureLine s <> None
                <-> List.length (measurePoints s) = 2%nat)
            /\ (forall p0 p1, measurePoints s = [p0; p1] ->
                  let dx := (Vector3.x p0 - Vector3.x p1)%float in
                  let dy := (Vector3.y p0 - Vector3.y p1)%float in
                  let dz := (Vector3.z p0 - Vector3.z p1)%float in
                  Dom.measurementResult (dom s)
                  = Some (sqrt (dx * dx + dy * dy + dz * dz))%float)
            /\ absent MeasureMarker (toggleMeasureMode s)
            /\ absent MeasureLine (toggleMeasureMode s)
            /\ Dom.measurementResult (dom (toggleMeasureMode s)) = None)
         (trace events (initial e page)).
Proof.
  pose proof (Inv2_trace events (initial e page) (Inv2_initial e page)) as H.
  eapply Forall_impl; [|exact H].
  intros s H2. pose proof (Inv2_toggleMeasureMode s H2) as ((_ & _ & F) & _ & (M1 & M2 & _) & _).
  destruct H2 as (_ & _ & (P & L & R) & _).
  split; [exact P|]. split; [exact L|].
  split; [intros p0 p1 Hp; simpl; rewrite (R p0 p1 Hp);
          now rewrite distanceTo_euclidean|].
  assert (Em : measureMarkers (toggleMeasureMode s) = []).
  { destruct (measureMarkers (toggleMeasureMode s)) as [|m l] eqn:E;
      [reflexivity|].
    assert (Hp : measurePoints (toggleMeasureMode s) = []).
    { unfold toggleMeasureMode, clearMeasurement.
      rewrite sceneRemoveAll_removeAll. simpl.
      destruct (measureLine s); simpl; destruct (negb (isMeasuring s));
        reflexivity. }
    rewrite Hp in M1. discriminate. }
  assert (El : measureLine (toggleMeasureMode s) = None).
  { destruct (measureLine (toggleMeasureMode s)) eqn:E; [|reflexivity].
    assert (Hl : List.length (measurePoints (toggleMeasureMode s)) = 2%nat)
      by (apply M2; discriminate).
    rewrite <- M1, Em in Hl. discriminate. }
  split; [|split].
  - intros c Hc Hk.
    assert (X : In c (ofKind MeasureMarker
                        (World.children (world (toggleMeasureMode s)))))
      by (apply filter_In; split; [exact Hc | unfold kindIs; now rewrite Hk]).
    rewrite F in X by discriminate. simpl in X. now rewrite Em in X.
  - intros c Hc Hk.
    assert (X : In c (ofKind MeasureLine
                        (World.children (world (toggleMeasureMode s)))))
      by (apply filter_In; split; [exact Hc | unfold kindIs; now rewrite Hk]).
    rewrite F in X by discriminate. simpl in X. now rewrite El in X.
  - unfold toggleMeasureMode, clearMeasurement.
    rewrite sceneRemoveAll_removeAll. simpl.
    destruct (measureLine s); simpl; destruct (negb (isMeasuring s));
      reflexivity.
Qed.

(** X10.  Along every sequence of events from the initial state, after
    each event the preview marker exists exactly in PlacingAnnotation
    mode.  Outside that mode the scene holds no preview and no placed
    marker.  In that mode the save button is enabled exactly when a
    position is staged; a placed marker that is held is the only one in
    the scene and sits 0.1 above the staged position, and where none is
    held (no position staged, or a save whose list redraw threw) none is
    in the scene.  Staging a position puts exactly one placed marker in
    the scene, 0.1 above it. *)
Theorem placement_markers_follow_the_mode (e : Env) (page : Dom.t)
    (events : list Event) :
  Forall (fun s =>
            (isAddingAnnotation s = true <-> previewMarker s <> None)
            /\ (isAddingAnnotation s = false ->
                absent PreviewMarker s /\ absent PlacedMarker s)
            /\ (isAddingAnnotation s = true ->
                (Dom.saveDisabled (dom s) = true
                 <-> pendingAnnotationPosition s = None)
                /\ (pendingAnnotationPosition s = None ->
                    placedMarker s = None)
                /\ match placedMarker s with
                   | Some marker =>
                       ofKind PlacedMarker (World.children (world s))
                       = [childOf marker]
                       /\ exists point,
                            pendingAnnotationPosition s = Some point
                            /\ position marker
                               = Vector3.liftY point 0.1%float
                   | None => absent PlacedMarker s
                   end)
            /\ forall point,
                 exists marker,
                   placedMarker (setAnnotationPosition point s) = Some marker
                   /\ position marker = Vector3.liftY point 0.1%float
                   /\ ofKind PlacedMarker
                        (World.children (world (setAnnotationPosition point s)))
                      = [childOf marker])
         (trace events (initial e page)).
Proof.
  pose proof (both_trace events (initial e page) (Inv_initial e page)
                (Inv2_initial e page)) as H.
  eapply Forall_impl; [|exact H].
  intros s ((_ & _ & _ & _ & S) & (Acc0 & (P & Q & R) & _)).
  pose proof Acc0 as (_ & _ & F).
  split; [exact P|]. split; [|split].
  - intros A. apply absent_markers; [exact S | | now apply Q].
    destruct (previewMarker s); [|reflexivity].
    assert (isAddingAnnotation s = true) by (apply P; discriminate).
    congruence.
  - intros A. specialize (R A).
    assert (N : placedMarker s = None -> absent PlacedMarker s).
    { intros E c Hc. unfold sceneOk in S.
      eapply SceneOk_absent_placed; eassumption. }
    destruct (pendingAnnotationPosition s) as [point|].
    + destruct R as (R1 & R2).
      split; [split; [congruence | discriminate]|].
      split; [discriminate|].
      destruct (placedMarker s) as [marker|] eqn:E; [|now apply N].
      split; [rewrite F by discriminate; simpl; now rewrite E|].
      exists point. split; [reflexivity | now apply R2].
    + destruct R as (R1 & R2).
      split; [split; [reflexivity | intros _; exact R1]|].
      split; [intros _; exact R2|]. rewrite R2. now apply N.
  - intros point.
    pose proof (accounted_setAnnotationPosition point s Acc0) as (_ & _ & F').
    assert (X : exists marker,
               placedMarker (setAnnotationPosition point s) = Some marker
               /\ position marker = Vector3.liftY point 0.1%float).
    { unfold setAnnotationPosition. simpl.
      destruct (previewMarker s); simpl; destruct (placedMarker s); simpl;
        eexists; split; reflexivity. }
    destruct X as (marker & X1 & X2). exists marker.
    split; [exact X1|]. split; [exact X2|].
    rewrite (F' PlacedMarker) by discriminate.
    change (map childOf
              (optionList (placedMarker (setAnnotationPosition point s)))
            = [childOf marker]).
    now rewrite X1.
Qed.

(** ** Placing *)

(** X11.  In every reachable state in PlacingAnnotation mode with the
    model loaded, a preview marker exists; moving the pointer over the
    model shows it 0.09 above the point under the pointer, moving the
    pointer off the model hides it where it is, and a click on the model
    hides it.  Before the model is loaded or outside that mode, moving the
    pointer changes nothing. *)
Theorem preview_follows_the_pointer (e : Env) (page : Dom.t)
    (events : list Event) (ev : Pointer) :
  let s := run events (initial e page) in
  (model s = None \/ isAddingAnnotation s = false ->
   onCanvasMouseMove ev s = s)
  /\ (model s <> None -> isAddingAnnotation s = true ->
      exists marker,
        previewMarker s = Some marker
        /\ previewMarker (onCanvasMouseMove ev s)
           = Some match modelHit ev with
                  | Some point =>
                      set_visible true
                        (set_position (Vector3.liftY point 0.09%float) marker)
                  | None => set_visible false marker
                  end
        /\ forall point,
             previewMarker (setAnnotationPosition point s)
             = Some (set_visible false marker)).
Proof.
  intros s. split.
  - intros [H|H]; unfold onCanvasMouseMove; [now rewrite H|].
    destruct (model s); [|reflexivity]. now rewrite H.
  - intros Hm A. destruct (Inv2_reachable e page events) as (_ & (P & _) & _).
    fold s in P.
    destruct (previewMarker s) as [marker|] eqn:E;
      [|exfalso; now apply (proj1 P A)].
    exists marker. split; [reflexivity|]. split.
    + unfold onCanvasMouseMove. destruct (model s); [|congruence].
      rewrite A, E. simpl. destruct (modelHit ev); reflexivity.
    + intros point. unfold setAnnotationPosition. simpl. rewrite E. simpl.
      destruct (placedMarker s); reflexivity.
Qed.

(** X14.  Entering PlacingAnnotation mode starts a blank session: the
    title and description inputs are emptied, no position is staged, the
    save button is disabled, and a save at that point is rejected and
    returns the state as it is, whatever was typed or staged before. *)
Theorem placement_starts_blank (s : State) :
  isAddingAnnotation s = false ->
  let s' := toggleAddAnnotationMode s in
  isAddingAnnotation s' = true
  /\ Dom.annotationTitle (dom s') = []
  /\ Dom.annotationDescription (dom s') = []
  /\ pendingAnnotationPosition s' = None
  /\ Dom.saveDisabled (dom s') = true
  /\ Dom.annotationModalHidden (dom s') = false
  /\ saveAnnotation s' = s'.
Proof.
  intros A s'.
  assert (X : isAddingAnnotation s' = true
              /\ Dom.annotationTitle (dom s') = []
              /\ Dom.annotationDescription (dom s') = []
              /\ pendingAnnotationPosition s' = None
              /\ Dom.saveDisabled (dom s') = true
              /\ Dom.annotationModalHidden (dom s') = false).
  { unfold s', toggleAddAnnotationMode. simpl. rewrite A. simpl.
    destruct (previewMarker s); simpl; repeat split; reflexivity. }
  destruct X as (X1 & X2 & X3 & X4 & X5 & X6).
  repeat split; trivial.
  apply saveAnnotation_rejects. right. exact X4.
Qed.

(** ** The store *)

Lemma content_renumberFrom (i : Z) (l : list Annotation.t) :
  map content (renumberFrom i l) = map content l.
Proof. revert i. induction l as [|a l IH]; intros i; simpl; [|rewrite IH]; reflexivity. Qed.

Lemma splice1_in_range {A : Type} (a : list A) (index : Z) :
  0 <= index < Z.of_nat (List.length a) ->
  JsArray.splice1 index a
  = firstn (Z.to_nat index) a ++ skipn (S (Z.to_nat index)) a
    /\ S (List.length (JsArray.splice1 index a)) = List.length a.
Proof.
  intros H. unfold JsArray.splice1.
  assert (E : (index <? 0) = false) by (apply Z.ltb_ge; lia).
  rewrite E, Z.min_l by lia. split; [reflexivity|].
  rewrite length_app, length_firstn, length_skipn. lia.
Qed.

(** X13.  In every reachable state, deleting at an index within [0, N-1]
    removes exactly that entry: the store has one entry less, the titles,
    descriptions and positions of the other entries are kept in their
    order, and the cursor becomes the smaller of its old value and the new
    last index (so a cursor past the deleted entry keeps its number and
    then designates the following annotation). *)
Theorem delete_removes_one_entry (e : Env) (page : Dom.t)
    (events : list Event) (index : Z) :
  let s := run events (initial e page) in
  0 <= index < count s ->
  let s' := deleteAnnotation index s in
  count s' = count s - 1
  /\ map content (annotations s')
     = firstn (Z.to_nat index) (map content (annotations s))
       ++ skipn (S (Z.to_nat index)) (map content (annotations s))
  /\ tourIndex s' = Z.min (tourIndex s) (count s' - 1).
Proof.
  intros s H s'. destruct (Inv_reachable e page events) as (_ & C & _).
  fold s in C. unfold cursorOk, count in *.
  destruct (deleteAnnotation_fields index s) as (A & T & _). fold s' in A, T.
  destruct (splice1_in_range (annotations s) index H) as [Sp Len].
  rewrite renumberFrom_length in T.
  assert (N : Z.of_nat (List.length (annotations s'))
              = Z.of_nat (List.length (annotations s)) - 1)
    by (rewrite A, renumberFrom_length; lia).
  split; [exact N|]. split.
  - rewrite A, content_renumberFrom, Sp, map_app, firstn_map, skipn_map.
    reflexivity.
  - rewrite T, N. rewrite Z.geb_leb.
    destruct (Z.eqb_spec (Z.of_nat (List.length (JsArray.splice1 index (annotations s)))) 0);
      destruct (Z.leb_spec (Z.of_nat (List.length (JsArray.splice1 index (annotations s)))) (tourIndex s));
      lia.
Qed.

Lemma saveAnnotation_tourIndex (s : State) :
  tourIndex (saveAnnotation s) = tourIndex s.
Proof.
  assert (T : forall st, tourIndex (toggleAddAnnotationMode st) = tourIndex st).
  { intros. unfold toggleAddAnnotationMode. simpl.
    destruct (negb (isAddingAnnotation st)); simpl;
      destruct (previewMarker st); simpl; try destruct (placedMarker st);
      reflexivity. }
  unfold saveAnnotation. destruct (JsString.truthy _); [|reflexivity].
  destruct (pendingAnnotationPosition s); [|reflexivity].
  destruct (updateAnnotationList _);
    [|simpl; destruct (placedMarker s); reflexivity].
  rewrite T.
  match goal with |- context [update3DAnnotationMarkers ?s'] =>
    destruct (update3D_frame s') as (ch & k & ms & E) end.
  rewrite E. simpl. destruct (placedMarker s); reflexivity.
Qed.

(** X12.  In every reachable state, a save that goes through followed by
    the deletion of the new last entry gives back the annotation list and
    the tour cursor as they were before the save. *)
Theorem save_then_delete_last (e : Env) (page : Dom.t) (events : list Event)
    (p : Vector3.t) :
  let s := run events (initial e page) in
  JsString.trim (Dom.annotationTitle (dom s)) <> [] ->
  pendingAnnotationPosition s = Some p ->
  annotations (deleteAnnotation (count s) (saveAnnotation s)) = annotations s
  /\ tourIndex (deleteAnnotation (count s) (saveAnnotation s)) = tourIndex s.
Proof.
  intros s T P. destruct (Inv_reachable e page events) as (O & C & _).
  fold s in O, C. unfold cursorOk, count in *.
  destruct (deleteAnnotation_fields (Z.of_nat (List.length (annotations s)))
              (saveAnnotation s)) as (A & I & _).
  rewrite (saveAnnotation_appends s p T P) in A, I.
  assert (Sp : forall a : Annotation.t,
             JsArray.splice1 (Z.of_nat (List.length (annotations s)))
               (annotations s ++ [a]) = annotations s).
  { intros a. unfold JsArray.splice1.
    assert (E : (Z.of_nat (List.length (annotations s)) <? 0) = false)
      by (apply Z.ltb_ge; lia).
    assert (Hmin : Z.min (Z.of_nat (List.length (annotations s)))
                     (Z.of_nat (List.length (annotations s ++ [a])))
                   = Z.of_nat (List.length (annotations s)))
      by (rewrite length_app; simpl; lia).
    rewrite E, Hmin, Nat2Z.id.
    rewrite firstn_app, firstn_all, Nat.sub_diag.
    rewrite skipn_all2 by (rewrite length_app; simpl; lia).
    simpl. now rewrite !app_nil_r. }
  rewrite Sp in A, I.
  assert (R : renumberFrom 0 (annotations s) = annotations s).
  { apply renumberFrom_fixed. unfold ordinalsOk, ordinals in O. rewrite O.
    apply map_ext. intros; lia. }
  rewrite R in A, I. split; [exact A|].
  rewrite I, saveAnnotation_tourIndex, Z.geb_leb.
  destruct (Z.eqb_spec (Z.of_nat (List.length (annotations s))) 0);
    destruct (Z.leb_spec (Z.of_nat (List.length (annotations s))) (tourIndex s));
    lia.
Qed.

(** ** What the registered listeners can reach *)

Lemma tourStep_views (s s' : State) :
  tourStep s s' ->
  measureView s' = measureView s /\ annotations s' = annotations s.
Proof.
  intros (k & f & p & q & a & i & h & t & d & ->). split; reflexivity.
Qed.

Lemma toggleAddAnnotationMode_views (s : State) :
  measureView (toggleAddAnnotationMode s) = measureView s
  /\ annotations (toggleAddAnnotationMode s) = annotations s.
Proof.
  unfold toggleAddAnnotationMode, measureView. simpl.
  destruct (negb (isAddingAnnotation s)); simpl;
    destruct (previewMarker s); simpl; try destruct (placedMarker s);
    split; reflexivity.
Qed.

Lemma update3D_views (s : State) :
  measureView (update3DAnnotationMarkers s) = measureView s
  /\ annotations (update3DAnnotationMarkers s) = annotations s.
Proof.
  destruct (update3D_frame s) as (ch & n & ms & E). rewrite E.
  split; reflexivity.
Qed.

Lemma saveAnnotation_measureView (s : State) :
  measureView (saveAnnotation s) = measureView s.
Proof.
  unfold saveAnnotation. destruct (JsString.truthy _); [|reflexivity].
  destruct (pendingAnnotationPosition s); [|reflexivity].
  destruct (updateAnnotationList _);
    [rewrite (proj1 (toggleAddAnnotationMode_views _)),
       (proj1 (update3D_views _))|];
    unfold measureView; simpl; destruct (placedMarker s); reflexivity.
Qed.

Lemma deleteAnnotation_measureView (index : Z) (s : State) :
  measureView (deleteAnnotation index s) = measureView s.
Proof.
  unfold deleteAnnotation.
  destruct (updateAnnotationList _); rewrite ?(proj1 (update3D_views _));
    unfold measureView; simpl;
    destruct (_ =? 0); simpl; destruct (_ >=? _); reflexivity.
Qed.

Lemma onCanvasClick_views (ev : Pointer) (s : State) :
  annotations (onCanvasClick ev s) = annotations s
  /\ (isMeasuring s = false ->
      measureView (onCanvasClick ev s) = measureView s).
Proof.
  unfold onCanvasClick. destruct (model s); [|split; reflexivity].
  destruct (markerTarget ev s) as [index|].
  { destruct (tourStep_views _ _ (focusAnnotation_tourStep index s)) as [M A].
    split; [exact A | intros _; exact M]. }
  destruct (modelHit ev) as [point|]; [|split; reflexivity].
  destruct (isMeasuring s) eqn:Me; simpl.
  - split; [|discriminate].
    destruct (_ <? _)%nat.
    + unfold addMeasurePoint. simpl.
      destruct (measurePoints s ++ [point]) as [|p0 [|p1 [|p2 l]]]; reflexivity.
    + destruct (isAddingAnnotation s); [|reflexivity].
      unfold setAnnotationPosition. simpl.
      destruct (previewMarker s); simpl; destruct (placedMarker s); reflexivity.
  - destruct (isAddingAnnotation s); [|split; reflexivity].
    unfold setAnnotationPosition, measureView. simpl.
    destruct (previewMarker s); simpl; destruct (placedMarker s); simpl;
      rewrite ?Me; split; reflexivity.
Qed.

Lemma onCanvasMouseMove_views (ev : Pointer) (s : State) :
  measureView (onCanvasMouseMove ev s) = measureView s
  /\ annotations (onCanvasMouseMove ev s) = annotations s.
Proof.
  unfold onCanvasMouseMove. destruct (model s); [|split; reflexivity].
  destruct (negb _); [split; reflexivity|].
  destruct (previewMarker s); [|split; reflexivity].
  destruct (modelHit ev); split; reflexivity.
Qed.

Lemma onKeyDown_views (key : Key) (s : State) :
  measureView (onKeyDown key s) = measureView s
  /\ annotations (onKeyDown key s) = annotations s.
Proof.
  destruct key; simpl; [| | |split; reflexivity].
  - unfold cancelAnnotation.
    assert (X : measureView (if isAddingAnnotation s
                             then toggleAddAnnotationMode s else s)
                = measureView s
                /\ annotations (if isAddingAnnotation s
                                then toggleAddAnnotationMode s else s)
                   = annotations s)
      by (destruct (isAddingAnnotation s);
          [apply toggleAddAnnotationMode_views | split; reflexivity]).
    destruct (isTourActive _); [|exact X].
    destruct X as [X1 X2]. split; [exact X1 | exact X2].
  - destruct (isTourActive s); [|split; reflexivity].
    apply tourStep_views, nextTourStop_tourStep.
  - destruct (isTourActive s); [|split; reflexivity].
    apply tourStep_views, prevTourStop_tourStep.
Qed.

Lemma handle_measureView (e : Event) (s : State) :
  e <> ToggleMeasure -> isMeasuring s = false ->
  measureView (handle e s) = measureView s.
Proof.
  intros N M. destruct e; simpl; try reflexivity; try congruence.
  - now apply onCanvasClick_views.
  - apply onCanvasMouseMove_views.
  - apply tourStep_views, resetView_tourStep.
  - apply toggleAddAnnotationMode_views.
  - apply toggleAddAnnotationMode_views.
  - apply saveAnnotation_measureView.
  - destruct (isTourActive s);
      [apply (tourStep_views s), endTour_tourStep
      | apply tourStep_views, startTour_tourStep].
  - apply tourStep_views, prevTourStop_tourStep.
  - apply tourStep_views, nextTourStop_tourStep.
  - apply tourStep_views, focusAnnotation_tourStep.
  - apply deleteAnnotation_measureView.
  - apply onKeyDown_views.
  - apply tourStep_views, animationFrame_tourStep.
Qed.

Lemma handle_annotations (e : Event) (s : State) :
  e <> ClickSaveAnnotation -> (forall index, e <> ClickDelete index) ->
  annotations (handle e s) = annotations s.
Proof.
  intros N D.
  destruct e as [| | | | | | | | | | |index|index| | | | | |]; simpl;
    try reflexivity; try congruence; try (exfalso; now apply (D index)).
  - apply onCanvasClick_views.
  - apply onCanvasMouseMove_views.
  - apply tourStep_views, resetView_tourStep.
  - apply toggleAddAnnotationMode_views.
  - apply toggleAddAnnotationMode_views.
  - destruct (isTourActive s);
      [apply (tourStep_views s), endTour_tourStep
      | apply tourStep_views, startTour_tourStep].
  - apply tourStep_views, prevTourStop_tourStep.
  - apply tourStep_views, nextTourStop_tourStep.
  - apply tourStep_views, focusAnnotation_tourStep.
  - apply onKeyDown_views.
  - apply tourStep_views, animationFrame_tourStep.
  - unfold toggleMeasureMode, clearMeasurement.
    rewrite sceneRemoveAll_removeAll. simpl.
    destruct (measureLine s); simpl; destruct (negb (isMeasuring s));
      reflexivity.
Qed.

(** X15.  No listener that [setupEventListeners] registers calls
    [toggleMeasureMode]: along every sequence of the registered events
    Measuring mode stays off, no measurement point, marker or line is ever
    held, and so at most one interaction mode is on. *)
Theorem measuring_is_never_entered (e : Env) (page : Dom.t)
    (events : list Event) :
  ~ In ToggleMeasure events ->
  let s := run events (initial e page) in
  isMeasuring s = false
  /\ measurePoints s = []
  /\ measureMarkers s = []
  /\ measureLine s = None
  /\ exclusive s.
Proof.
  intros H s.
  assert (G : forall st, measureView st = (false, [], [], None) ->
                         ~ In ToggleMeasure events ->
                         measureView (run events st) = (false, [], [], None)).
  { unfold run. clear. induction events as [|ev l IH]; intros st Hs H; simpl;
      [assumption|].
    apply IH; [|intros Hin; apply H; now right].
    rewrite handle_measureView; [assumption | | ].
    - intros E. apply H. left. now symmetry.
    - unfold measureView in Hs. congruence. }
  specialize (G (initial e page) eq_refl H). fold s in G.
  unfold measureView in G. injection G as G1 G2 G3 G4.
  unfold exclusive. rewrite G1. repeat split; assumption.
Qed.

Lemma splice1_cases {A : Type} (a : list A) (index : Z) :
  JsArray.splice1 index a = a
  \/ S (List.length (JsArray.splice1 index a)) = List.length a.
Proof.
  unfold JsArray.splice1.
  set (start := Z.to_nat (if index <? 0
                          then Z.max (Z.of_nat (List.length a) + index) 0
                          else Z.min index (Z.of_nat (List.length a)))).
  destruct (Nat.lt_ge_cases start (List.length a)) as [L|L].
  - right. rewrite length_app, length_firstn, length_skipn. lia.
  - left. rewrite firstn_all2, skipn_all2 by lia. apply app_nil_r.
Qed.

(** X18.  The annotation list changes only by a save or a deletion: every
    other event leaves it as it is; in a reachable state a save leaves it
    or appends one entry, and a deletion leaves it or makes it one entry
    shorter. *)
Theorem store_changes_by_save_and_delete (e : Env) (page : Dom.t)
    (events : list Event) (ev : Event) :
  let s := run events (initial e page) in
  (ev <> ClickSaveAnnotation -> (forall index, ev <> ClickDelete index) ->
   annotations (handle ev s) = annotations s)
  /\ (saveAnnotation s = s
      \/ exists a, annotations (saveAnnotation s) = annotations s ++ [a])
  /\ forall index,
       annotations (deleteAnnotation index s) = annotations s
       \/ S (List.length (annotations (deleteAnnotation index s)))
          = List.length (annotations s).
Proof.
  intros s. split; [apply handle_annotations|]. split.
  - destruct (JsString.trim (Dom.annotationTitle (dom s))) eqn:T.
    + left. apply saveAnnotation_rejects. now left.
    + destruct (pendingAnnotationPosition s) as [p|] eqn:P.
      * right. eexists. apply (saveAnnotation_appends s p); [|exact P].
        rewrite T. discriminate.
      * left. apply saveAnnotation_rejects. now right.
  - intros index. destruct (Inv_reachable e page events) as (O & _).
    fold s in O. destruct (deleteAnnotation_fields index s) as (A & _).
    rewrite A. destruct (splice1_cases (annotations s) index) as [E|E].
    + left. rewrite E. apply renumberFrom_fixed.
      unfold ordinalsOk, ordinals in O. rewrite O.
      apply map_ext. intros; lia.
    + right. now rewrite renumberFrom_length.
Qed.

(** ** What the redraw functions show *)











(** ** More theorems at sample sessions *)

Lemma focus_shows_and_animates_at_first :
  let s := run placeOne (initial tickingHost blankPage) in
  let a := Annotation.mk 1 (JsString.of_string "A") noDescription origin in
  let s' := focusAnnotation 0 s in
  JsArray.get (annotations s) 0 = Some a
  /\ tourIndex s' = 0
  /\ Dom.infoTitle (dom s') = JsString.of_string "A"
  /\ Dom.infoPanelHidden (dom s') = false
  /\ World.clockReads (world s') = S (S (World.clockReads (world s)))
  /\ World.frames (world s')
     = World.frames (world s)
       ++ [mkAnimation (World.cameraPosition (world s))
             (World.controlsTarget (world s)) (Vector3.mk 0.5 0.3 1.5)
             origin 1000
             (performance_now tickingHost (World.clockReads (world s)))].
Proof.
  intros s a s'.
  assert (H : JsArray.get (annotations s) 0 = Some a)
    by (vm_compute; reflexivity).
  destruct (focus_shows_and_animates s 0 a H)
    as (F1 & F2 & _ & F4 & _ & _ & F7 & _ & F9).
  split; [exact H|]. split; [exact F1|]. split; [exact F2|].
  split; [exact F4|]. split; [exact F7|].
  unfold s'. rewrite F9. vm_compute. reflexivity.
Defined.

Lemma placement_starts_blank_after_cancel :
  isAddingAnnotation (run stageOne start |> cancelAnnotation) = false
  /\ let s := run stageOne start |> cancelAnnotation in
     let s' := toggleAddAnnotationMode s in
     isAddingAnnotation s' = true
     /\ Dom.annotationTitle (dom s') = []
     /\ Dom.annotationDescription (dom s') = []
     /\ pendingAnnotationPosition s' = None
     /\ Dom.saveDisabled (dom s') = true
     /\ Dom.annotationModalHidden (dom s') = false
     /\ saveAnnotation s' = s'.
Proof.
  assert (H : isAddingAnnotation (run stageOne start |> cancelAnnotation)
              = false) by (vm_compute; reflexivity).
  split; [exact H|].
  exact (placement_starts_blank (run stageOne start |> cancelAnnotation) H).
Defined.

Lemma delete_removes_one_entry_at_first :
  let s := run placeTwo (initial frozenHost blankPage) in
  0 <= 0 < count s
  /\ let s' := deleteAnnotation 0 s in
     count s' = count s - 1
     /\ map content (annotations s')
        = firstn (Z.to_nat 0) (map content (annotations s))
          ++ skipn (S (Z.to_nat 0)) (map content (annotations s))
     /\ tourIndex s' = Z.min (tourIndex s) (count s' - 1).
Proof.
  intros s.
  assert (H : 0 <= 0 < count s) by (vm_compute; split; [discriminate|reflexivity]).
  split; [exact H|].
  exact (delete_removes_one_entry frozenHost blankPage placeTwo 0 H).
Defined.

Lemma save_then_delete_last_at_stage :
  let events := stageOne ++ [InputTitle (JsString.of_string "A")] in
  let s := run events (initial frozenHost blankPage) in
  JsString.trim (Dom.annotationTitle (dom s)) <> []
  /\ pendingAnnotationPosition s = Some origin
  /\ annotations (deleteAnnotation (count s) (saveAnnotation s))
     = annotations s
  /\ tourIndex (deleteAnnotation (count s) (saveAnnotation s)) = tourIndex s.
Proof.
  intros events s.
  assert (T : JsString.trim (Dom.annotationTitle (dom s)) <> [])
    by (vm_compute; discriminate).
  assert (P : pendingAnnotationPosition s = Some origin)
    by (vm_compute; reflexivity).
  split; [exact T|]. split; [exact P|].
  exact (save_then_delete_last frozenHost blankPage events origin T P).
Defined.

Lemma measuring_is_never_entered_at_two :
  ~ In ToggleMeasure placeTwo
  /\ let s := run placeTwo (initial frozenHost blankPage) in
     isMeasuring s = false
     /\ measurePoints s = []
     /\ measureMarkers s = []
     /\ measureLine s = None
     /\ exclusive s.
Proof.
  assert (H : ~ In ToggleMeasure placeTwo).
  { unfold placeTwo. simpl. intros H.
    repeat (destruct H as [H|H]; [discriminate H|]). exact H. }
  split; [exact H|].
  exact (measuring_is_never_entered frozenHost blankPage placeTwo H).
Defined.

(** ** The list redraw that throws, at sample sessions *)

(** A save whose title opens a comment: the redraw draws the two cards
    before the new one and throws.  The annotation is stored and the
    placed marker removed, but the markers are not rebuilt and the mode is
    not left. *)
Example save_that_throws :
  let s := run (placeTwo
                ++ [ClickAddAnnotation; CanvasClick (pick (Vector3.mk 0 1 0));
                    InputTitle openComment]) start in
  let s' := saveAnnotation s in
  returns (updateAnnotationList s) = true
  /\ returns (updateAnnotationList s') = false
  /\ List.length (written (updateAnnotationList s')) = 2%nat
  /\ count s' = 3
  /\ List.length (annotationMarkers s') = 2%nat
  /\ isAddingAnnotation s' = true
  /\ placedMarker s' = None
  /\ pendingAnnotationPosition s' = Some (Vector3.mk 0 1 0)
  /\ Dom.saveDisabled (dom s') = false.
Proof. vm_compute. repeat split. Qed.

(** After such a save, deleting [A] and [B] leaves their two markers in
    the scene with one annotation in the store: a hit on the marker at
    place 1 calls [focusAnnotation(1)], which focuses nothing, and a hit
    on the marker at place 0, made for [A], focuses the third
    annotation. *)
Example stale_marker_hit :
  let s := run staleMarkers start in
  let hit k := mkPointer (Some k) None in
  model s <> None
  /\ isMeasuring s = false /\ isAddingAnnotation s = false
  /\ map Annotation.title (annotations s) = [openComment]
  /\ List.length (annotationMarkers s) = 2%nat
  /\ markerTarget (hit 1%nat) s = Some 1
  /\ onCanvasClick (hit 1%nat) s = s
  /\ tourIndex (onCanvasClick (hit 0%nat) s) = 0
  /\ Dom.infoTitle (dom (onCanvasClick (hit 0%nat) s)) = openComment
  /\ map position (annotationMarkers s)
     = [Vector3.liftY origin (0.06 * 1.0)%float;
        Vector3.liftY (Vector3.mk 1 0 0) (0.06 * 1.0)%float]
  /\ map Annotation.position (annotations s) = [Vector3.mk 0 1 0].
Proof. vm_compute. repeat split. discriminate. Qed.
